(** * A.R.O.N.A. resource manager and real-time scheduler

    A shallow embedding of [arona_resource_manager.py]: the hardware
    accounting records, the derivation of a task's resource request, the
    resource manager (hot-plug, allocation, release) and the scheduler
    (submission, dispatch), followed by the properties its specification
    states about them.

    Conventions of the embedding.
    - Amounts are Python floats in the source, that is binary64 numbers.
      The embedding has them twice.  The scheduler and the properties of
      control flow, order and bookkeeping structure are stated over exact
      rationals ([Q], equality [==]); these do not depend on how a sum
      rounds.  The records and the resource manager are embedded once more
      in [Binary64], over Rocq's binary64 numbers, and every property that
      depends on rounding (the bounds on the allocated amount, reserve
      followed by release, what a reservation books, the totals after
      hot-plugs) is stated there.
    - A Python [dict] is an insertion-ordered association list with unique
      keys ([Dict]): the source iterates over [items()] and breaks out of the
      loop, so the order is part of the behaviour.
    - Task objects are shared between the queue, the running table and the
      finished list, and mutated in place.  They live in an object store
      ([heap]) and are referred to by their index in it.
    - The [print] statements of the operations are recorded as structured
      events in an output log (the banners of the two constructors are not).
    - [dispatch_tasks] returns the manager's status report, a read-only view
      of the hardware records; the embedding returns the state instead.
    - [time.time()], [random.random()] and [uuid.uuid4()] read from a
      [World], one value per call. *)

From Stdlib Require Import List String Ascii Bool Arith ZArith QArith Qminmax.
From Stdlib Require Import Lia Lqa Permutation Sorted Qround.
From Stdlib Require Floats.
Import ListNotations.

Set Warnings "-inexact-float".

Open Scope string_scope.
Open Scope Q_scope.

(** ** Python arithmetic on amounts *)

(** [x < y] on amounts, as a boolean. *)
Definition Qltb (x y : Q) : bool :=
  (Qnum x * QDen y <? Qnum y * QDen x)%Z.

(** Python's [max(a, b)]: the first argument unless the second is greater. *)
Definition py_max (a b : Q) : Q := if Qltb a b then b else a.

(** Python's [min(a, b)]: the first argument unless the second is smaller. *)
Definition py_min (a b : Q) : Q := if Qltb b a then b else a.

(** Rounding to the nearest integer, ties to the even one. *)
Definition round_half_even (x : Q) : Z :=
  let f := Qfloor x in
  let d := x - inject_Z f in
  if Qltb d (1 # 2) then f
  else if Qltb (1 # 2) d then (f + 1)%Z
  else if Z.even f then f else (f + 1)%Z.

(** Python's [round(x, 2)], taken on the exact value of the amount.  The
    properties below use it at 0 only, where the value of the source and
    the exact one agree. *)
Definition py_round2 (x : Q) : Q :=
  inject_Z (round_half_even (x * 100)) / 100.

(** Python's [sub in s] on strings. *)
Fixpoint str_in (sub s : string) : bool :=
  String.prefix sub s ||
  match s with
  | EmptyString => false
  | String _ s' => str_in sub s'
  end.

(** Python's [l[:n]]: a negative bound counts from the end. *)
Definition slice_to {A : Type} (n : Z) (l : list A) : list A :=
  if (n <? 0)%Z
  then firstn (Z.to_nat (Z.of_nat (List.length l) + n)) l
  else firstn (Z.to_nat n) l.

(** ** Python dictionaries with string keys *)

Module Dict.

Definition t (V : Type) : Type := list (string * V).

Definition empty {V : Type} : t V := [].

Fixpoint get {V : Type} (k : string) (d : t V) : option V :=
  match d with
  | [] => None
  | (k', v) :: d' => if String.eqb k k' then Some v else get k d'
  end.

(** [k in d] *)
Definition mem {V : Type} (k : string) (d : t V) : bool :=
  match get k d with Some _ => true | None => false end.

(** [d[k] = v]: an existing key keeps its position, a new key goes last. *)
Fixpoint set {V : Type} (k : string) (v : V) (d : t V) : t V :=
  match d with
  | [] => [(k, v)]
  | (k', v') :: d' =>
      if String.eqb k k' then (k', v) :: d' else (k', v') :: set k v d'
  end.

(** [del d[k]] *)
Fixpoint del {V : Type} (k : string) (d : t V) : t V :=
  match d with
  | [] => []
  | (k', v') :: d' =>
      if String.eqb k k' then d' else (k', v') :: del k d'
  end.

Definition keys {V : Type} (d : t V) : list string := map fst d.

Definition items {V : Type} (d : t V) : list (string * V) := d.

(** The keys of a dictionary are pairwise distinct. *)
Definition wf {V : Type} (d : t V) : Prop := NoDup (keys d).

End Dict.

(** ** Configuration constants *)

Definition TOTAL_CPU_CORES : Q := 8.
Definition TOTAL_GPU_POWER : Q := 100.
Definition TOTAL_RAM_GB : Q := 16.
Definition MAX_ALLOCATION_PER_TASK : Q := 1 # 2.

Inductive TaskPriority : Type :=
| CRITICAL
| REAL_TIME
| HIGH
| MEDIUM
| LOW.

Definition value (p : TaskPriority) : Z :=
  match p with
  | CRITICAL => 5
  | REAL_TIME => 4
  | HIGH => 3
  | MEDIUM => 2
  | LOW => 1
  end.

(** ** The outside world: clock, random numbers, fresh identifiers *)

Record World : Type := mkWorld {
  clock : nat -> Q;
  clock_reads : nat;
  dice : nat -> Q;
  dice_reads : nat;
  ids : nat -> string;
  ids_reads : nat
}.

(** [time.time()] *)
Definition time_time (w : World) : Q * World :=
  (clock w (clock_reads w),
   mkWorld (clock w) (S (clock_reads w)) (dice w) (dice_reads w)
           (ids w) (ids_reads w)).

(** [random.random()] *)
Definition random_random (w : World) : Q * World :=
  (dice w (dice_reads w),
   mkWorld (clock w) (clock_reads w) (dice w) (S (dice_reads w))
           (ids w) (ids_reads w)).

(** [str(uuid.uuid4())] *)
Definition uuid_uuid4 (w : World) : string * World :=
  (ids w (ids_reads w),
   mkWorld (clock w) (clock_reads w) (dice w) (dice_reads w)
           (ids w) (S (ids_reads w))).

(** ** Output log *)

Inductive Event : Type :=
| RM_WARNING_exists (hw_name : string)
| RM_INFO_eGPU (hw_name : string) (gpu_total : Q)
| RM_INFO_RAM (hw_name : string) (ram_total : Q)
| RM_WARNING_unknown (res_name : string)
| RM_ALLOCATED (task_name : string) (amount : Q) (hw_unit res_name : string)
| RM_WARNING_cannot_free (task_name status : string)
| RM_FREE (task_name : string) (amount : Q) (hw_unit res_name : string)
| RTS_SUBMIT (task_name : string) (p : TaskPriority)
| RTS_DISPATCHED (task_name : string) (p : TaskPriority)
| RTS_BLOCKED (task_name : string)
| RTS_STATUS (running queued finished : nat).

(** ** Hardware status *)

Module HardwareStatus.

Record t : Type := mk {
  name : string;
  total : Q;
  unit : string;
  allocated : Q;
  available : Q;
  is_external : bool
}.

(** [HardwareStatus.__init__] *)
Definition init (name : string) (total_capacity : Q) (unit : string) : t :=
  mk name total_capacity unit 0 (total_capacity - 0) false.

(** [HardwareStatus.update_usage] *)
Definition update_usage (hw : t) (usage : Q) : t :=
  let allocated' := py_max 0 usage in
  mk (name hw) (total hw) (unit hw) allocated'
     (total hw - allocated') (is_external hw).

Definition set_is_external (hw : t) (b : bool) : t :=
  mk (name hw) (total hw) (unit hw) (allocated hw) (available hw) b.

(** [hw.total += capacity; hw.name = new_name]: the two assignments of the
    hot-plug path.  No other field is written. *)
Definition add_total_rename (hw : t) (capacity : Q) (new_name : string) : t :=
  mk new_name (total hw + capacity) (unit hw) (allocated hw)
     (available hw) (is_external hw).

(** The dictionary that [to_dict] returns. *)
Record report : Type := mk_report {
  r_name : string;
  r_total : Q;
  r_unit : string;
  r_allocated : Q;
  r_available : Q;
  r_is_external : bool
}.

(** [HardwareStatus.to_dict] *)
Definition to_dict (hw : t) : report :=
  mk_report (name hw) (total hw) (unit hw) (py_round2 (allocated hw))
            (py_round2 (available hw)) (is_external hw).

End HardwareStatus.

(** ** Tasks *)

Module AGI_Task.

Record t : Type := mk {
  task_id : string;
  name : string;
  priority : TaskPriority;
  complexity : Q;
  resource_request : Dict.t Q;
  creation_time : Q;
  status : string;
  start_time : Q
}.

Definition set_status (task : t) (s : string) : t :=
  mk (task_id task) (name task) (priority task) (complexity task)
     (resource_request task) (creation_time task) s (start_time task).

Definition set_start_time (task : t) (x : Q) : t :=
  mk (task_id task) (name task) (priority task) (complexity task)
     (resource_request task) (creation_time task) (status task) x.

(** [AGI_Task._calculate_request] *)
Definition _calculate_request (complexity : Q) : Dict.t Q :=
  let cpu_req := complexity * (1 # 5) in
  let gpu_req := complexity * (1 # 10) in
  let ram_req := complexity * (1 # 2) in
  let cpu_req := py_min (cpu_req * TOTAL_CPU_CORES)
                        (MAX_ALLOCATION_PER_TASK * TOTAL_CPU_CORES) in
  let gpu_req := py_min (gpu_req * TOTAL_GPU_POWER)
                        (MAX_ALLOCATION_PER_TASK * TOTAL_GPU_POWER) in
  let ram_req := py_min (ram_req * TOTAL_RAM_GB)
                        (MAX_ALLOCATION_PER_TASK * TOTAL_RAM_GB) in
  [("CPU", cpu_req); ("GPU", gpu_req); ("RAM", ram_req)].

(** The string that [execute_and_finish] returns, by its two parameters:
    ["Task {name} finished successfully in {duration:.4f}s"]. *)
Record finished_message : Type := mk_message {
  m_name : string;
  m_duration : Q
}.

(** [AGI_Task.execute_and_finish].  The call sleeps for [duration * 0.01]
    seconds between the clock reading and the return; sleeping changes
    neither the task nor what the world will answer. *)
Definition execute_and_finish (task : t) (duration : Q) (w : World)
  : t * World * finished_message :=
  let task1 := set_status task "Finished" in
  let '(now, w1) := time_time w in
  let task2 := set_start_time task1 now in
  (task2, w1, mk_message (name task2) duration).

End AGI_Task.

(** ** Name resolution in the module *)

Inductive PyError : Type :=
| NameError (name : string)
| KeyError (key : string).

(** The names bound at the top level of [arona_resource_manager.py]: its
    imports (lines 12 to 16), constants, classes and function. *)
Definition module_globals : list string :=
  ["time"; "random"; "Dict"; "List"; "Any"; "Optional"; "deque"; "Enum";
   "ARONA_CORE_ID"; "TOTAL_CPU_CORES"; "TOTAL_GPU_POWER"; "TOTAL_RAM_GB";
   "MAX_ALLOCATION_PER_TASK"; "TaskPriority"; "HardwareStatus"; "AGI_Task";
   "ResourceManager"; "RealTimeScheduler"; "run_arona_resource_system"].

(** The built-in names the module's code refers to. *)
Definition builtins : list string :=
  ["str"; "max"; "min"; "round"; "print"; "list"; "sorted"; "len"].

(** A global name resolves in the module's globals, then in the built-ins. *)
Definition resolves (globals : list string) (n : string) : bool :=
  existsb (String.eqb n) globals || existsb (String.eqb n) builtins.

(** The statements of [AGI_Task.__init__] once [uuid] has resolved. *)
Definition AGI_Task_body (w : World) (task_name : string)
    (priority : TaskPriority) (complexity : Q) : AGI_Task.t * World :=
  let '(task_id, w1) := uuid_uuid4 w in
  let resource_request := AGI_Task._calculate_request complexity in
  let '(creation_time, w2) := time_time w1 in
  (AGI_Task.mk task_id task_name priority complexity resource_request
               creation_time "Pending" 0, w2).

(** [AGI_Task.__init__], run in a module whose global names are [globals].
    Its first statement evaluates [uuid.uuid4()], so the name [uuid] is
    looked up before anything is assigned. *)
Definition AGI_Task_init (globals : list string) (w : World)
    (task_name : string) (priority : TaskPriority) (complexity : Q)
  : PyError + (AGI_Task.t * World) :=
  if resolves globals "uuid"
  then inr (AGI_Task_body w task_name priority complexity)
  else inl (NameError "uuid").

(** The constructor as the module stands. *)
Definition AGI_Task_new := AGI_Task_init module_globals.

(** ** Resource manager *)

Module ResourceManager.

Record t : Type := mk {
  hardware : Dict.t HardwareStatus.t;
  external_hardware : Dict.t HardwareStatus.t
}.

(** [ResourceManager.__init__] *)
Definition init : t :=
  mk [("CPU", HardwareStatus.init "CPU_Internal" TOTAL_CPU_CORES "Cores");
      ("GPU", HardwareStatus.init "GPU_Internal" TOTAL_GPU_POWER "%");
      ("RAM", HardwareStatus.init "RAM_Internal" TOTAL_RAM_GB "GB")]
     Dict.empty.

(** [self.hardware[kind].total += capacity; self.hardware[kind].name = new_name] *)
Definition merge_into (kind new_name : string) (capacity : Q)
    (hardware : Dict.t HardwareStatus.t)
  : PyError + Dict.t HardwareStatus.t :=
  match Dict.get kind hardware with
  | Some hw =>
      inr (Dict.set kind
             (HardwareStatus.add_total_rename hw capacity new_name) hardware)
  | None => inl (KeyError kind)
  end.

(** [ResourceManager.add_external_hardware] *)
Definition add_external_hardware (rm : t) (name : string) (capacity : Q)
    (unit : string) : PyError + (t * list Event) :=
  if Dict.mem name (hardware rm) || Dict.mem name (external_hardware rm)
  then inr (rm, [RM_WARNING_exists name])
  else
    let hw := HardwareStatus.set_is_external
                (HardwareStatus.init name capacity unit) true in
    let external' := Dict.set name hw (external_hardware rm) in
    if str_in "GPU" name then
      match merge_into "GPU" "GPU_Hybrid" capacity (hardware rm) with
      | inr hardware' =>
          match Dict.get "GPU" hardware' with
          | Some g =>
              inr (mk hardware' external',
                   [RM_INFO_eGPU name (HardwareStatus.total g)])
          | None => inl (KeyError "GPU")
          end
      | inl e => inl e
      end
    else if str_in "RAM" name then
      match merge_into "RAM" "RAM_Hybrid" capacity (hardware rm) with
      | inr hardware' =>
          match Dict.get "RAM" hardware' with
          | Some r =>
              inr (mk hardware' external',
                   [RM_INFO_RAM name (HardwareStatus.total r)])
          | None => inl (KeyError "RAM")
          end
      | inl e => inl e
      end
    else inr (mk (hardware rm) external', []).

(** The first loop of [allocate_resources]: it returns [can_allocate], the
    [required_resources] gathered so far and the warnings printed. *)
Fixpoint check_request (hardware : Dict.t HardwareStatus.t)
    (request : list (string * Q)) (required_resources : Dict.t Q)
  : bool * Dict.t Q * list Event :=
  match request with
  | [] => (true, required_resources, [])
  | (res_name, req_amount) :: rest =>
      match Dict.get res_name hardware with
      | Some hw =>
          if Qltb (HardwareStatus.available hw) req_amount
          then (false, required_resources, [])
          else check_request hardware rest
                 (Dict.set res_name req_amount required_resources)
      | None =>
          let '(can_allocate, required', log) :=
            check_request hardware rest required_resources in
          (can_allocate, required', RM_WARNING_unknown res_name :: log)
      end
  end.

(** The second loop of [allocate_resources].  Every key of
    [required_resources] was found in [hardware] by the first loop, so the
    lookup cannot fail; the [None] branch is never taken. *)
Fixpoint apply_request (task_name : string)
    (required_resources : list (string * Q))
    (hardware : Dict.t HardwareStatus.t)
  : Dict.t HardwareStatus.t * list Event :=
  match required_resources with
  | [] => (hardware, [])
  | (res_name, req_amount) :: rest =>
      match Dict.get res_name hardware with
      | Some hw =>
          let hw' := HardwareStatus.update_usage hw
                       (HardwareStatus.allocated hw + req_amount) in
          let '(hardware', log) :=
            apply_request task_name rest (Dict.set res_name hw' hardware) in
          (hardware',
           RM_ALLOCATED task_name req_amount (HardwareStatus.unit hw) res_name
             :: log)
      | None => apply_request task_name rest hardware
      end
  end.

(** [ResourceManager.allocate_resources]: the manager and the task after
    the call, the returned boolean and what was printed. *)
Definition allocate_resources (rm : t) (task : AGI_Task.t)
  : t * AGI_Task.t * bool * list Event :=
  let '(can_allocate, required_resources, log1) :=
    check_request (hardware rm)
      (Dict.items (AGI_Task.resource_request task)) Dict.empty in
  if can_allocate then
    let '(hardware', log2) :=
      apply_request (AGI_Task.name task) (Dict.items required_resources)
        (hardware rm) in
    (mk hardware' (external_hardware rm),
     AGI_Task.set_status task "Running", true, (log1 ++ log2)%list)
  else
    (rm, AGI_Task.set_status task "Queued_Blocked", false, log1).

(** The loop of [free_resources]. *)
Fixpoint release_request (task_name : string) (request : list (string * Q))
    (hardware : Dict.t HardwareStatus.t)
  : Dict.t HardwareStatus.t * list Event :=
  match request with
  | [] => (hardware, [])
  | (res_name, req_amount) :: rest =>
      match Dict.get res_name hardware with
      | Some hw =>
          let hw' := HardwareStatus.update_usage hw
                       (HardwareStatus.allocated hw - req_amount) in
          let '(hardware', log) :=
            release_request task_name rest (Dict.set res_name hw' hardware) in
          (hardware',
           RM_FREE task_name req_amount (HardwareStatus.unit hw) res_name
             :: log)
      | None => release_request task_name rest hardware
      end
  end.

(** [ResourceManager.free_resources] *)
Definition free_resources (rm : t) (task : AGI_Task.t) : t * list Event :=
  if negb (String.eqb (AGI_Task.status task) "Finished") then
    (rm, [RM_WARNING_cannot_free (AGI_Task.name task) (AGI_Task.status task)])
  else
    let '(hardware', log) :=
      release_request (AGI_Task.name task)
        (Dict.items (AGI_Task.resource_request task)) (hardware rm) in
    (mk hardware' (external_hardware rm), log).

(** The dictionary that [get_status_report] returns. *)
Record status_report : Type := mk_status_report {
  Internal_Status : list HardwareStatus.report;
  External_Status : list HardwareStatus.report
}.

(** [ResourceManager.get_status_report] *)
Definition get_status_report (rm : t) : status_report :=
  mk_status_report
    (map (fun kv => HardwareStatus.to_dict (snd kv)) (hardware rm))
    (map (fun kv => HardwareStatus.to_dict (snd kv)) (external_hardware rm)).

End ResourceManager.

(** ** Python's stable sort, descending *)

(** [x] goes before the first element whose key is strictly smaller, hence
    after every element whose key is at least its own. *)
Fixpoint insert_desc {A : Type} (key : A -> Z) (x : A) (l : list A) : list A :=
  match l with
  | [] => [x]
  | y :: l' =>
      if (key y <? key x)%Z then x :: y :: l' else y :: insert_desc key x l'
  end.

(** [sorted(l, key=key, reverse=True)]: descending by key, elements with
    equal keys in their original order. *)
Definition sorted_desc {A : Type} (key : A -> Z) (l : list A) : list A :=
  fold_left (fun acc x => insert_desc key x acc) l [].

(** [deque.remove(x)]: the first occurrence goes. *)
Fixpoint remove_first (x : nat) (l : list nat) : list nat :=
  match l with
  | [] => []
  | y :: l' => if Nat.eqb x y then l' else y :: remove_first x l'
  end.

(** ** Object store of tasks *)

Definition heap_set (r : nat) (task : AGI_Task.t) (heap : list AGI_Task.t)
  : list AGI_Task.t :=
  match nth_error heap r with
  | Some _ => (firstn r heap ++ task :: skipn (S r) heap)%list
  | None => heap
  end.

(** ** Real-time scheduler *)

Module RealTimeScheduler.

(** The scheduler and what it reaches: its resource manager, the task
    objects, the world the calls read from and the output written so far.
    [task_queue], [running_tasks] and [finished_tasks] hold references into
    [heap]. *)
Record t : Type := mk {
  rm : ResourceManager.t;
  heap : list AGI_Task.t;
  task_queue : list nat;
  running_tasks : Dict.t nat;
  finished_tasks : list nat;
  world : World;
  out : list Event
}.

(** [RealTimeScheduler.__init__], on a manager and a store of tasks. *)
Definition init (rm : ResourceManager.t) (heap : list AGI_Task.t)
    (w : World) : t :=
  mk rm heap [] Dict.empty [] w [].

(** [t.priority.value] of the task behind a reference. *)
Definition key (heap : list AGI_Task.t) (r : nat) : Z :=
  match nth_error heap r with
  | Some task => value (AGI_Task.priority task)
  | None => 0%Z
  end.

(** [RealTimeScheduler.submit_task] *)
Definition submit_task (s : t) (r : nat) : t :=
  match nth_error (heap s) r with
  | Some task =>
      mk (rm s) (heap s)
         (sorted_desc (key (heap s)) (task_queue s ++ [r]))
         (running_tasks s) (finished_tasks s) (world s)
         (out s ++ [RTS_SUBMIT (AGI_Task.name task) (AGI_Task.priority task)])
  | None => s
  end.

(** A running task is over: the body of the [if] in the first loop of
    [dispatch_tasks]. *)
Definition finish (s : t) (task_id : string) (r : nat) (task : AGI_Task.t)
  : t :=
  let task' := AGI_Task.set_status task "Finished" in
  let '(rm', log) := ResourceManager.free_resources (rm s) task' in
  mk rm' (heap_set r task' (heap s)) (task_queue s)
     (Dict.del task_id (running_tasks s)) (finished_tasks s ++ [r])
     (world s) (out s ++ log).

Definition set_world (s : t) (w : World) : t :=
  mk (rm s) (heap s) (task_queue s) (running_tasks s) (finished_tasks s)
     w (out s).

(** The first loop of [dispatch_tasks], over a copy of the running table. *)
Fixpoint reap (running : list (string * nat)) (s : t) : t :=
  match running with
  | [] => s
  | (task_id, r) :: rest =>
      match nth_error (heap s) r with
      | Some task =>
          let '(now, w1) := time_time (world s) in
          if Qltb (1 # 2) (now - AGI_Task.start_time task)
          then reap rest (finish (set_world s w1) task_id r task)
          else
            let '(x, w2) := random_random w1 in
            if Qltb x (1 # 10)
            then reap rest (finish (set_world s w2) task_id r task)
            else reap rest (set_world s w2)
      | None => reap rest s
      end
  end.

Definition admissible_status (task : AGI_Task.t) : bool :=
  String.eqb (AGI_Task.status task) "Pending"
  || String.eqb (AGI_Task.status task) "Queued_Blocked".

(** The second loop of [dispatch_tasks], over [tasks_to_process]; it
    returns [tasks_dispatched] with the state. *)
Fixpoint dispatch_loop (tasks_to_process : list nat) (s : t) (tasks_dispatched : nat)
  : t * nat :=
  match tasks_to_process with
  | [] => (s, tasks_dispatched)
  | r :: rest =>
      if Nat.leb 2 tasks_dispatched then (s, tasks_dispatched)
      else
        match nth_error (heap s) r with
        | Some task =>
            if admissible_status task then
              let '(rm', task', ok, log) :=
                ResourceManager.allocate_resources (rm s) task in
              if ok then
                let '(now, w1) := time_time (world s) in
                let task'' := AGI_Task.set_start_time task' now in
                dispatch_loop rest
                  (mk rm' (heap_set r task'' (heap s))
                      (remove_first r (task_queue s))
                      (Dict.set (AGI_Task.task_id task'') r (running_tasks s))
                      (finished_tasks s) w1
                      (out s ++ log
                         ++ [RTS_DISPATCHED (AGI_Task.name task'')
                                            (AGI_Task.priority task'')]))
                  (S tasks_dispatched)
              else
                dispatch_loop rest
                  (mk rm' (heap_set r task' (heap s)) (task_queue s)
                      (running_tasks s) (finished_tasks s) (world s)
                      (out s ++ log ++ [RTS_BLOCKED (AGI_Task.name task')]))
                  tasks_dispatched
            else dispatch_loop rest s tasks_dispatched
        | None => dispatch_loop rest s tasks_dispatched
        end
  end.

(** [RealTimeScheduler.dispatch_tasks].  The returned status report is a
    read-only view of [rm]; the state it is read from is returned. *)
Definition dispatch_tasks (s : t) (max_tasks_to_check : Z) : t :=
  let s1 := reap (Dict.items (running_tasks s)) s in
  let tasks_to_process := slice_to max_tasks_to_check (task_queue s1) in
  let '(s2, _) := dispatch_loop tasks_to_process s1 0%nat in
  mk (rm s2) (heap s2) (task_queue s2) (running_tasks s2)
     (finished_tasks s2) (world s2)
     (out s2 ++ [RTS_STATUS (List.length (running_tasks s2))
                            (List.length (task_queue s2))
                            (List.length (finished_tasks s2))]).

(** The default of [max_tasks_to_check]. *)
Definition dispatch (s : t) : t := dispatch_tasks s 5.

End RealTimeScheduler.

(** ** The demonstration *)

(** A task is constructed and put in the store; its reference is returned. *)
Definition construct (globals : list string) (s : RealTimeScheduler.t)
    (task_name : string) (priority : TaskPriority) (complexity : Q)
  : PyError + (RealTimeScheduler.t * nat) :=
  match AGI_Task_init globals (RealTimeScheduler.world s) task_name priority
          complexity with
  | inl e => inl e
  | inr (task, w) =>
      inr (RealTimeScheduler.mk (RealTimeScheduler.rm s)
             (RealTimeScheduler.heap s ++ [task])
             (RealTimeScheduler.task_queue s)
             (RealTimeScheduler.running_tasks s)
             (RealTimeScheduler.finished_tasks s) w (RealTimeScheduler.out s),
           List.length (RealTimeScheduler.heap s))
  end.

(** [run_arona_resource_system], run in a module whose global names are
    [globals]: the state at the end and the report whose JSON text the last
    lines print.  The pauses between the cycles change no state. *)
Definition run_arona_resource_system (globals : list string) (w : World)
  : PyError + (RealTimeScheduler.t * ResourceManager.status_report) :=
  match ResourceManager.add_external_hardware ResourceManager.init
          "eGPU_RTX_3080" 250 "%" with
  | inl e => inl e
  | inr (rm, log) =>
      let s0 := RealTimeScheduler.mk rm [] [] Dict.empty [] w log in
      match construct globals s0 "Tactical_Ex_Skill_Decision" CRITICAL
              (9 # 10) with
      | inl e => inl e
      | inr (s1, task_critical) =>
      match construct globals s1 "World_Model_Update" REAL_TIME (7 # 10) with
      | inl e => inl e
      | inr (s2, task_realtime) =>
      match construct globals s2 "Student_Stress_Assessment" HIGH (4 # 10) with
      | inl e => inl e
      | inr (s3, task_high_stress) =>
      match construct globals s3 "System_Log_Backup" LOW (1 # 10) with
      | inl e => inl e
      | inr (s4, task_low_log) =>
          let s5 := RealTimeScheduler.submit_task s4 task_low_log in
          let s6 := RealTimeScheduler.submit_task s5 task_high_stress in
          let s7 := RealTimeScheduler.submit_task s6 task_critical in
          let s8 := RealTimeScheduler.submit_task s7 task_realtime in
          let s9 := RealTimeScheduler.dispatch s8 in
          let s10 := RealTimeScheduler.dispatch s9 in
          let s11 := RealTimeScheduler.dispatch s10 in
          let status_report :=
            ResourceManager.get_status_report (RealTimeScheduler.rm s11) in
          if resolves globals "json" then inr (s11, status_report)
          else inl (NameError "json")
      end end end end
  end.

(** * Vocabulary of the properties *)

Import ResourceManager.

(** Every entry of [request] whose kind is tracked fits in what is marked
    available for that kind. *)
Definition fits (hardware : Dict.t HardwareStatus.t)
    (request : list (string * Q)) : Prop :=
  forall k x hw,
    In (k, x) request -> Dict.get k hardware = Some hw ->
    x <= HardwareStatus.available hw.

(** The kinds of [request] the pool does not track, in order. *)
Definition unknown_kinds (hardware : Dict.t HardwareStatus.t)
    (request : list (string * Q)) : list string :=
  filter (fun k => negb (Dict.mem k hardware)) (Dict.keys request).

(** The entries of [request] whose kind the pool tracks, in order. *)
Definition known_part (hardware : Dict.t HardwareStatus.t)
    (request : list (string * Q)) : list (string * Q) :=
  filter (fun kx => Dict.mem (fst kx) hardware) request.

(** The four components of what [allocate_resources] returns. *)
Definition alloc_rm (r : ResourceManager.t * AGI_Task.t * bool * list Event)
  : ResourceManager.t := fst (fst (fst r)).
Definition alloc_task (r : ResourceManager.t * AGI_Task.t * bool * list Event)
  : AGI_Task.t := snd (fst (fst r)).
Definition alloc_ok (r : ResourceManager.t * AGI_Task.t * bool * list Event)
  : bool := snd (fst r).
Definition alloc_log (r : ResourceManager.t * AGI_Task.t * bool * list Event)
  : list Event := snd r.

(** The entry of kind [k] after a successful reservation of [request]. *)
Definition reserved (request : Dict.t Q) (k : string)
    (hw : HardwareStatus.t) : HardwareStatus.t :=
  match Dict.get k request with
  | Some x =>
      HardwareStatus.update_usage hw (HardwareStatus.allocated hw + x)
  | None => hw
  end.

(** The entry of kind [k] after the release of [request]. *)
Definition released (request : Dict.t Q) (k : string)
    (hw : HardwareStatus.t) : HardwareStatus.t :=
  match Dict.get k request with
  | Some x =>
      HardwareStatus.update_usage hw (HardwareStatus.allocated hw - x)
  | None => hw
  end.

(** ** Sequences of calls on the resource manager *)

Inductive Call : Type :=
| Reserve (task : AGI_Task.t)
| Release (task : AGI_Task.t)
| Attach (name : string) (capacity : Q) (unit : string).

(** The manager after one call. *)
Definition step (rm : ResourceManager.t) (c : Call) : ResourceManager.t :=
  match c with
  | Reserve task => alloc_rm (allocate_resources rm task)
  | Release task => fst (free_resources rm task)
  | Attach name capacity unit =>
      match add_external_hardware rm name capacity unit with
      | inr (rm', _) => rm'
      | inl _ => rm
      end
  end.

(** The manager after all of [calls]. *)
Definition run (rm : ResourceManager.t) (calls : list Call)
  : ResourceManager.t :=
  fold_left step calls rm.

(** A request is a dictionary of amounts: distinct kinds, no negative
    amount. *)
Definition request_ok (request : Dict.t Q) : Prop :=
  Dict.wf request /\ forall k x, In (k, x) request -> 0 <= x.

(** The tasks of a call carry requests; an attached device has a capacity,
    which is an amount. *)
Definition call_ok (c : Call) : Prop :=
  match c with
  | Reserve task => request_ok (AGI_Task.resource_request task)
  | Release task => request_ok (AGI_Task.resource_request task)
  | Attach _ capacity _ => 0 <= capacity
  end.

(** [0 <= allocated <= total] *)
Definition accounting (hw : HardwareStatus.t) : Prop :=
  0 <= HardwareStatus.allocated hw
  /\ HardwareStatus.allocated hw <= HardwareStatus.total hw.

(** The capacity a kind is constructed with. *)
Definition base_capacity (k : string) : Q :=
  if String.eqb k "CPU" then TOTAL_CPU_CORES
  else if String.eqb k "GPU" then TOTAL_GPU_POWER
  else if String.eqb k "RAM" then TOTAL_RAM_GB
  else 0.

(** What every reachable entry of [hardware] satisfies: the accounting
    bounds, an [available] that never overstates what is left, and a total
    that is at least the kind's capacity at construction. *)
Definition hw_inv (k : string) (hw : HardwareStatus.t) : Prop :=
  accounting hw
  /\ HardwareStatus.available hw
     <= HardwareStatus.total hw - HardwareStatus.allocated hw
  /\ base_capacity k <= HardwareStatus.total hw.

Definition rm_inv (rm : ResourceManager.t) : Prop :=
  forall k hw, Dict.get k (hardware rm) = Some hw -> hw_inv k hw.

(** Boolean checks of [request_ok] and [call_ok], for concrete requests. *)
Fixpoint nodupb (l : list string) : bool :=
  match l with
  | [] => true
  | k :: l' => negb (existsb (String.eqb k) l') && nodupb l'
  end.

Definition request_okb (request : Dict.t Q) : bool :=
  nodupb (Dict.keys request)
  && forallb (fun kx => Qle_bool 0 (snd kx)) request.

Definition call_okb (c : Call) : bool :=
  match c with
  | Reserve task => request_okb (AGI_Task.resource_request task)
  | Release task => request_okb (AGI_Task.resource_request task)
  | Attach _ capacity _ => Qle_bool 0 capacity
  end.

(** The three kinds a pool is constructed with stay tracked. *)
Definition tracks_base (rm : ResourceManager.t) : Prop :=
  forall k, In k ["CPU"; "GPU"; "RAM"] -> Dict.get k (hardware rm) <> None.

(** ** Scenarios *)

(** A world with the given clock and random draws, whose identifiers are
    the letters from [A] on. *)
Definition world_with (clock dice : nat -> Q) : World :=
  mkWorld clock 0 dice 0
          (fun n => String (ascii_of_nat (65 + n)) EmptyString) 0.

(** A world whose clock stands still and whose random draws are all
    [0.5]. *)
Definition still_world : World :=
  world_with (fun _ => 0) (fun _ => 1 # 2).

(** Tasks created one after the other, as the constructor builds them once
    [uuid] resolves. *)
Fixpoint create_tasks (w : World) (specs : list (string * TaskPriority * Q))
  : list AGI_Task.t * World :=
  match specs with
  | [] => ([], w)
  | (task_name, priority, complexity) :: rest =>
      let '(task, w1) := AGI_Task_body w task_name priority complexity in
      let '(tasks, w2) := create_tasks w1 rest in
      (task :: tasks, w2)
  end.

(** A fresh pool and scheduler, tasks created from [specs] and submitted in
    the order of [submissions]. *)
Definition submitted (clock dice : nat -> Q)
    (specs : list (string * TaskPriority * Q)) (submissions : list nat)
  : RealTimeScheduler.t :=
  let '(tasks, w) := create_tasks (world_with clock dice) specs in
  fold_left RealTimeScheduler.submit_task submissions
    (RealTimeScheduler.init ResourceManager.init tasks w).

(** A task as the constructor builds it once [uuid] resolves. *)
Definition new_task (w : World) (task_name : string) (priority : TaskPriority)
    (complexity : Q) : AGI_Task.t :=
  fst (AGI_Task_body w task_name priority complexity).

(** A pending task with a request written out. *)
Definition task_requesting (task_id : string) (priority : TaskPriority)
    (request : Dict.t Q) : AGI_Task.t :=
  AGI_Task.mk task_id task_id priority 0 request 0 "Pending" 0.

(** The pool of the specification's hot-plug example: fresh, then
    ["eGPU_X"] with capacity 250 attached. *)
Definition hot_plugged : ResourceManager.t :=
  run ResourceManager.init [Attach "eGPU_X" 250 "%"].

(** ** The derivation of requests in the specification's words *)

(** The weight table of the specification. *)
Definition weight (k : string) : Q :=
  if String.eqb k "CPU" then 1 # 5
  else if String.eqb k "GPU" then 1 # 10
  else if String.eqb k "RAM" then 1 # 2
  else 0.

(** [weight * complexity * total], clamped to [0.50 * total]. *)
Definition spec_amount (k : string) (complexity total : Q) : Q :=
  Qmin (weight k * complexity * total) (MAX_ALLOCATION_PER_TASK * total).

(** The request derived from [complexity] follows the totals of the pool
    [rm]: every entry is the specification's amount for the total that [rm]
    holds for its kind. *)
Definition request_follows_pool (rm : ResourceManager.t) (complexity : Q)
  : Prop :=
  forall k x,
    In (k, x) (AGI_Task._calculate_request complexity) ->
    exists hw,
      Dict.get k (hardware rm) = Some hw
      /\ x == spec_amount k complexity (HardwareStatus.total hw).

(** The pool of the specification's blocking example: 7 of the 8 cores are
    reserved. *)
Definition cpu_7_of_8 : ResourceManager.t :=
  step ResourceManager.init
       (Reserve (task_requesting "load" LOW [("CPU", 7)])).

(** Two pending tasks that each ask for 2 cores, submitted in order. *)
Definition blocking_scenario (w : World) : RealTimeScheduler.t :=
  RealTimeScheduler.submit_task
    (RealTimeScheduler.submit_task
       (RealTimeScheduler.init cpu_7_of_8
          [task_requesting "T1" HIGH [("CPU", 2)];
           task_requesting "T2" HIGH [("CPU", 2)]] w)
       0%nat)
    1%nat.

(** Five pending tasks of complexity 0.1 on a fresh pool, submitted in
    order. *)
Definition five_pending (clock dice : nat -> Q) : RealTimeScheduler.t :=
  submitted clock dice
    [("J0", MEDIUM, 1 # 10); ("J1", MEDIUM, 1 # 10); ("J2", MEDIUM, 1 # 10);
     ("J3", MEDIUM, 1 # 10); ("J4", MEDIUM, 1 # 10)]
    [0; 1; 2; 3; 4]%nat.

(** Tasks A (high), B (critical) and C (high) of complexity 0.5 on a fresh
    pool, submitted in the order A, B, C. *)
Definition abc_submitted (clock dice : nat -> Q) : RealTimeScheduler.t :=
  submitted clock dice
    [("A", HIGH, 1 # 2); ("B", CRITICAL, 1 # 2); ("C", HIGH, 1 # 2)]
    [0; 1; 2]%nat.

(** ** Admissions in the output *)

Definition is_dispatched (e : Event) : bool :=
  match e with
  | RTS_DISPATCHED _ _ => true
  | _ => false
  end.

(** The admissions a log records, in order. *)
Definition admitted (log : list Event) : list Event :=
  filter is_dispatched log.

(** The statuses of the queued tasks, in queue order. *)
Definition queue_statuses (s : RealTimeScheduler.t) : list (option string) :=
  map (fun r => option_map AGI_Task.status
                  (nth_error (RealTimeScheduler.heap s) r))
      (RealTimeScheduler.task_queue s).

(** The allocated amount the pool holds for a kind. *)
Definition allocated_of (rm : ResourceManager.t) (k : string) : option Q :=
  option_map HardwareStatus.allocated (Dict.get k (hardware rm)).

(** The state in which the scan goes on after a refused reservation. *)
Definition blocked (s : RealTimeScheduler.t) (r : nat) (task : AGI_Task.t)
  : RealTimeScheduler.t :=
  RealTimeScheduler.mk (RealTimeScheduler.rm s)
    (heap_set r (AGI_Task.set_status task "Queued_Blocked")
       (RealTimeScheduler.heap s))
    (RealTimeScheduler.task_queue s) (RealTimeScheduler.running_tasks s)
    (RealTimeScheduler.finished_tasks s) (RealTimeScheduler.world s)
    (RealTimeScheduler.out s
       ++ alloc_log (allocate_resources (RealTimeScheduler.rm s) task)
       ++ [RTS_BLOCKED (AGI_Task.name task)])%list.


(** ** Order of the queue *)

(** [a] may stand before [b] in a queue sorted by descending key. *)
Definition desc {A : Type} (key : A -> Z) (a b : A) : Prop :=
  (key b <= key a)%Z.

(** The elements of [l] in the tier [p], in the order of [l]. *)
Definition tier {A : Type} (key : A -> Z) (p : Z) (l : list A) : list A :=
  filter (fun y => (key y =? p)%Z) l.


(** The queued task behind [r] would be admitted if it were tried now. *)
Definition admissible_now (s : RealTimeScheduler.t) (r : nat) : bool :=
  match nth_error (RealTimeScheduler.heap s) r with
  | Some task =>
      RealTimeScheduler.admissible_status task
      && alloc_ok (allocate_resources (RealTimeScheduler.rm s) task)
  | None => false
  end.


(** What the scheduler maintains: the pool's invariant, and tasks whose
    requests are amounts. *)
Definition sched_inv (s : RealTimeScheduler.t) : Prop :=
  rm_inv (RealTimeScheduler.rm s)
  /\ Forall (fun task => request_ok (AGI_Task.resource_request task))
            (RealTimeScheduler.heap s).


(** ** Further vocabulary: hot-plug *)

(** What identifies an entry and is never written by a reservation or a
    release: its name, total, unit and origin. *)
Definition static (hw : HardwareStatus.t)
  : string * Q * string * bool :=
  (HardwareStatus.name hw, HardwareStatus.total hw, HardwareStatus.unit hw,
   HardwareStatus.is_external hw).

(** The tests of [add_external_hardware] on a device name: the aggregate
    kind the device is merged into, if any. *)
Definition merged_into (name : string) : option string :=
  if str_in "GPU" name then Some "GPU"
  else if str_in "RAM" name then Some "RAM"
  else None.


(** ** Further vocabulary: the status report *)

(** The kinds of a table of hardware with the origin flag of each entry. *)
Definition origin_view (d : Dict.t HardwareStatus.t) : list (string * bool) :=
  map (fun kv => (fst kv, HardwareStatus.is_external (snd kv))) d.

(** An attached device as its own record shows it: stored under its name,
    flagged external, nothing allocated. *)
Definition external_idle (kv : string * HardwareStatus.t) : Prop :=
  HardwareStatus.name (snd kv) = fst kv
  /\ HardwareStatus.is_external (snd kv) = true
  /\ HardwareStatus.allocated (snd kv) = 0.

(** The shape of the two tables of a pool. *)
Definition tables_inv (rm : ResourceManager.t) : Prop :=
  origin_view (hardware rm) = [("CPU", false); ("GPU", false); ("RAM", false)]
  /\ Forall external_idle (external_hardware rm).


(** ** Further vocabulary: the life of a task *)

(** The changes of status one dispatch call can make to a task: none; to
    finished; from pending or blocked to running or to blocked. *)
Inductive status_moves : string -> string -> Prop :=
| stays (a : string) : status_moves a a
| finishes (a : string) : status_moves a "Finished"
| starts (a : string) :
    a = "Pending" \/ a = "Queued_Blocked" -> status_moves a "Running"
| waits (a : string) :
    a = "Pending" \/ a = "Queued_Blocked" -> status_moves a "Queued_Blocked".

(** What is fixed when a task is created. *)
Definition identity (task : AGI_Task.t)
  : string * string * TaskPriority * Q * Dict.t Q * Q :=
  (AGI_Task.task_id task, AGI_Task.name task, AGI_Task.priority task,
   AGI_Task.complexity task, AGI_Task.resource_request task,
   AGI_Task.creation_time task).

(** The task behind [r] is the same task in the two stores, with a status
    that moved as [status_moves] allows. *)
Definition task_evolves (heap heap' : list AGI_Task.t) (r : nat) : Prop :=
  match nth_error heap r, nth_error heap' r with
  | Some task, Some task' =>
      identity task' = identity task
      /\ status_moves (AGI_Task.status task) (AGI_Task.status task')
  | None, None => True
  | _, _ => False
  end.


(** ** Further vocabulary: the books of the scheduler *)

(** What a request asks of the kind [k]. *)
Definition amount (request : Dict.t Q) (k : string) : Q :=
  match Dict.get k request with
  | Some x => x
  | None => 0
  end.


(** The tasks of the running table. *)
Definition running_refs (s : RealTimeScheduler.t) : list nat :=
  map snd (RealTimeScheduler.running_tasks s).



(** ** Further vocabulary: completion *)

(** For every task of the running entries [running], every reading the
    clock will give from now on exceeds the task's [start_time] (written
    when the task was admitted, not its [creation_time]) by more than half
    a second. *)
Definition all_overdue (running : list (string * nat))
    (s : RealTimeScheduler.t) : Prop :=
  forall task_id r,
    In (task_id, r) running ->
    exists task,
      nth_error (RealTimeScheduler.heap s) r = Some task
      /\ forall n,
           (clock_reads (RealTimeScheduler.world s) <= n)%nat ->
           1 # 2 < clock (RealTimeScheduler.world s) n
                   - AGI_Task.start_time task.

(** No reading of the clock, at any index, exceeds the [start_time] of a
    task of the running entries [running] by more than half a second, and no
    random draw is below 0.1. *)
Definition none_due (running : list (string * nat))
    (s : RealTimeScheduler.t) : Prop :=
  (forall task_id r task n,
     In (task_id, r) running ->
     nth_error (RealTimeScheduler.heap s) r = Some task ->
     clock (RealTimeScheduler.world s) n - AGI_Task.start_time task <= 1 # 2)
  /\ forall n, 1 # 10 <= dice (RealTimeScheduler.world s) n.


(** A clock that reads 0 five times and 10 from then on. *)
Definition late_clock (n : nat) : Q := if Nat.ltb n 5 then 0 else 10.

(** A, B and C submitted and one dispatch call made: B and A run. *)
Definition abc_running (clock dice : nat -> Q) : RealTimeScheduler.t :=
  RealTimeScheduler.dispatch (abc_submitted clock dice).


(** B, which runs, is submitted a second time. *)
Definition b_resubmitted (clock dice : nat -> Q) : RealTimeScheduler.t :=
  RealTimeScheduler.submit_task (abc_running clock dice) 1.


(** * The amounts in binary64 *)

(** The source computes amounts in Python floats, which are IEEE 754 binary64
    numbers.  Where a property depends on how a sum or a difference rounds,
    the exact rationals above do not decide it.  [Binary64] embeds the
    hardware records, the request of a task and the resource manager once
    more, statement for statement, with the amounts as binary64 numbers
    ([float]): [+], [-] and [*] round to nearest, ties to even, and [<?] is
    the IEEE comparison, as in Python.  The integers [8] and [16] of the
    configuration are converted to floats by every operation of the source
    that uses them; the conversion is exact. *)

Module Binary64.

Import Floats.
Local Open Scope float_scope.

(** Python's [max(a, b)]: the first argument unless the second is greater. *)
Definition py_max (a b : float) : float := if a <? b then b else a.

(** Python's [min(a, b)]: the first argument unless the second is smaller. *)
Definition py_min (a b : float) : float := if b <? a then b else a.

Definition TOTAL_CPU_CORES : float := 8.
Definition TOTAL_GPU_POWER : float := 100.0.
Definition TOTAL_RAM_GB : float := 16.
Definition MAX_ALLOCATION_PER_TASK : float := 0.50.

Inductive Event : Type :=
| RM_WARNING_exists (hw_name : string)
| RM_INFO_eGPU (hw_name : string) (gpu_total : float)
| RM_INFO_RAM (hw_name : string) (ram_total : float)
| RM_WARNING_unknown (res_name : string)
| RM_ALLOCATED (task_name : string) (amount : float) (hw_unit res_name : string)
| RM_WARNING_cannot_free (task_name status : string)
| RM_FREE (task_name : string) (amount : float) (hw_unit res_name : string).

Module HardwareStatus.

Record t : Type := mk {
  name : string;
  total : float;
  unit : string;
  allocated : float;
  available : float;
  is_external : bool
}.

(** [HardwareStatus.__init__] *)
Definition init (name : string) (total_capacity : float) (unit : string) : t :=
  mk name total_capacity unit 0.0 (total_capacity - 0.0) false.

(** [HardwareStatus.update_usage] *)
Definition update_usage (hw : t) (usage : float) : t :=
  let allocated' := py_max 0.0 usage in
  mk (name hw) (total hw) (unit hw) allocated'
     (total hw - allocated') (is_external hw).

Definition set_is_external (hw : t) (b : bool) : t :=
  mk (name hw) (total hw) (unit hw) (allocated hw) (available hw) b.

(** [hw.total += capacity; hw.name = new_name] *)
Definition add_total_rename (hw : t) (capacity : float) (new_name : string)
  : t :=
  mk new_name (total hw + capacity) (unit hw) (allocated hw)
     (available hw) (is_external hw).

End HardwareStatus.

Module AGI_Task.

Record t : Type := mk {
  task_id : string;
  name : string;
  priority : TaskPriority;
  complexity : float;
  resource_request : Dict.t float;
  creation_time : float;
  status : string;
  start_time : float
}.

Definition set_status (task : t) (s : string) : t :=
  mk (task_id task) (name task) (priority task) (complexity task)
     (resource_request task) (creation_time task) s (start_time task).

(** [AGI_Task._calculate_request] *)
Definition _calculate_request (complexity : float) : Dict.t float :=
  let cpu_req := complexity * 0.2 in
  let gpu_req := complexity * 0.1 in
  let ram_req := complexity * 0.5 in
  let cpu_req := py_min (cpu_req * TOTAL_CPU_CORES)
                        (MAX_ALLOCATION_PER_TASK * TOTAL_CPU_CORES) in
  let gpu_req := py_min (gpu_req * TOTAL_GPU_POWER)
                        (MAX_ALLOCATION_PER_TASK * TOTAL_GPU_POWER) in
  let ram_req := py_min (ram_req * TOTAL_RAM_GB)
                        (MAX_ALLOCATION_PER_TASK * TOTAL_RAM_GB) in
  [("CPU", cpu_req); ("GPU", gpu_req); ("RAM", ram_req)].

End AGI_Task.

Module ResourceManager.

Record t : Type := mk {
  hardware : Dict.t HardwareStatus.t;
  external_hardware : Dict.t HardwareStatus.t
}.

(** [ResourceManager.__init__] *)
Definition init : t :=
  mk [("CPU", HardwareStatus.init "CPU_Internal" TOTAL_CPU_CORES "Cores");
      ("GPU", HardwareStatus.init "GPU_Internal" TOTAL_GPU_POWER "%");
      ("RAM", HardwareStatus.init "RAM_Internal" TOTAL_RAM_GB "GB")]
     Dict.empty.

(** [self.hardware[kind].total += capacity; self.hardware[kind].name = new_name] *)
Definition merge_into (kind new_name : string) (capacity : float)
    (hardware : Dict.t HardwareStatus.t)
  : PyError + Dict.t HardwareStatus.t :=
  match Dict.get kind hardware with
  | Some hw =>
      inr (Dict.set kind
             (HardwareStatus.add_total_rename hw capacity new_name) hardware)
  | None => inl (KeyError kind)
  end.

(** [ResourceManager.add_external_hardware] *)
Definition add_external_hardware (rm : t) (name : string) (capacity : float)
    (unit : string) : PyError + (t * list Event) :=
  if Dict.mem name (hardware rm) || Dict.mem name (external_hardware rm)
  then inr (rm, [RM_WARNING_exists name])
  else
    let hw := HardwareStatus.set_is_external
                (HardwareStatus.init name capacity unit) true in
    let external' := Dict.set name hw (external_hardware rm) in
    if str_in "GPU" name then
      match merge_into "GPU" "GPU_Hybrid" capacity (hardware rm) with
      | inr hardware' =>
          match Dict.get "GPU" hardware' with
          | Some g =>
              inr (mk hardware' external',
                   [RM_INFO_eGPU name (HardwareStatus.total g)])
          | None => inl (KeyError "GPU")
          end
      | inl e => inl e
      end
    else if str_in "RAM" name then
      match merge_into "RAM" "RAM_Hybrid" capacity (hardware rm) with
      | inr hardware' =>
          match Dict.get "RAM" hardware' with
          | Some r =>
              inr (mk hardware' external',
                   [RM_INFO_RAM name (HardwareStatus.total r)])
          | None => inl (KeyError "RAM")
          end
      | inl e => inl e
      end
    else inr (mk (hardware rm) external', []).

(** The first loop of [allocate_resources]: it returns [can_allocate], the
    [required_resources] gathered so far and the warnings printed. *)
Fixpoint check_request (hardware : Dict.t HardwareStatus.t)
    (request : list (string * float)) (required_resources : Dict.t float)
  : bool * Dict.t float * list Event :=
  match request with
  | [] => (true, required_resources, [])
  | (res_name, req_amount) :: rest =>
      match Dict.get res_name hardware with
      | Some hw =>
          if HardwareStatus.available hw <? req_amount
          then (false, required_resources, [])
          else check_request hardware rest
                 (Dict.set res_name req_amount required_resources)
      | None =>
          let '(can_allocate, required', log) :=
            check_request hardware rest required_resources in
          (can_allocate, required', RM_WARNING_unknown res_name :: log)
      end
  end.

(** The second loop of [allocate_resources].  Every key of
    [required_resources] was found in [hardware] by the first loop, so the
    [None] branch is never taken. *)
Fixpoint apply_request (task_name : string)
    (required_resources : list (string * float))
    (hardware : Dict.t HardwareStatus.t)
  : Dict.t HardwareStatus.t * list Event :=
  match required_resources with
  | [] => (hardware, [])
  | (res_name, req_amount) :: rest =>
      match Dict.get res_name hardware with
      | Some hw =>
          let hw' := HardwareStatus.update_usage hw
                       (HardwareStatus.allocated hw + req_amount) in
          let '(hardware', log) :=
            apply_request task_name rest (Dict.set res_name hw' hardware) in
          (hardware',
           RM_ALLOCATED task_name req_amount (HardwareStatus.unit hw) res_name
             :: log)
      | None => apply_request task_name rest hardware
      end
  end.

(** [ResourceManager.allocate_resources]: the manager and the task after
    the call, the returned boolean and what was printed. *)
Definition allocate_resources (rm : t) (task : AGI_Task.t)
  : t * AGI_Task.t * bool * list Event :=
  let '(can_allocate, required_resources, log1) :=
    check_request (hardware rm)
      (Dict.items (AGI_Task.resource_request task)) Dict.empty in
  if can_allocate then
    let '(hardware', log2) :=
      apply_request (AGI_Task.name task) (Dict.items required_resources)
        (hardware rm) in
    (mk hardware' (external_hardware rm),
     AGI_Task.set_status task "Running", true, (log1 ++ log2)%list)
  else
    (rm, AGI_Task.set_status task "Queued_Blocked", false, log1).

(** The loop of [free_resources]. *)
Fixpoint release_request (task_name : string)
    (request : list (string * float)) (hardware : Dict.t HardwareStatus.t)
  : Dict.t HardwareStatus.t * list Event :=
  match request with
  | [] => (hardware, [])
  | (res_name, req_amount) :: rest =>
      match Dict.get res_name hardware with
      | Some hw =>
          let hw' := HardwareStatus.update_usage hw
                       (HardwareStatus.allocated hw - req_amount) in
          let '(hardware', log) :=
            release_request task_name rest (Dict.set res_name hw' hardware) in
          (hardware',
           RM_FREE task_name req_amount (HardwareStatus.unit hw) res_name
             :: log)
      | None => release_request task_name rest hardware
      end
  end.

(** [ResourceManager.free_resources] *)
Definition free_resources (rm : t) (task : AGI_Task.t) : t * list Event :=
  if negb (String.eqb (AGI_Task.status task) "Finished") then
    (rm, [RM_WARNING_cannot_free (AGI_Task.name task) (AGI_Task.status task)])
  else
    let '(hardware', log) :=
      release_request (AGI_Task.name task)
        (Dict.items (AGI_Task.resource_request task)) (hardware rm) in
    (mk hardware' (external_hardware rm), log).

End ResourceManager.

Import ResourceManager.

(** *** Vocabulary *)

(** No entry of [request] whose kind is tracked exceeds what is marked
    available for that kind, by the test of the source:
    [hw.available < req_amount] is false. *)
Definition fits (hardware : Dict.t HardwareStatus.t)
    (request : list (string * float)) : Prop :=
  forall k x hw,
    In (k, x) request -> Dict.get k hardware = Some hw ->
    (HardwareStatus.available hw <? x) = false.

(** The kinds of [request] the pool does not track, in order. *)
Definition unknown_kinds (hardware : Dict.t HardwareStatus.t)
    (request : list (string * float)) : list string :=
  filter (fun k => negb (Dict.mem k hardware)) (Dict.keys request).

(** The entries of [request] whose kind the pool tracks, in order. *)
Definition known_part (hardware : Dict.t HardwareStatus.t)
    (request : list (string * float)) : list (string * float) :=
  filter (fun kx => Dict.mem (fst kx) hardware) request.

(** The four components of what [allocate_resources] returns. *)
Definition alloc_rm (r : ResourceManager.t * AGI_Task.t * bool * list Event)
  : ResourceManager.t := fst (fst (fst r)).
Definition alloc_task (r : ResourceManager.t * AGI_Task.t * bool * list Event)
  : AGI_Task.t := snd (fst (fst r)).
Definition alloc_ok (r : ResourceManager.t * AGI_Task.t * bool * list Event)
  : bool := snd (fst r).
Definition alloc_log (r : ResourceManager.t * AGI_Task.t * bool * list Event)
  : list Event := snd r.

(** The entry of kind [k] after a successful reservation of [request]. *)
Definition reserved (request : Dict.t float) (k : string)
    (hw : HardwareStatus.t) : HardwareStatus.t :=
  match Dict.get k request with
  | Some x =>
      HardwareStatus.update_usage hw (HardwareStatus.allocated hw + x)
  | None => hw
  end.

(** The entry of kind [k] after the release of [request]. *)
Definition released (request : Dict.t float) (k : string)
    (hw : HardwareStatus.t) : HardwareStatus.t :=
  match Dict.get k request with
  | Some x =>
      HardwareStatus.update_usage hw (HardwareStatus.allocated hw - x)
  | None => hw
  end.

(** Sequences of calls on the resource manager. *)
Inductive Call : Type :=
| Reserve (task : AGI_Task.t)
| Release (task : AGI_Task.t)
| Attach (name : string) (capacity : float) (unit : string).

(** The manager after one call. *)
Definition step (rm : ResourceManager.t) (c : Call) : ResourceManager.t :=
  match c with
  | Reserve task => alloc_rm (allocate_resources rm task)
  | Release task => fst (free_resources rm task)
  | Attach name capacity unit =>
      match add_external_hardware rm name capacity unit with
      | inr (rm', _) => rm'
      | inl _ => rm
      end
  end.

(** The manager after all of [calls]. *)
Definition run (rm : ResourceManager.t) (calls : list Call)
  : ResourceManager.t :=
  fold_left step calls rm.

(** A task with a request written out. *)
Definition task_requesting (task_id : string) (priority : TaskPriority)
    (status : string) (request : Dict.t float) : AGI_Task.t :=
  AGI_Task.mk task_id task_id priority 0 request 0 status 0.

(** A pending task whose request is derived from its complexity, as the
    constructor derives it. *)
Definition task_of_complexity (task_id : string) (priority : TaskPriority)
    (complexity : float) : AGI_Task.t :=
  AGI_Task.mk task_id task_id priority complexity
              (AGI_Task._calculate_request complexity) 0 "Pending" 0.

(** The capacity a kind is constructed with. *)
Definition base_capacity (k : string) : float :=
  if String.eqb k "CPU" then TOTAL_CPU_CORES
  else if String.eqb k "GPU" then TOTAL_GPU_POWER
  else if String.eqb k "RAM" then TOTAL_RAM_GB
  else 0.

(** The capacities of the attached devices that went into the kind [k], in
    the order in which they were attached. *)
Definition attached_to (k : string) (external : Dict.t HardwareStatus.t)
  : list float :=
  map (fun kv => HardwareStatus.total (snd kv))
      (filter (fun kv => match merged_into (fst kv) with
                         | Some k' => String.eqb k' k
                         | None => false
                         end) external).

(** [total += capacity], once per capacity, from left to right. *)
Definition accumulate (base : float) (capacities : list float) : float :=
  fold_left PrimFloat.add capacities base.

(** A finite amount that is not negative: zero or a positive number. *)
Definition is_amount (x : float) : Prop :=
  (0 <=? x) = true /\ (x <? infinity) = true.

(** Every entry of [request] whose kind is tracked is at most what is marked
    available for that kind. *)
Definition within_available (hardware : Dict.t HardwareStatus.t)
    (request : list (string * float)) : Prop :=
  forall k x hw,
    In (k, x) request -> Dict.get k hardware = Some hw ->
    (x <=? HardwareStatus.available hw) = true.

(** The lines [[RM ALLOCATED] ...] of a granted request: one for each entry
    of a tracked kind, in the order of the request. *)
Definition allocation_events (task_name : string)
    (hardware : Dict.t HardwareStatus.t) (request : list (string * float))
  : list Event :=
  flat_map (fun kx =>
              match Dict.get (fst kx) hardware with
              | Some hw =>
                  [RM_ALLOCATED task_name (snd kx) (HardwareStatus.unit hw)
                                (fst kx)]
              | None => []
              end) request.

(** [0 <= allocated <= total] *)
Definition accounting (hw : HardwareStatus.t) : Prop :=
  (0 <=? HardwareStatus.allocated hw) = true
  /\ (HardwareStatus.allocated hw <=? HardwareStatus.total hw) = true.

(** Every total is the capacity the kind was built with, to which the
    capacities attached to the kind were added one by one. *)
Definition totals_accumulated (rm : ResourceManager.t) : Prop :=
  forall k hw,
    Dict.get k (hardware rm) = Some hw ->
    HardwareStatus.total hw
    = accumulate (base_capacity k) (attached_to k (external_hardware rm)).

(** *** Scenarios *)





(** Two tasks of the demonstration, by their complexities. *)
Definition stress_assessment : AGI_Task.t :=
  task_of_complexity "Student_Stress_Assessment" HIGH 0.4.

Definition world_model_update : AGI_Task.t :=
  task_of_complexity "World_Model_Update" REAL_TIME 0.7.

(** A fresh pool on which the first of them runs. *)
Definition assessment_running : ResourceManager.t :=
  run ResourceManager.init [Reserve stress_assessment].

(** The pool after [task] was reserved on [rm], marked finished and
    released. *)
Definition reserved_then_released (rm : ResourceManager.t)
    (task : AGI_Task.t) : ResourceManager.t :=
  fst (free_resources
         (alloc_rm (allocate_resources rm task))
         (AGI_Task.set_status (alloc_task (allocate_resources rm task))
                              "Finished")).

(** A request for 3 of a kind the pool does not track and for 2 cores. *)
Definition tensor_task : AGI_Task.t :=
  task_requesting "T" HIGH "Pending" [("TPU", 3); ("CPU", 2)].

(** A finished task that asks for 0.3 of the GPU, and a pool on which 1 of
    the GPU is allocated. *)
Definition finished_task : AGI_Task.t :=
  task_requesting "F" LOW "Finished" [("GPU", 0.3)].

Definition one_allocated : ResourceManager.t :=
  run ResourceManager.init
      [Reserve (task_requesting "G" LOW "Pending" [("GPU", 1)])].

(** Two devices attached one after the other. *)
Definition two_devices : ResourceManager.t :=
  run ResourceManager.init
      [Attach "eGPU_A" 0.3 "%"; Attach "eGPU_B" 0.6 "%"].

(** The pool of [assessment_running] once [world_model_update] runs on it
    too. *)
Definition both_running : ResourceManager.t :=
  run ResourceManager.init
      [Reserve stress_assessment; Reserve world_model_update].

End Binary64.


(** ** Further vocabulary: the running table as an index *)

(** The running table is an index of the running tasks: its keys are
    distinct and no task is listed twice; every entry names a task of the
    store under that task's identifier, and the task is running; every
    running task of the store is listed; identifiers are unique.  Nothing
    is said about amounts. *)
Record indexed (s : RealTimeScheduler.t) : Prop := {
  i_wf : Dict.wf (RealTimeScheduler.running_tasks s);
  i_refs : NoDup (running_refs s);
  i_running :
    forall task_id r,
      In (task_id, r) (RealTimeScheduler.running_tasks s) ->
      exists task,
        nth_error (RealTimeScheduler.heap s) r = Some task
        /\ AGI_Task.task_id task = task_id
        /\ AGI_Task.status task = "Running";
  i_ids : NoDup (map AGI_Task.task_id (RealTimeScheduler.heap s));
  i_all :
    forall r task,
      nth_error (RealTimeScheduler.heap s) r = Some task ->
      AGI_Task.status task = "Running" ->
      In (AGI_Task.task_id task, r) (RealTimeScheduler.running_tasks s)
}.


(** * Properties *)

(** ** Amounts *)

Lemma Qltb_lt (x y : Q) : Qltb x y = true <-> x < y.
Proof. unfold Qltb, Qlt. apply Z.ltb_lt. Qed.

Lemma Qltb_ge (x y : Q) : Qltb x y = false <-> y <= x.
Proof. unfold Qltb, Qle. apply Z.ltb_ge. Qed.

Lemma py_max_cases (a b : Q) :
  (a < b /\ py_max a b = b) \/ (b <= a /\ py_max a b = a).
Proof.
  unfold py_max. destruct (Qltb a b) eqn:E.
  - left. split; [now apply Qltb_lt | reflexivity].
  - right. split; [now apply Qltb_ge | reflexivity].
Qed.

Lemma py_min_cases (a b : Q) :
  (b < a /\ py_min a b = b) \/ (a <= b /\ py_min a b = a).
Proof.
  unfold py_min. destruct (Qltb b a) eqn:E.
  - left. split; [now apply Qltb_lt | reflexivity].
  - right. split; [now apply Qltb_ge | reflexivity].
Qed.

Lemma py_max_Qmax (a b : Q) : py_max a b == Qmax a b.
Proof.
  destruct (py_max_cases a b) as [[H ->] | [H ->]].
  - symmetry. apply Q.max_r. lra.
  - symmetry. apply Q.max_l. lra.
Qed.

Lemma py_min_Qmin (a b : Q) : py_min a b == Qmin a b.
Proof.
  destruct (py_min_cases a b) as [[H ->] | [H ->]].
  - symmetry. apply Q.min_r. lra.
  - symmetry. apply Q.min_l. lra.
Qed.

(** ** Dictionaries *)

Section DictFacts.

Context {V : Type}.
Implicit Types (d : Dict.t V) (k : string) (v : V).

Lemma get_set_same k v d : Dict.get k (Dict.set k v d) = Some v.
Proof.
  induction d as [| [k' v'] d IH]; simpl.
  - now rewrite String.eqb_refl.
  - destruct (String.eqb k k') eqn:E; simpl; rewrite E; auto.
Qed.

Lemma get_set_other k k' v d :
  k <> k' -> Dict.get k' (Dict.set k v d) = Dict.get k' d.
Proof.
  intros Hne. induction d as [| [k0 v0] d IH]; simpl.
  - destruct (String.eqb k' k) eqn:E; auto.
    apply String.eqb_eq in E. congruence.
  - destruct (String.eqb k k0) eqn:E; simpl.
    + apply String.eqb_eq in E. subst k0.
      destruct (String.eqb k' k) eqn:E'; auto.
      apply String.eqb_eq in E'. congruence.
    + now rewrite IH.
Qed.

Lemma get_set k k' v d :
  Dict.get k' (Dict.set k v d)
  = if String.eqb k' k then Some v else Dict.get k' d.
Proof.
  destruct (String.eqb k' k) eqn:E.
  - apply String.eqb_eq in E. subst. apply get_set_same.
  - apply get_set_other. intros ->. now rewrite String.eqb_refl in E.
Qed.

Lemma get_In k v d : Dict.get k d = Some v -> In (k, v) d.
Proof.
  induction d as [| [k' v'] d IH]; simpl; [discriminate |].
  destruct (String.eqb k k') eqn:E.
  - apply String.eqb_eq in E. intros [= ->]. subst. now left.
  - intros H. right. auto.
Qed.

Lemma get_None_not_In k d :
  Dict.get k d = None -> ~ In k (Dict.keys d).
Proof.
  induction d as [| [k' v'] d IH]; simpl; [tauto |].
  destruct (String.eqb k k') eqn:E; [discriminate |].
  intros H [Hk | Hk]; [| now apply IH].
  subst. now rewrite String.eqb_refl in E.
Qed.

Lemma In_get k v d : Dict.wf d -> In (k, v) d -> Dict.get k d = Some v.
Proof.
  unfold Dict.wf, Dict.keys.
  induction d as [| [k' v'] d IH]; simpl; [tauto |].
  intros Hnd [H | H]; inversion Hnd as [| ? ? Hnotin Hnd']; subst.
  - injection H as -> ->. now rewrite String.eqb_refl.
  - destruct (String.eqb k k') eqn:E; [| auto].
    apply String.eqb_eq in E. subst k'. exfalso. apply Hnotin.
    change k with (fst (k, v)). now apply in_map.
Qed.

Lemma keys_set_present k v d :
  Dict.get k d <> None -> Dict.keys (Dict.set k v d) = Dict.keys d.
Proof.
  induction d as [| [k' v'] d IH]; simpl; [congruence |].
  destruct (String.eqb k k') eqn:E; simpl; [reflexivity |].
  intros H. f_equal. auto.
Qed.

Lemma keys_set_absent k v d :
  Dict.get k d = None -> Dict.keys (Dict.set k v d) = (Dict.keys d ++ [k])%list.
Proof.
  induction d as [| [k' v'] d IH]; simpl; [reflexivity |].
  destruct (String.eqb k k') eqn:E; simpl; [discriminate |].
  intros H. f_equal. auto.
Qed.

Lemma wf_set k v d : Dict.wf d -> Dict.wf (Dict.set k v d).
Proof.
  unfold Dict.wf. intros Hwf.
  destruct (Dict.get k d) eqn:E.
  - rewrite keys_set_present; congruence.
  - rewrite keys_set_absent by assumption.
    apply NoDup_app; auto.
    + constructor; [simpl; tauto | constructor].
    + intros x Hx [<- | []]. now apply (get_None_not_In _ _ E).
Qed.

Lemma mem_get k d : Dict.mem k d = true <-> Dict.get k d <> None.
Proof.
  unfold Dict.mem. destruct (Dict.get k d); split; congruence.
Qed.

End DictFacts.

(** ** The loops of the resource manager *)

Section ManagerFacts.

Implicit Types (hardware : Dict.t HardwareStatus.t)
               (request required : list (string * Q)).

Lemma fits_cons hardware k x request :
  fits hardware ((k, x) :: request) <->
  (forall hw, Dict.get k hardware = Some hw ->
              x <= HardwareStatus.available hw)
  /\ fits hardware request.
Proof.
  unfold fits. split.
  - intros H. split.
    + intros hw. apply H. now left.
    + intros k' x' hw Hin. apply H. now right.
  - intros [H1 H2] k' x' hw [Heq | Hin].
    + injection Heq as <- <-. apply H1.
    + now apply H2.
Qed.

Lemma check_request_ok hardware request required :
  fst (fst (check_request hardware request required)) = true
  <-> fits hardware request.
Proof.
  revert required.
  induction request as [| [k x] request IH]; intros required; simpl.
  - split; [intros _ k x hw [] | reflexivity].
  - rewrite fits_cons. destruct (Dict.get k hardware) as [hw |] eqn:Ek.
    + destruct (Qltb (HardwareStatus.available hw) x) eqn:El; simpl.
      * split; [discriminate |]. intros [H _].
        apply Qltb_lt in El. specialize (H hw eq_refl). lra.
      * rewrite IH. apply Qltb_ge in El. split.
        -- intros H. split; [| exact H]. now intros hw' [= <-].
        -- tauto.
    + specialize (IH required).
      destruct (check_request hardware request required) as [[c r] l].
      simpl in *. rewrite IH. split; [| tauto].
      intros H. split; [discriminate | exact H].
Qed.

Lemma check_request_required hardware request required k :
  NoDup (Dict.keys request) ->
  fits hardware request ->
  Dict.get k (snd (fst (check_request hardware request required)))
  = match Dict.get k request, Dict.get k hardware with
    | Some x, Some _ => Some x
    | _, _ => Dict.get k required
    end.
Proof.
  revert required.
  induction request as [| [k0 x0] request IH]; intros required Hnd Hfit;
    simpl.
  - reflexivity.
  - inversion Hnd as [| ? ? Hnotin Hnd']; subst.
    apply fits_cons in Hfit. destruct Hfit as [Hfit0 Hfit].
    assert (Hk0 : Dict.get k0 request = None).
    { destruct (Dict.get k0 request) eqn:E; [| reflexivity].
      exfalso. apply Hnotin. apply get_In in E.
      change k0 with (fst (k0, q)). now apply in_map. }
    destruct (Dict.get k0 hardware) as [hw |] eqn:Ek.
    + specialize (Hfit0 hw eq_refl).
      apply Qltb_ge in Hfit0. rewrite Hfit0.
      rewrite IH by assumption.
      destruct (String.eqb_spec k k0) as [-> | Hne].
      * now rewrite Hk0, Ek, get_set_same.
      * rewrite get_set_other by congruence. reflexivity.
    + specialize (IH required Hnd' Hfit).
      destruct (check_request hardware request required) as [[c r] l].
      simpl in *. rewrite IH.
      destruct (String.eqb_spec k k0) as [-> | Hne]; [| reflexivity].
      now rewrite Hk0, Ek.
Qed.

Lemma check_request_wf hardware request required :
  Dict.wf required ->
  Dict.wf (snd (fst (check_request hardware request required))).
Proof.
  revert required.
  induction request as [| [k0 x0] request IH]; intros required Hwf; simpl.
  - exact Hwf.
  - destruct (Dict.get k0 hardware) as [hw |].
    + destruct (Qltb (HardwareStatus.available hw) x0); simpl; auto.
      apply IH. now apply wf_set.
    + specialize (IH required Hwf).
      destruct (check_request hardware request required) as [[c r] l].
      exact IH.
Qed.

Lemma check_request_log hardware request required :
  fits hardware request ->
  snd (check_request hardware request required)
  = map RM_WARNING_unknown (unknown_kinds hardware request).
Proof.
  revert required. unfold unknown_kinds, Dict.mem.
  induction request as [| [k0 x0] request IH]; intros required Hfit; simpl.
  - reflexivity.
  - apply fits_cons in Hfit. destruct Hfit as [Hfit0 Hfit].
    destruct (Dict.get k0 hardware) as [hw |] eqn:Ek; simpl.
    + specialize (Hfit0 hw eq_refl).
      apply Qltb_ge in Hfit0. rewrite Hfit0. now apply IH.
    + specialize (IH required Hfit).
      destruct (check_request hardware request required) as [[c r] l].
      simpl in *. now rewrite IH.
Qed.

(** The second loop of [allocate_resources] only meets kinds the pool
    tracks: its lookup [self.hardware[res_name]] cannot fail. *)
Lemma check_request_tracked hardware request required k :
  (Dict.get k required <> None -> Dict.get k hardware <> None) ->
  Dict.get k (snd (fst (check_request hardware request required))) <> None ->
  Dict.get k hardware <> None.
Proof.
  revert required.
  induction request as [| [k0 x0] request IH]; intros required Hacc; simpl.
  - exact Hacc.
  - destruct (Dict.get k0 hardware) as [hw |] eqn:Ek.
    + destruct (Qltb (HardwareStatus.available hw) x0); simpl; [exact Hacc |].
      apply IH. rewrite get_set.
      destruct (String.eqb_spec k k0) as [-> | Hne]; [congruence | exact Hacc].
    + specialize (IH required Hacc).
      destruct (check_request hardware request required) as [[c r] l].
      exact IH.
Qed.

(** What a tracked kind holds after the second loop of
    [allocate_resources]. *)
Lemma apply_request_get task_name required hardware k :
  NoDup (Dict.keys required) ->
  Dict.get k (fst (apply_request task_name required hardware))
  = match Dict.get k hardware with
    | None => None
    | Some hw =>
        match Dict.get k required with
        | Some x =>
            Some (HardwareStatus.update_usage hw
                    (HardwareStatus.allocated hw + x))
        | None => Some hw
        end
    end.
Proof.
  revert hardware.
  induction required as [| [k0 x0] required IH]; intros hardware Hnd; simpl.
  - now destruct (Dict.get k hardware).
  - inversion Hnd as [| ? ? Hnotin Hnd']; subst.
    assert (Hk0 : Dict.get k0 required = None).
    { destruct (Dict.get k0 required) eqn:E; [| reflexivity].
      exfalso. apply Hnotin. apply get_In in E.
      change k0 with (fst (k0, q)). now apply in_map. }
    destruct (Dict.get k0 hardware) as [hw0 |] eqn:Ek.
    + specialize (IH (Dict.set k0
                        (HardwareStatus.update_usage hw0
                           (HardwareStatus.allocated hw0 + x0)) hardware)
                     Hnd').
      destruct (apply_request task_name required _) as [h l].
      simpl in *. rewrite IH.
      destruct (String.eqb_spec k k0) as [-> | Hne].
      * now rewrite get_set_same, Hk0, Ek.
      * rewrite get_set_other by congruence. reflexivity.
    + rewrite IH by assumption.
      destruct (String.eqb_spec k k0) as [-> | Hne]; [| reflexivity].
      now rewrite Ek.
Qed.

(** What a tracked kind holds after the loop of [free_resources]. *)
Lemma release_request_get task_name request hardware k :
  NoDup (Dict.keys request) ->
  Dict.get k (fst (release_request task_name request hardware))
  = match Dict.get k hardware with
    | None => None
    | Some hw =>
        match Dict.get k request with
        | Some x =>
            Some (HardwareStatus.update_usage hw
                    (HardwareStatus.allocated hw - x))
        | None => Some hw
        end
    end.
Proof.
  revert hardware.
  induction request as [| [k0 x0] request IH]; intros hardware Hnd; simpl.
  - now destruct (Dict.get k hardware).
  - inversion Hnd as [| ? ? Hnotin Hnd']; subst.
    assert (Hk0 : Dict.get k0 request = None).
    { destruct (Dict.get k0 request) eqn:E; [| reflexivity].
      exfalso. apply Hnotin. apply get_In in E.
      change k0 with (fst (k0, q)). now apply in_map. }
    destruct (Dict.get k0 hardware) as [hw0 |] eqn:Ek.
    + specialize (IH (Dict.set k0
                        (HardwareStatus.update_usage hw0
                           (HardwareStatus.allocated hw0 - x0)) hardware)
                     Hnd').
      destruct (release_request task_name request _) as [h l].
      simpl in *. rewrite IH.
      destruct (String.eqb_spec k k0) as [-> | Hne].
      * now rewrite get_set_same, Hk0, Ek.
      * rewrite get_set_other by congruence. reflexivity.
    + rewrite IH by assumption.
      destruct (String.eqb_spec k k0) as [-> | Hne]; [| reflexivity].
      now rewrite Ek.
Qed.

End ManagerFacts.

(** ** [allocate_resources] and [free_resources] *)

Section AllocateFacts.

Variables (rm : ResourceManager.t) (task : AGI_Task.t).

Let request := AGI_Task.resource_request task.

Lemma allocate_ok_iff :
  alloc_ok (allocate_resources rm task) = true
  <-> fits (hardware rm) request.
Proof.
  rewrite <- (check_request_ok (hardware rm) request Dict.empty).
  unfold allocate_resources, alloc_ok, Dict.items. fold request.
  destruct (check_request (hardware rm) request Dict.empty)
    as [[c required] log1].
  destruct c; simpl.
  - destruct (apply_request _ _ _). simpl. tauto.
  - tauto.
Qed.

Lemma allocate_refused :
  alloc_ok (allocate_resources rm task) = false ->
  alloc_rm (allocate_resources rm task) = rm
  /\ alloc_task (allocate_resources rm task)
     = AGI_Task.set_status task "Queued_Blocked".
Proof.
  unfold allocate_resources, alloc_ok, alloc_rm, alloc_task, Dict.items.
  destruct (check_request _ _ _) as [[c required] log1].
  destruct c; simpl.
  - destruct (apply_request _ _ _). simpl. discriminate.
  - auto.
Qed.

Lemma allocate_granted :
  Dict.wf request ->
  alloc_ok (allocate_resources rm task) = true ->
  alloc_task (allocate_resources rm task)
    = AGI_Task.set_status task "Running"
  /\ external_hardware (alloc_rm (allocate_resources rm task))
     = external_hardware rm
  /\ forall k,
       Dict.get k (hardware (alloc_rm (allocate_resources rm task)))
       = option_map (reserved request k) (Dict.get k (hardware rm)).
Proof.
  intros Hwf Hok.
  assert (Hfit : fits (hardware rm) request) by now apply allocate_ok_iff.
  pose proof (check_request_required (hardware rm) request Dict.empty)
    as Hreq.
  pose proof (check_request_wf (hardware rm) request Dict.empty) as Hrwf.
  revert Hok.
  unfold allocate_resources, alloc_ok, alloc_rm, alloc_task, Dict.items.
  fold request.
  destruct (check_request (hardware rm) request Dict.empty)
    as [[c required] log1].
  simpl in Hreq, Hrwf.
  destruct c; simpl.
  - pose proof (apply_request_get (AGI_Task.name task) required
                  (hardware rm)) as Hget.
    destruct (apply_request _ _ _) as [hardware' log2]. simpl in *.
    intros _. repeat split.
    intros k. rewrite Hget; [| apply Hrwf; constructor].
    rewrite (Hreq k Hwf Hfit). unfold reserved.
    destruct (Dict.get k (hardware rm)) as [hw |]; simpl; [| reflexivity].
    now destruct (Dict.get k request).
  - discriminate.
Qed.

Lemma allocate_log_granted :
  alloc_ok (allocate_resources rm task) = true ->
  exists log2,
    alloc_log (allocate_resources rm task)
    = (map RM_WARNING_unknown (unknown_kinds (hardware rm) request)
         ++ log2)%list
    /\ forall e, In e log2 -> exists n x u res, e = RM_ALLOCATED n x u res.
Proof.
  intros Hok.
  assert (Hfit : fits (hardware rm) request) by now apply allocate_ok_iff.
  pose proof (check_request_log (hardware rm) request Dict.empty Hfit)
    as Hlog.
  revert Hok.
  unfold allocate_resources, alloc_ok, alloc_log, Dict.items. fold request.
  destruct (check_request (hardware rm) request Dict.empty)
    as [[c required] log1].
  simpl in Hlog. subst log1.
  destruct c; simpl; [| discriminate].
  intros _.
  assert (Hall : forall n req h e,
             In e (snd (apply_request n req h)) ->
             exists n x u res, e = RM_ALLOCATED n x u res).
  { intros n req. induction req as [| [k0 x0] req IH]; intros h e; simpl.
    - tauto.
    - destruct (Dict.get k0 h) as [hw0 |]; [| apply IH].
      specialize (IH (Dict.set k0
                        (HardwareStatus.update_usage hw0
                           (HardwareStatus.allocated hw0 + x0)) h) e).
      destruct (apply_request n req _) as [h' l]. simpl in *.
      intros [<- | Hin]; eauto. }
  specialize (Hall (AGI_Task.name task) required (hardware rm)).
  destruct (apply_request _ _ _) as [hardware' log2]. simpl in *.
  exists log2. split; [reflexivity | exact Hall].
Qed.

Lemma free_refused :
  AGI_Task.status task <> "Finished" ->
  fst (free_resources rm task) = rm.
Proof.
  intros Hst. unfold free_resources.
  destruct (String.eqb_spec (AGI_Task.status task) "Finished");
    [contradiction | reflexivity].
Qed.

Lemma free_finished :
  Dict.wf request ->
  AGI_Task.status task = "Finished" ->
  external_hardware (fst (free_resources rm task)) = external_hardware rm
  /\ forall k,
       Dict.get k (hardware (fst (free_resources rm task)))
       = option_map (released request k) (Dict.get k (hardware rm)).
Proof.
  intros Hwf Hst. unfold free_resources, Dict.items. rewrite Hst. simpl.
  fold request.
  pose proof (release_request_get (AGI_Task.name task) request
                (hardware rm)) as Hget.
  destruct (release_request _ _ _) as [hardware' log]. simpl in *.
  split; [reflexivity |].
  intros k. rewrite Hget by exact Hwf. unfold released.
  destruct (Dict.get k (hardware rm)); simpl; [| reflexivity].
  now destruct (Dict.get k request).
Qed.

End AllocateFacts.

(** ** Invariant of the resource manager *)

Lemma update_usage_accounting (hw : HardwareStatus.t) (usage : Q) :
  usage <= HardwareStatus.total hw ->
  0 <= HardwareStatus.total hw ->
  accounting (HardwareStatus.update_usage hw usage).
Proof.
  intros Hu Ht. unfold accounting, HardwareStatus.update_usage. simpl.
  destruct (py_max_cases 0 usage) as [[H ->] | [H ->]]; lra.
Qed.

Lemma reserved_inv (request : Dict.t Q) (k : string) (hw : HardwareStatus.t) :
  request_ok request ->
  (forall x, Dict.get k request = Some x -> x <= HardwareStatus.available hw) ->
  hw_inv k hw -> hw_inv k (reserved request k hw).
Proof.
  intros [Hwf Hpos] Hfit (Hacc & Hav & Hbase). unfold reserved.
  destruct (Dict.get k request) as [x |] eqn:Ex; [| unfold hw_inv; tauto].
  specialize (Hfit x eq_refl). destruct Hacc as [H0 Ht].
  assert (0 <= x) by (eapply Hpos, get_In, Ex).
  split; [| split].
  - apply update_usage_accounting; lra.
  - unfold HardwareStatus.update_usage. simpl. lra.
  - exact Hbase.
Qed.

Lemma released_inv (request : Dict.t Q) (k : string) (hw : HardwareStatus.t) :
  request_ok request ->
  hw_inv k hw -> hw_inv k (released request k hw).
Proof.
  intros [Hwf Hpos] (Hacc & Hav & Hbase). unfold released.
  destruct (Dict.get k request) as [x |] eqn:Ex; [| unfold hw_inv; tauto].
  destruct Hacc as [H0 Ht].
  assert (0 <= x) by (eapply Hpos, get_In, Ex).
  split; [| split].
  - apply update_usage_accounting; lra.
  - unfold HardwareStatus.update_usage. simpl. lra.
  - exact Hbase.
Qed.

Lemma merge_into_inv (kind new_name : string) (capacity : Q)
    (hardware hardware' : Dict.t HardwareStatus.t) :
  0 <= capacity ->
  merge_into kind new_name capacity hardware = inr hardware' ->
  (forall k hw, Dict.get k hardware = Some hw -> hw_inv k hw) ->
  forall k hw, Dict.get k hardware' = Some hw -> hw_inv k hw.
Proof.
  intros Hc Hm Hinv k hw. unfold merge_into in Hm.
  destruct (Dict.get kind hardware) as [g |] eqn:Eg; [| discriminate].
  injection Hm as <-. rewrite get_set.
  destruct (String.eqb_spec k kind) as [-> | Hne]; [| apply Hinv].
  intros [= <-]. destruct (Hinv kind g Eg) as ([H0 Ht] & Hav & Hbase).
  unfold hw_inv, accounting, HardwareStatus.add_total_rename. simpl.
  repeat split; lra.
Qed.

Lemma init_inv : rm_inv ResourceManager.init.
Proof.
  intros k hw. unfold ResourceManager.init, hardware. simpl.
  destruct (String.eqb_spec k "CPU") as [-> | _].
  { intros [= <-]. repeat split; now apply Qle_bool_imp_le. }
  destruct (String.eqb_spec k "GPU") as [-> | _].
  { intros [= <-]. repeat split; now apply Qle_bool_imp_le. }
  destruct (String.eqb_spec k "RAM") as [-> | _]; [| discriminate].
  intros [= <-]. repeat split; now apply Qle_bool_imp_le.
Qed.

Lemma step_inv (rm : ResourceManager.t) (c : Call) :
  call_ok c -> rm_inv rm -> rm_inv (step rm c).
Proof.
  intros Hc Hinv. destruct c as [task | task | name capacity unit]; simpl in *.
  - destruct (alloc_ok (allocate_resources rm task)) eqn:Hok.
    + destruct (allocate_granted rm task (proj1 Hc) Hok) as (_ & _ & Hget).
      apply allocate_ok_iff in Hok.
      intros k hw. rewrite Hget.
      destruct (Dict.get k (hardware rm)) as [hw0 |] eqn:Ek; [| discriminate].
      simpl. intros [= <-]. apply reserved_inv; auto.
      intros x Hx. eapply Hok; eauto. now apply get_In.
    + destruct (allocate_refused rm task Hok) as [-> _]. exact Hinv.
  - destruct (String.eqb_spec (AGI_Task.status task) "Finished") as [Hst | Hst].
    + destruct (free_finished rm task (proj1 Hc) Hst) as [_ Hget].
      intros k hw. rewrite Hget.
      destruct (Dict.get k (hardware rm)) as [hw0 |] eqn:Ek; [| discriminate].
      simpl. intros [= <-]. apply released_inv; auto.
    + now rewrite free_refused.
  - unfold add_external_hardware.
    destruct (Dict.mem name (hardware rm) || Dict.mem name (external_hardware rm));
      [exact Hinv |].
    destruct (str_in "GPU" name).
    { destruct (merge_into "GPU" "GPU_Hybrid" capacity (hardware rm))
        as [e | hardware'] eqn:Em; [exact Hinv |].
      destruct (Dict.get "GPU" hardware'); [| exact Hinv].
      intros k hw. simpl. eapply merge_into_inv; eauto. }
    destruct (str_in "RAM" name); [| exact Hinv].
    destruct (merge_into "RAM" "RAM_Hybrid" capacity (hardware rm))
      as [e | hardware'] eqn:Em; [exact Hinv |].
    destruct (Dict.get "RAM" hardware'); [| exact Hinv].
    intros k hw. simpl. eapply merge_into_inv; eauto.
Qed.

Lemma run_inv (calls : list Call) (rm : ResourceManager.t) :
  Forall call_ok calls -> rm_inv rm -> rm_inv (run rm calls).
Proof.
  revert rm. unfold run.
  induction calls as [| c calls IH]; intros rm Hc Hinv; simpl.
  - exact Hinv.
  - inversion Hc; subst. apply IH; [assumption | now apply step_inv].
Qed.

Lemma nodupb_NoDup (l : list string) : nodupb l = true -> NoDup l.
Proof.
  induction l as [| k l IH]; simpl; [constructor |].
  intros H. apply andb_prop in H. destruct H as [Hk Hl].
  constructor; [| auto].
  intros Hin. apply negb_true_iff in Hk.
  assert (existsb (String.eqb k) l = true); [| congruence].
  apply existsb_exists. exists k. split; [assumption | apply String.eqb_refl].
Qed.

Lemma request_okb_sound (request : Dict.t Q) :
  request_okb request = true -> request_ok request.
Proof.
  unfold request_okb, request_ok, Dict.wf. intros H.
  apply andb_prop in H. destruct H as [Hk Hx]. split.
  - now apply nodupb_NoDup.
  - intros k x Hin. rewrite forallb_forall in Hx.
    apply Qle_bool_imp_le. exact (Hx (k, x) Hin).
Qed.

Lemma call_okb_sound (calls : list Call) :
  forallb call_okb calls = true -> Forall call_ok calls.
Proof.
  rewrite forallb_forall, Forall_forall. intros H c Hin.
  specialize (H c Hin).
  destruct c; simpl in *;
    [now apply request_okb_sound | now apply request_okb_sound |
     now apply Qle_bool_imp_le].
Qed.

Lemma calculate_request_ok (complexity : Q) :
  0 <= complexity -> request_ok (AGI_Task._calculate_request complexity).
Proof.
  intros Hc. split.
  - apply nodupb_NoDup. reflexivity.
  - unfold AGI_Task._calculate_request, TOTAL_CPU_CORES, TOTAL_GPU_POWER,
      TOTAL_RAM_GB, MAX_ALLOCATION_PER_TASK.
    intros k x [H | [H | [H | []]]]; injection H as <- <-;
      match goal with
      | |- _ <= py_min ?a ?b =>
          destruct (py_min_cases a b) as [[? ->] | [? ->]]
      end; lra.
Qed.

(** ** C2: hot-plug *)

Lemma hot_plug_gpu (rm : ResourceManager.t) (name : string) (capacity : Q)
    (unit : string) (g : HardwareStatus.t) :
  Dict.mem name (hardware rm) = false ->
  Dict.mem name (external_hardware rm) = false ->
  str_in "GPU" name = true ->
  Dict.get "GPU" (hardware rm) = Some g ->
  exists rm' log,
    add_external_hardware rm name capacity unit = inr (rm', log)
    /\ Dict.get "GPU" (hardware rm')
       = Some (HardwareStatus.add_total_rename g capacity "GPU_Hybrid").
Proof.
  intros Hh He Hn Hg. unfold add_external_hardware, merge_into.
  rewrite Hh, He, Hn, Hg. simpl. rewrite get_set_same.
  eexists _, _. split; [reflexivity |]. simpl. apply get_set_same.
Qed.

(** C2.  In a pool whose aggregate GPU entry has total 100 and that knows
    no device named ["eGPU_X"], [add_external_hardware] with that name and
    capacity 250 raises the GPU total to 350 in the same call, but it writes
    neither [allocated] nor [available]: the available amount stored for the
    GPU, which is what the next allocation reads, is the one from before the
    call and has not grown by 250. *)
Theorem hot_plug_available_stale (rm : ResourceManager.t)
    (g : HardwareStatus.t) :
  Dict.get "GPU" (hardware rm) = Some g ->
  HardwareStatus.total g == 100 ->
  Dict.mem "eGPU_X" (hardware rm) = false ->
  Dict.mem "eGPU_X" (external_hardware rm) = false ->
  exists rm' log g',
    add_external_hardware rm "eGPU_X" 250 "%" = inr (rm', log)
    /\ Dict.get "GPU" (hardware rm') = Some g'
    /\ HardwareStatus.total g' == 350
    /\ HardwareStatus.allocated g' = HardwareStatus.allocated g
    /\ HardwareStatus.available g' = HardwareStatus.available g.
Proof.
  intros Hg Ht Hh He.
  destruct (hot_plug_gpu rm "eGPU_X" 250 "%" g Hh He eq_refl Hg)
    as (rm' & log & Hadd & Hget).
  exists rm', log, (HardwareStatus.add_total_rename g 250 "GPU_Hybrid").
  repeat split; try assumption. simpl. rewrite Ht. reflexivity.
Qed.

Lemma hot_plug_available_stale_witness :
  exists rm' log g',
    add_external_hardware ResourceManager.init "eGPU_X" 250 "%"
      = inr (rm', log)
    /\ Dict.get "GPU" (hardware rm') = Some g'
    /\ HardwareStatus.total g' == 350
    /\ HardwareStatus.allocated g' = 0
    /\ HardwareStatus.available g' = 100.
Proof.
  apply (hot_plug_available_stale ResourceManager.init
           (HardwareStatus.init "GPU_Internal" TOTAL_GPU_POWER "%"));
    reflexivity.
Defined.

(** The failing input of C2 evaluated: on a fresh pool the GPU entry ends
    with total 350, nothing allocated, and 100 marked available, which is
    not [total - allocated]. *)
Lemma hot_plug_fresh_pool :
  exists hw,
    Dict.get "GPU" (hardware hot_plugged) = Some hw
    /\ HardwareStatus.total hw == 350
    /\ HardwareStatus.allocated hw == 0
    /\ HardwareStatus.available hw == 100
    /\ ~ HardwareStatus.available hw
         == HardwareStatus.total hw - HardwareStatus.allocated hw.
Proof.
  eexists. split; [reflexivity |]. simpl.
  repeat split; try reflexivity. intros H. discriminate H.
Qed.

(** A request for more than the stale amount is refused although the pool
    has the capacity: what the next availability check sees. *)
Lemma hot_plug_not_seen_by_allocation :
  alloc_ok (allocate_resources hot_plugged
              (task_requesting "T" HIGH [("GPU", 150)])) = false.
Proof. reflexivity. Qed.

(** ** C7 and C6: the request of a task *)

Lemma init_tracks : tracks_base ResourceManager.init.
Proof.
  intros k [<- | [<- | [<- | []]]]; discriminate.
Qed.

Lemma merge_into_tracks (kind new_name : string) (capacity : Q)
    (hardware hardware' : Dict.t HardwareStatus.t) (k : string) :
  merge_into kind new_name capacity hardware = inr hardware' ->
  Dict.get k hardware <> None -> Dict.get k hardware' <> None.
Proof.
  unfold merge_into.
  destruct (Dict.get kind hardware) as [g |]; [| discriminate].
  intros [= <-]. rewrite get_set.
  now destruct (String.eqb k kind).
Qed.

Lemma step_tracks (rm : ResourceManager.t) (c : Call) :
  call_ok c -> tracks_base rm -> tracks_base (step rm c).
Proof.
  intros Hc Htr k Hk. specialize (Htr k Hk).
  destruct c as [task | task | name capacity unit]; simpl in *.
  - destruct (alloc_ok (allocate_resources rm task)) eqn:Hok.
    + destruct (allocate_granted rm task (proj1 Hc) Hok) as (_ & _ & Hget).
      rewrite Hget. now destruct (Dict.get k (hardware rm)).
    + now destruct (allocate_refused rm task Hok) as [-> _].
  - destruct (String.eqb_spec (AGI_Task.status task) "Finished") as [Hst | Hst].
    + destruct (free_finished rm task (proj1 Hc) Hst) as [_ Hget].
      rewrite Hget. now destruct (Dict.get k (hardware rm)).
    + now rewrite free_refused.
  - unfold add_external_hardware.
    destruct (Dict.mem name (hardware rm) || Dict.mem name (external_hardware rm));
      [exact Htr |].
    destruct (str_in "GPU" name).
    { destruct (merge_into "GPU" "GPU_Hybrid" capacity (hardware rm))
        as [e | hardware'] eqn:Em; [exact Htr |].
      destruct (Dict.get "GPU" hardware'); [| exact Htr].
      simpl. eapply merge_into_tracks; eauto. }
    destruct (str_in "RAM" name); [| exact Htr].
    destruct (merge_into "RAM" "RAM_Hybrid" capacity (hardware rm))
      as [e | hardware'] eqn:Em; [exact Htr |].
    destruct (Dict.get "RAM" hardware'); [| exact Htr].
    simpl. eapply merge_into_tracks; eauto.
Qed.

Lemma run_tracks (calls : list Call) (rm : ResourceManager.t) :
  Forall call_ok calls -> tracks_base rm -> tracks_base (run rm calls).
Proof.
  revert rm. unfold run.
  induction calls as [| c calls IH]; intros rm Hc Htr; simpl.
  - exact Htr.
  - inversion Hc; subst. apply IH; [assumption | now apply step_tracks].
Qed.

Lemma calculate_request_clamped (complexity : Q) (k : string) (x : Q) :
  In (k, x) (AGI_Task._calculate_request complexity) ->
  In k ["CPU"; "GPU"; "RAM"]
  /\ x <= MAX_ALLOCATION_PER_TASK * base_capacity k
  /\ x == spec_amount k complexity (base_capacity k).
Proof.
  unfold AGI_Task._calculate_request, spec_amount.
  intros [H | [H | [H | []]]]; injection H as <- <-;
    (split; [simpl; tauto |]);
    change (base_capacity "CPU") with TOTAL_CPU_CORES;
    change (base_capacity "GPU") with TOTAL_GPU_POWER;
    change (base_capacity "RAM") with TOTAL_RAM_GB;
    change (weight "CPU") with (1 # 5);
    change (weight "GPU") with (1 # 10);
    change (weight "RAM") with (1 # 2);
    rewrite py_min_Qmin;
    (split;
     [apply Q.le_min_r
     | match goal with
       | |- Qmin ?a ?b == Qmin ?c ?d =>
           assert (E : a == c) by ring; rewrite E; reflexivity
       end]).
Qed.

(** C7.  Whatever its complexity (1.0 included), no entry of the request
    derived for a task exceeds 0.5 times the total the pool holds for that
    kind, in any pool reached from a fresh one by reserve, release and
    hot-plug calls on amounts. *)
Theorem allocation_ceiling (calls : list Call) (complexity : Q)
    (k : string) (x : Q) :
  Forall call_ok calls ->
  In (k, x) (AGI_Task._calculate_request complexity) ->
  exists hw,
    Dict.get k (hardware (run ResourceManager.init calls)) = Some hw
    /\ x <= MAX_ALLOCATION_PER_TASK * HardwareStatus.total hw.
Proof.
  intros Hc Hin.
  destruct (calculate_request_clamped complexity k x Hin) as (Hk & Hle & _).
  pose proof (run_tracks calls _ Hc init_tracks k Hk) as Htr.
  destruct (Dict.get k (hardware (run ResourceManager.init calls)))
    as [hw |] eqn:Eg; [| congruence].
  exists hw. split; [reflexivity |].
  destruct (run_inv calls _ Hc init_inv k hw Eg) as (_ & _ & Hbase).
  unfold MAX_ALLOCATION_PER_TASK in *. lra.
Qed.

Lemma allocation_ceiling_witness :
  exists hw,
    Dict.get "RAM" (hardware (run ResourceManager.init
                                [Attach "eGPU_X" 250 "%"])) = Some hw
    /\ py_min (1 * (1 # 2) * TOTAL_RAM_GB)
              (MAX_ALLOCATION_PER_TASK * TOTAL_RAM_GB)
       <= MAX_ALLOCATION_PER_TASK * HardwareStatus.total hw.
Proof.
  apply (allocation_ceiling [Attach "eGPU_X" 250 "%"] 1 "RAM").
  - apply call_okb_sound. reflexivity.
  - simpl. right. right. left. reflexivity.
Defined.

(** C6, as the specification states it, fails: with the GPU total raised to
    350 by a hot-plug, a task of complexity 1 asks for 10 of the GPU, not
    for the 35 that the raised total gives. *)
Lemma request_ignores_hot_plug : ~ request_follows_pool hot_plugged 1.
Proof.
  intros H.
  destruct (H "GPU" (py_min (1 * (1 # 10) * TOTAL_GPU_POWER)
                            (MAX_ALLOCATION_PER_TASK * TOTAL_GPU_POWER)))
    as (hw & Hget & Heq).
  - simpl. right. left. reflexivity.
  - vm_compute in Hget. injection Hget as <-.
    vm_compute in Heq. discriminate Heq.
Qed.

(** C6, amended.  The request of a task created with complexity [c] is
    [_calculate_request c], and each of its entries is
    [weight * c * total] clamped to [0.50 * total], where [total] is the
    capacity the pool is constructed with for that kind (8, 100, 16): the
    pool at the instant of creation is not consulted. *)
Theorem request_follows_initial_pool (w : World) (task_name : string)
    (priority : TaskPriority) (c : Q) :
  AGI_Task.resource_request (new_task w task_name priority c)
    = AGI_Task._calculate_request c
  /\ request_follows_pool ResourceManager.init c.
Proof.
  split; [reflexivity |].
  intros k x Hin.
  destruct (calculate_request_clamped c k x Hin) as (Hk & _ & Heq).
  destruct Hk as [<- | [<- | [<- | []]]]; eexists; (split; [reflexivity |]);
    exact Heq.
Qed.

(** ** Releasing needs a finished task *)

(** A release is refused unless the task is finished: right after a
    reservation the task is running and nothing is given back. *)
Lemma release_needs_finished (rm : ResourceManager.t) (task : AGI_Task.t) :
  alloc_ok (allocate_resources rm task) = true ->
  fst (free_resources (alloc_rm (allocate_resources rm task))
         (alloc_task (allocate_resources rm task)))
  = alloc_rm (allocate_resources rm task).
Proof.
  intros Hok. apply free_refused.
  unfold allocate_resources, alloc_ok, alloc_task in *.
  destruct (check_request _ _ _) as [[c required] log1].
  destruct c; simpl in *; [| discriminate].
  destruct (apply_request _ _ _). simpl. discriminate.
Qed.

(** ** C10: constructing a task *)

(** C10.  The module never binds the name [uuid], so [AGI_Task.__init__]
    raises [NameError] at its first statement, whatever the arguments: the
    public constructor returns no task. *)
Theorem task_constructor_raises (w : World) (task_name : string)
    (priority : TaskPriority) (complexity : Q) :
  resolves module_globals "uuid" = false
  /\ AGI_Task_new w task_name priority complexity = inl (NameError "uuid").
Proof. split; reflexivity. Qed.

(** ** The stable descending sort *)

Section SortFacts.

Context {A : Type} (key : A -> Z).

Lemma insert_desc_perm (x : A) (l : list A) :
  Permutation (x :: l) (insert_desc key x l).
Proof.
  induction l as [| y l IH]; simpl; [reflexivity |].
  destruct (key y <? key x)%Z; [reflexivity |].
  rewrite perm_swap. now constructor.
Qed.

Lemma insert_desc_sorted (x : A) (l : list A) :
  StronglySorted (desc key) l ->
  StronglySorted (desc key) (insert_desc key x l).
Proof.
  induction l as [| y l IH]; intros Hs; simpl.
  - repeat constructor.
  - apply StronglySorted_inv in Hs. destruct Hs as [Hs Hy].
    destruct (key y <? key x)%Z eqn:E.
    + apply Z.ltb_lt in E. constructor; [now constructor |].
      constructor; [unfold desc; lia |].
      eapply Forall_impl; [| exact Hy]. unfold desc. intros; lia.
    + apply Z.ltb_ge in E. constructor; [auto |].
      eapply Permutation_Forall; [apply insert_desc_perm |].
      constructor; [exact E | exact Hy].
Qed.

Lemma tier_below (p : Z) (l : list A) :
  Forall (fun y => (key y < p)%Z) l -> tier key p l = [].
Proof.
  unfold tier. induction 1 as [| y l Hy _ IH]; simpl; [reflexivity |].
  destruct (Z.eqb_spec (key y) p); [lia | exact IH].
Qed.

Lemma tier_cons (p : Z) (y : A) (l : list A) :
  tier key p (y :: l)
  = if (key y =? p)%Z then y :: tier key p l else tier key p l.
Proof. reflexivity. Qed.

Lemma insert_desc_tier (p : Z) (x : A) (l : list A) :
  StronglySorted (desc key) l ->
  tier key p (insert_desc key x l) = (tier key p l ++ tier key p [x])%list.
Proof.
  induction l as [| y l IH]; intros Hs; simpl insert_desc; [reflexivity |].
  apply StronglySorted_inv in Hs. destruct Hs as [Hs Hy].
  destruct (key y <? key x)%Z eqn:E.
  - apply Z.ltb_lt in E.
    rewrite (tier_cons p x (y :: l)), (tier_cons p x []).
    destruct (Z.eqb_spec (key x) p) as [Hp | Hp].
    + assert (Hnil : tier key p (y :: l) = []).
      { apply tier_below. constructor; [lia |].
        eapply Forall_impl; [| exact Hy]. unfold desc. intros; lia. }
      now rewrite Hnil.
    + now rewrite app_nil_r.
  - rewrite (tier_cons p y (insert_desc key x l)), (tier_cons p y l).
    rewrite IH by assumption.
    now destruct (key y =? p)%Z.
Qed.

Lemma insert_desc_last (x : A) (l : list A) :
  Forall (fun y => (key x <= key y)%Z) l ->
  insert_desc key x l = (l ++ [x])%list.
Proof.
  induction 1 as [| y l Hy _ IH]; simpl; [reflexivity |].
  destruct (Z.ltb_spec (key y) (key x)); [lia | now rewrite IH].
Qed.

Lemma sorted_desc_snoc (l : list A) (x : A) :
  sorted_desc key (l ++ [x]) = insert_desc key x (sorted_desc key l).
Proof. unfold sorted_desc. now rewrite fold_left_app. Qed.

Lemma sorted_desc_perm (l : list A) : Permutation l (sorted_desc key l).
Proof.
  induction l as [| x l IH] using rev_ind; [reflexivity |].
  rewrite sorted_desc_snoc, <- insert_desc_perm.
  rewrite Permutation_app_comm. simpl. now constructor.
Qed.

Lemma sorted_desc_sorted (l : list A) :
  StronglySorted (desc key) (sorted_desc key l).
Proof.
  induction l as [| x l IH] using rev_ind; [constructor |].
  rewrite sorted_desc_snoc. now apply insert_desc_sorted.
Qed.

(** Stability: within a tier the order of the input is kept. *)
Lemma sorted_desc_stable (p : Z) (l : list A) :
  tier key p (sorted_desc key l) = tier key p l.
Proof.
  induction l as [| x l IH] using rev_ind; [reflexivity |].
  rewrite sorted_desc_snoc, insert_desc_tier by apply sorted_desc_sorted.
  rewrite IH. unfold tier. now rewrite filter_app.
Qed.

(** Sorting what is already in order changes nothing. *)
Lemma sorted_desc_id (l : list A) :
  StronglySorted (desc key) l -> sorted_desc key l = l.
Proof.
  induction l as [| x l IH] using rev_ind; intros Hs; [reflexivity |].
  assert (Hl : StronglySorted (desc key) l /\
               Forall (fun y => (key x <= key y)%Z) l).
  { clear IH. induction l as [| y l IHl]; simpl in *.
    - split; constructor.
    - apply StronglySorted_inv in Hs. destruct Hs as [Hs Hy].
      destruct (IHl Hs) as [Hs' Hx]. split.
      + constructor; [exact Hs' |].
        apply Forall_app in Hy. tauto.
      + constructor; [| exact Hx].
        apply Forall_app in Hy. destruct Hy as [_ Hy].
        now inversion Hy. }
  destruct Hl as [Hs' Hx].
  rewrite sorted_desc_snoc, IH by assumption.
  now apply insert_desc_last.
Qed.

End SortFacts.

(** ** Submission *)

Lemma submit_task_queue (s : RealTimeScheduler.t) (r : nat) :
  (r < List.length (RealTimeScheduler.heap s))%nat ->
  RealTimeScheduler.heap (RealTimeScheduler.submit_task s r)
    = RealTimeScheduler.heap s
  /\ RealTimeScheduler.task_queue (RealTimeScheduler.submit_task s r)
     = sorted_desc (RealTimeScheduler.key (RealTimeScheduler.heap s))
         (RealTimeScheduler.task_queue s ++ [r]).
Proof.
  intros Hr. unfold RealTimeScheduler.submit_task.
  destruct (nth_error (RealTimeScheduler.heap s) r) eqn:E; [now split |].
  apply nth_error_None in E. lia.
Qed.

(** After submissions to an empty queue the queue is the stable descending
    sort of the submissions. *)
Lemma submissions_queue (rm : ResourceManager.t) (heap : list AGI_Task.t)
    (w : World) (refs : list nat) :
  Forall (fun r => (r < List.length heap)%nat) refs ->
  RealTimeScheduler.heap
    (fold_left RealTimeScheduler.submit_task refs
       (RealTimeScheduler.init rm heap w)) = heap
  /\ RealTimeScheduler.task_queue
       (fold_left RealTimeScheduler.submit_task refs
          (RealTimeScheduler.init rm heap w))
     = sorted_desc (RealTimeScheduler.key heap) refs.
Proof.
  induction refs as [| r refs IH] using rev_ind; intros Hv.
  - now split.
  - apply Forall_app in Hv. destruct Hv as [Hv Hr].
    inversion Hr as [| ? ? Hr' _]; subst.
    destruct (IH Hv) as [Hheap Hq].
    rewrite fold_left_app. cbn [fold_left].
    destruct (submit_task_queue
                (fold_left RealTimeScheduler.submit_task refs
                   (RealTimeScheduler.init rm heap w)) r) as [Hh' Hq'].
    { now rewrite Hheap. }
    rewrite Hh', Hq', Hheap, Hq. split; [reflexivity |].
    rewrite !sorted_desc_snoc.
    rewrite (sorted_desc_id _ (sorted_desc _ refs))
      by apply sorted_desc_sorted.
    reflexivity.
Qed.

(** ** C3: order of admission *)

(** Split the goal on the outcome of each completion test of the first
    loop of [dispatch_tasks], for a clock [c] and random draws [d]. *)
Ltac split_completion c d :=
  repeat match goal with
    | |- context [Qltb (1 # 2) (c ?i - c ?j)] =>
        destruct (Qltb (1 # 2) (c i - c j))
    | |- context [Qltb (d ?i) (1 # 10)] =>
        destruct (Qltb (d i) (1 # 10))
    end.

Lemma abc_admission_order (clock dice : nat -> Q) :
  RealTimeScheduler.task_queue (abc_submitted clock dice) = [1; 0; 2]%nat
  /\ admitted (RealTimeScheduler.out
                 (RealTimeScheduler.dispatch (abc_submitted clock dice)))
     = [RTS_DISPATCHED "B" CRITICAL; RTS_DISPATCHED "A" HIGH]
  /\ admitted (RealTimeScheduler.out
                 (RealTimeScheduler.dispatch
                    (RealTimeScheduler.dispatch (abc_submitted clock dice))))
     = [RTS_DISPATCHED "B" CRITICAL; RTS_DISPATCHED "A" HIGH;
        RTS_DISPATCHED "C" HIGH].
Proof.
  split; [reflexivity |]. split; [reflexivity |].
  unfold RealTimeScheduler.dispatch at 1.
  remember (RealTimeScheduler.dispatch (abc_submitted clock dice)) as s1
    eqn:E.
  vm_compute in E. subst s1.
  unfold RealTimeScheduler.dispatch_tasks. cbn -[Qltb].
  split_completion clock dice; reflexivity.
Qed.

(** C3.  [submit_task] leaves the queue as the stable descending sort of
    the old queue followed by the new task: ordered by priority, a
    rearrangement of the tasks, each priority tier in its previous order.
    Composed over submissions to an empty queue, every tier is in submission
    order.  Tasks A (high), B (critical), C (high) submitted in that order to
    a scheduler with room for all three are admitted in the order B, A, C,
    whatever the clock and the random draws. *)
Theorem priority_then_fifo :
  (forall s r,
     (r < List.length (RealTimeScheduler.heap s))%nat ->
     let key := RealTimeScheduler.key (RealTimeScheduler.heap s) in
     let queue := RealTimeScheduler.task_queue s in
     let queue' :=
       RealTimeScheduler.task_queue (RealTimeScheduler.submit_task s r) in
     queue' = sorted_desc key (queue ++ [r])
     /\ Permutation (queue ++ [r]) queue'
     /\ StronglySorted (desc key) queue'
     /\ forall p, tier key p queue' = tier key p (queue ++ [r]))
  /\ (forall rm heap w refs,
        Forall (fun r => (r < List.length heap)%nat) refs ->
        let key := RealTimeScheduler.key heap in
        let queue :=
          RealTimeScheduler.task_queue
            (fold_left RealTimeScheduler.submit_task refs
               (RealTimeScheduler.init rm heap w)) in
        Permutation refs queue
        /\ StronglySorted (desc key) queue
        /\ forall p, tier key p queue = tier key p refs)
  /\ (forall clock dice,
        admitted (RealTimeScheduler.out
                    (RealTimeScheduler.dispatch
                       (RealTimeScheduler.dispatch
                          (abc_submitted clock dice))))
        = [RTS_DISPATCHED "B" CRITICAL; RTS_DISPATCHED "A" HIGH;
           RTS_DISPATCHED "C" HIGH]).
Proof.
  split; [| split].
  - intros s r Hr key queue queue'.
    destruct (submit_task_queue s r Hr) as [_ Hq].
    subst queue'. rewrite Hq. fold key. fold queue.
    split; [reflexivity |]. split; [apply sorted_desc_perm |].
    split; [apply sorted_desc_sorted | intros p; apply sorted_desc_stable].
  - intros rm heap w refs Hv key queue.
    destruct (submissions_queue rm heap w refs Hv) as [_ Hq].
    subst queue. rewrite Hq.
    split; [apply sorted_desc_perm |].
    split; [apply sorted_desc_sorted | intros p; apply sorted_desc_stable].
  - intros clock dice. apply abc_admission_order.
Qed.

(** ** C4: all-or-nothing admission *)

Lemma dispatch_loop_refused (r : nat) (rest : list nat)
    (s : RealTimeScheduler.t) (n : nat) (task : AGI_Task.t) :
  (n < 2)%nat ->
  nth_error (RealTimeScheduler.heap s) r = Some task ->
  RealTimeScheduler.admissible_status task = true ->
  alloc_ok (allocate_resources (RealTimeScheduler.rm s) task) = false ->
  RealTimeScheduler.dispatch_loop (r :: rest) s n
  = RealTimeScheduler.dispatch_loop rest (blocked s r task) n.
Proof.
  intros Hn Hr Hst Hok. cbn [RealTimeScheduler.dispatch_loop].
  destruct (Nat.leb_spec 2 n) as [Hle | _]; [lia |].
  rewrite Hr, Hst. unfold blocked.
  destruct (allocate_refused _ _ Hok) as [Hrm Htask].
  unfold alloc_ok, alloc_rm, alloc_task, alloc_log in *.
  destruct (allocate_resources (RealTimeScheduler.rm s) task)
    as [[[rm' task'] ok] log].
  simpl in *. subst. reflexivity.
Qed.

Lemma blocking_example (w : World) :
  let s := blocking_scenario w in
  let s' := RealTimeScheduler.dispatch s in
  queue_statuses s = [Some "Pending"; Some "Pending"]
  /\ option_map HardwareStatus.total
       (Dict.get "CPU" (hardware (RealTimeScheduler.rm s))) = Some 8
  /\ allocated_of (RealTimeScheduler.rm s) "CPU" = Some 7
  /\ RealTimeScheduler.task_queue s' = RealTimeScheduler.task_queue s
  /\ queue_statuses s' = [Some "Queued_Blocked"; Some "Queued_Blocked"]
  /\ RealTimeScheduler.running_tasks s' = []
  /\ RealTimeScheduler.rm s' = RealTimeScheduler.rm s
  /\ admitted (RealTimeScheduler.out s') = [].
Proof. repeat split. Qed.

(** C4.  [allocate_resources] reserves every tracked entry of the request
    and marks the task running, or it leaves the pool as it was and marks
    the task blocked.  In [dispatch_tasks] a refused task stays in the queue
    and the scan goes on with the next task, on the same pool.  With 7 of 8
    cores allocated and two pending tasks that each need 2 cores, one
    dispatch call leaves both tasks blocked, in the queue, and 7 cores
    allocated. *)
Theorem all_or_nothing_admission :
  (forall rm task,
     Dict.wf (AGI_Task.resource_request task) ->
     (alloc_ok (allocate_resources rm task) = true
      /\ AGI_Task.status (alloc_task (allocate_resources rm task)) = "Running"
      /\ forall k,
           Dict.get k (hardware (alloc_rm (allocate_resources rm task)))
           = option_map (reserved (AGI_Task.resource_request task) k)
               (Dict.get k (hardware rm)))
     \/ (alloc_ok (allocate_resources rm task) = false
         /\ alloc_rm (allocate_resources rm task) = rm
         /\ AGI_Task.status (alloc_task (allocate_resources rm task))
            = "Queued_Blocked"))
  /\ (forall r rest s n task,
        (n < 2)%nat ->
        nth_error (RealTimeScheduler.heap s) r = Some task ->
        RealTimeScheduler.admissible_status task = true ->
        alloc_ok (allocate_resources (RealTimeScheduler.rm s) task) = false ->
        RealTimeScheduler.dispatch_loop (r :: rest) s n
        = RealTimeScheduler.dispatch_loop rest (blocked s r task) n
        /\ RealTimeScheduler.rm (blocked s r task) = RealTimeScheduler.rm s
        /\ RealTimeScheduler.task_queue (blocked s r task)
           = RealTimeScheduler.task_queue s)
  /\ (forall w,
        let s := blocking_scenario w in
        let s' := RealTimeScheduler.dispatch s in
        queue_statuses s = [Some "Pending"; Some "Pending"]
        /\ allocated_of (RealTimeScheduler.rm s) "CPU" = Some 7
        /\ RealTimeScheduler.task_queue s' = RealTimeScheduler.task_queue s
        /\ queue_statuses s' = [Some "Queued_Blocked"; Some "Queued_Blocked"]
        /\ allocated_of (RealTimeScheduler.rm s') "CPU" = Some 7).
Proof.
  split; [| split].
  - intros rm task Hwf.
    destruct (alloc_ok (allocate_resources rm task)) eqn:Hok.
    + left. destruct (allocate_granted rm task Hwf Hok) as (Ht & _ & Hget).
      rewrite Ht. auto.
    + right. destruct (allocate_refused rm task Hok) as [Hrm Ht].
      rewrite Ht. auto.
  - intros r rest s n task Hn Hr Hst Hok.
    split; [now apply dispatch_loop_refused | split; reflexivity].
  - intros w. repeat split.
Qed.

(** ** C5: at most two admissions per dispatch *)

Lemma admitted_app (l1 l2 : list Event) :
  admitted (l1 ++ l2) = (admitted l1 ++ admitted l2)%list.
Proof. apply filter_app. Qed.

Lemma release_log_admitted (task_name : string) (request : list (string * Q))
    (hardware : Dict.t HardwareStatus.t) :
  admitted (snd (release_request task_name request hardware)) = [].
Proof.
  revert hardware.
  induction request as [| [k x] request IH]; intros hardware; simpl;
    [reflexivity |].
  destruct (Dict.get k hardware) as [hw |]; [| apply IH].
  specialize (IH (Dict.set k
                    (HardwareStatus.update_usage hw
                       (HardwareStatus.allocated hw - x)) hardware)).
  now destruct (release_request task_name request _).
Qed.

Lemma free_log_admitted (rm : ResourceManager.t) (task : AGI_Task.t) :
  admitted (snd (free_resources rm task)) = [].
Proof.
  unfold free_resources.
  destruct (negb (AGI_Task.status task =? "Finished")%string);
    [reflexivity |].
  pose proof (release_log_admitted (AGI_Task.name task)
                (Dict.items (AGI_Task.resource_request task)) (hardware rm)).
  now destruct (release_request _ _ _).
Qed.

Lemma check_log_admitted (hardware : Dict.t HardwareStatus.t)
    (request : list (string * Q)) (required : Dict.t Q) :
  admitted (snd (check_request hardware request required)) = [].
Proof.
  revert required.
  induction request as [| [k x] request IH]; intros required; simpl;
    [reflexivity |].
  destruct (Dict.get k hardware) as [hw |].
  - destruct (Qltb (HardwareStatus.available hw) x); [reflexivity | apply IH].
  - specialize (IH required).
    now destruct (check_request hardware request required) as [[c r] l].
Qed.

Lemma apply_log_admitted (task_name : string) (required : list (string * Q))
    (hardware : Dict.t HardwareStatus.t) :
  admitted (snd (apply_request task_name required hardware)) = [].
Proof.
  revert hardware.
  induction required as [| [k x] required IH]; intros hardware; simpl;
    [reflexivity |].
  destruct (Dict.get k hardware) as [hw |]; [| apply IH].
  specialize (IH (Dict.set k
                    (HardwareStatus.update_usage hw
                       (HardwareStatus.allocated hw + x)) hardware)).
  now destruct (apply_request task_name required _).
Qed.

Lemma alloc_log_admitted (rm : ResourceManager.t) (task : AGI_Task.t) :
  admitted (alloc_log (allocate_resources rm task)) = [].
Proof.
  unfold allocate_resources, alloc_log.
  pose proof (check_log_admitted (hardware rm)
                (Dict.items (AGI_Task.resource_request task)) Dict.empty)
    as H1.
  destruct (check_request _ _ _) as [[c required] log1]. simpl in H1.
  destruct c; [| exact H1].
  pose proof (apply_log_admitted (AGI_Task.name task)
                (Dict.items required) (hardware rm)) as H2.
  destruct (apply_request _ _ _) as [hardware' log2]. simpl in *.
  now rewrite admitted_app, H1, H2.
Qed.

Lemma finish_quiet (s : RealTimeScheduler.t) (task_id : string) (r : nat)
    (task : AGI_Task.t) :
  RealTimeScheduler.task_queue (RealTimeScheduler.finish s task_id r task)
    = RealTimeScheduler.task_queue s
  /\ admitted (RealTimeScheduler.out
                 (RealTimeScheduler.finish s task_id r task))
     = admitted (RealTimeScheduler.out s).
Proof.
  unfold RealTimeScheduler.finish.
  pose proof (free_log_admitted (RealTimeScheduler.rm s)
                (AGI_Task.set_status task "Finished")) as H.
  destruct (free_resources _ _) as [rm' log]. simpl in *.
  now rewrite admitted_app, H, app_nil_r.
Qed.

Lemma reap_quiet (running : list (string * nat)) (s : RealTimeScheduler.t) :
  RealTimeScheduler.task_queue (RealTimeScheduler.reap running s)
    = RealTimeScheduler.task_queue s
  /\ admitted (RealTimeScheduler.out (RealTimeScheduler.reap running s))
     = admitted (RealTimeScheduler.out s).
Proof.
  revert s. induction running as [| [task_id r] running IH]; intros s;
    simpl; [now split |].
  destruct (nth_error (RealTimeScheduler.heap s) r) as [task |]; [| apply IH].
  destruct (Qltb (1 # 2) _); [| destruct (Qltb _ (1 # 10))];
    match goal with
    | |- context [RealTimeScheduler.reap running ?s1] =>
        destruct (IH s1) as [-> ->]
    end;
    try match goal with
      | |- context [RealTimeScheduler.finish ?s0 ?i ?r0 ?t0] =>
          destruct (finish_quiet s0 i r0 t0) as [-> ->]
      end;
    now split.
Qed.

Lemma remove_first_length (x : nat) (l : list nat) :
  (List.length l <= S (List.length (remove_first x l)))%nat.
Proof.
  induction l as [| y l IH]; simpl; [lia |].
  destruct (Nat.eqb x y); simpl; lia.
Qed.

Lemma dispatch_loop_bounded (tasks : list nat) (s : RealTimeScheduler.t)
    (n : nat) :
  (n <= 2)%nat ->
  let s' := fst (RealTimeScheduler.dispatch_loop tasks s n) in
  let n' := snd (RealTimeScheduler.dispatch_loop tasks s n) in
  (n <= n' <= 2)%nat
  /\ List.length (admitted (RealTimeScheduler.out s'))
     = (List.length (admitted (RealTimeScheduler.out s)) + (n' - n))%nat
  /\ (List.length (RealTimeScheduler.task_queue s)
      <= List.length (RealTimeScheduler.task_queue s') + (n' - n))%nat.
Proof.
  revert s n. induction tasks as [| r rest IH]; intros s n Hn;
    cbn [RealTimeScheduler.dispatch_loop].
  - simpl. lia.
  - destruct (Nat.leb_spec 2 n) as [Hle | Hlt]; [simpl; lia |].
    destruct (nth_error (RealTimeScheduler.heap s) r) as [task |];
      [| now apply IH].
    destruct (RealTimeScheduler.admissible_status task); [| now apply IH].
    pose proof (alloc_log_admitted (RealTimeScheduler.rm s) task) as Hlog.
    unfold alloc_log in Hlog.
    destruct (allocate_resources (RealTimeScheduler.rm s) task)
      as [[[rm' task'] ok] log].
    simpl in Hlog. destruct ok.
    + unfold time_time. cbv beta iota.
      match goal with
      | |- context [RealTimeScheduler.dispatch_loop rest ?s1 (S n)] =>
          specialize (IH s1 (S n) ltac:(lia))
      end.
      cbn [RealTimeScheduler.out RealTimeScheduler.task_queue] in IH.
      rewrite !admitted_app, Hlog in IH. simpl in IH.
      rewrite length_app in IH. simpl in IH.
      pose proof (remove_first_length r (RealTimeScheduler.task_queue s)).
      cbv zeta in *. simpl. lia.
    + match goal with
      | |- context [RealTimeScheduler.dispatch_loop rest ?s1 n] =>
          specialize (IH s1 n Hn)
      end.
      cbn [RealTimeScheduler.out RealTimeScheduler.task_queue] in IH.
      rewrite !admitted_app, Hlog in IH. simpl in IH.
      rewrite app_nil_r in IH. exact IH.
Qed.

Lemma dispatch_tasks_bounded (s : RealTimeScheduler.t) (m : Z) :
  (List.length (admitted (RealTimeScheduler.out
                            (RealTimeScheduler.dispatch_tasks s m)))
   <= List.length (admitted (RealTimeScheduler.out s)) + 2)%nat
  /\ (List.length (RealTimeScheduler.task_queue s)
      <= List.length (RealTimeScheduler.task_queue
                        (RealTimeScheduler.dispatch_tasks s m)) + 2)%nat.
Proof.
  unfold RealTimeScheduler.dispatch_tasks.
  destruct (reap_quiet (Dict.items (RealTimeScheduler.running_tasks s)) s)
    as [Hq Ha].
  set (s1 := RealTimeScheduler.reap _ s) in *.
  pose proof (dispatch_loop_bounded
                (slice_to m (RealTimeScheduler.task_queue s1)) s1 0
                ltac:(lia)) as H.
  destruct (RealTimeScheduler.dispatch_loop _ s1 0) as [s2 n2].
  cbv zeta in H. simpl in *.
  rewrite admitted_app, length_app. simpl.
  rewrite <- Hq, <- Ha. lia.
Qed.

Lemma five_pending_example (clock dice : nat -> Q) :
  let s := five_pending clock dice in
  let s' := RealTimeScheduler.dispatch s in
  RealTimeScheduler.task_queue s = [0; 1; 2; 3; 4]%nat
  /\ queue_statuses s = repeat (Some "Pending") 5
  /\ forallb (admissible_now s) (RealTimeScheduler.task_queue s) = true
  /\ admitted (RealTimeScheduler.out s')
     = [RTS_DISPATCHED "J0" MEDIUM; RTS_DISPATCHED "J1" MEDIUM]
  /\ map snd (RealTimeScheduler.running_tasks s') = [0; 1]%nat
  /\ RealTimeScheduler.task_queue s' = [2; 3; 4]%nat
  /\ queue_statuses s' = repeat (Some "Pending") 3
  /\ forallb (admissible_now s') (RealTimeScheduler.task_queue s') = true.
Proof. repeat split. Qed.

(** C5.  One call of [dispatch_tasks] admits at most two tasks, whatever
    the state and the number of tasks it may look at: the output gains at
    most two admissions and the queue loses at most two tasks.  With five
    pending tasks that a fresh pool can take, one call admits the first two
    and leaves the other three pending in the queue, although each of them
    could be admitted at once. *)
Theorem throughput_cap :
  (forall s max_tasks_to_check,
     (List.length
        (admitted (RealTimeScheduler.out
                     (RealTimeScheduler.dispatch_tasks s max_tasks_to_check)))
      <= List.length (admitted (RealTimeScheduler.out s)) + 2)%nat
     /\ (List.length (RealTimeScheduler.task_queue s)
         <= List.length
              (RealTimeScheduler.task_queue
                 (RealTimeScheduler.dispatch_tasks s max_tasks_to_check))
            + 2)%nat)
  /\ (forall clock dice,
        let s := five_pending clock dice in
        let s' := RealTimeScheduler.dispatch s in
        queue_statuses s = repeat (Some "Pending") 5
        /\ forallb (admissible_now s) (RealTimeScheduler.task_queue s) = true
        /\ List.length (admitted (RealTimeScheduler.out s')) = 2%nat
        /\ List.length (RealTimeScheduler.running_tasks s') = 2%nat
        /\ RealTimeScheduler.task_queue s' = [2; 3; 4]%nat
        /\ queue_statuses s' = repeat (Some "Pending") 3
        /\ forallb (admissible_now s') (RealTimeScheduler.task_queue s')
           = true).
Proof.
  split.
  - intros s m. apply dispatch_tasks_bounded.
  - intros clock dice. repeat split.
Qed.

(** ** Updating a task in the object store *)

Lemma heap_set_cons (r : nat) (task x : AGI_Task.t) (heap : list AGI_Task.t) :
  heap_set (S r) task (x :: heap) = x :: heap_set r task heap.
Proof.
  unfold heap_set. simpl. now destruct (nth_error heap r).
Qed.


(** * Further properties of the code *)

(** ** The request of a task, at the edges of the complexity range *)






(** ** Hot-plug and the totals of the pool *)

Lemma set_absent_app {V : Type} (k : string) (v : V) (d : Dict.t V) :
  Dict.get k d = None -> Dict.set k v d = (d ++ [(k, v)])%list.
Proof.
  induction d as [| [k' v'] d IH]; simpl; [reflexivity |].
  destruct (String.eqb k k'); [discriminate |].
  intros H. now rewrite IH.
Qed.

Lemma apply_request_static (task_name : string)
    (required : list (string * Q)) (hardware : Dict.t HardwareStatus.t)
    (k : string) :
  option_map static (Dict.get k (fst (apply_request task_name required hardware)))
  = option_map static (Dict.get k hardware).
Proof.
  revert hardware.
  induction required as [| [k0 x0] required IH]; intros hardware; simpl;
    [reflexivity |].
  destruct (Dict.get k0 hardware) as [hw0 |] eqn:Ek; [| apply IH].
  specialize (IH (Dict.set k0
                    (HardwareStatus.update_usage hw0
                       (HardwareStatus.allocated hw0 + x0)) hardware)).
  destruct (apply_request task_name required _) as [h l].
  simpl in *. rewrite IH, get_set.
  destruct (String.eqb_spec k k0) as [-> | _]; [| reflexivity].
  now rewrite Ek.
Qed.

Lemma release_request_static (task_name : string)
    (request : list (string * Q)) (hardware : Dict.t HardwareStatus.t)
    (k : string) :
  option_map static
    (Dict.get k (fst (release_request task_name request hardware)))
  = option_map static (Dict.get k hardware).
Proof.
  revert hardware.
  induction request as [| [k0 x0] request IH]; intros hardware; simpl;
    [reflexivity |].
  destruct (Dict.get k0 hardware) as [hw0 |] eqn:Ek; [| apply IH].
  specialize (IH (Dict.set k0
                    (HardwareStatus.update_usage hw0
                       (HardwareStatus.allocated hw0 - x0)) hardware)).
  destruct (release_request task_name request _) as [h l].
  simpl in *. rewrite IH, get_set.
  destruct (String.eqb_spec k k0) as [-> | _]; [| reflexivity].
  now rewrite Ek.
Qed.

(** A reservation or a release writes no name, total, unit or origin, and
    leaves the external devices alone. *)
Lemma reserve_release_static (rm : ResourceManager.t) (task : AGI_Task.t) :
  (external_hardware (alloc_rm (allocate_resources rm task))
     = external_hardware rm
   /\ forall k,
        option_map static
          (Dict.get k (hardware (alloc_rm (allocate_resources rm task))))
        = option_map static (Dict.get k (hardware rm)))
  /\ (external_hardware (fst (free_resources rm task)) = external_hardware rm
      /\ forall k,
           option_map static
             (Dict.get k (hardware (fst (free_resources rm task))))
           = option_map static (Dict.get k (hardware rm))).
Proof.
  split.
  - unfold allocate_resources, alloc_rm.
    destruct (check_request _ _ _) as [[c required] log1].
    destruct c; [| now split].
    pose proof (apply_request_static (AGI_Task.name task)
                  (Dict.items required) (hardware rm)) as H.
    destruct (apply_request _ _ _) as [hardware' log2]. now split.
  - unfold free_resources.
    destruct (negb (AGI_Task.status task =? "Finished")%string); [now split |].
    pose proof (release_request_static (AGI_Task.name task)
                  (Dict.items (AGI_Task.resource_request task))
                  (hardware rm)) as H.
    destruct (release_request _ _ _) as [hardware' log]. now split.
Qed.

(** What a successful hot-plug call did. *)
Lemma attach_cases (rm rm1 : ResourceManager.t) (name : string)
    (capacity : Q) (unit : string) (log : list Event) :
  add_external_hardware rm name capacity unit = inr (rm1, log) ->
  (rm1 = rm /\ log = [RM_WARNING_exists name]
   /\ Dict.mem name (hardware rm) || Dict.mem name (external_hardware rm)
      = true)
  \/ (Dict.get name (hardware rm) = None
      /\ Dict.get name (external_hardware rm) = None
      /\ external_hardware rm1
         = (external_hardware rm
              ++ [(name,
                   HardwareStatus.set_is_external
                     (HardwareStatus.init name capacity unit) true)])%list
      /\ match merged_into name with
         | Some kind =>
             exists g new_name,
               Dict.get kind (hardware rm) = Some g
               /\ hardware rm1
                  = Dict.set kind
                      (HardwareStatus.add_total_rename g capacity new_name)
                      (hardware rm)
         | None => hardware rm1 = hardware rm
         end).
Proof.
  unfold add_external_hardware, merged_into, merge_into.
  destruct (Dict.mem name (hardware rm)) eqn:Eh; simpl.
  { intros [= <- <-]. left. auto. }
  destruct (Dict.mem name (external_hardware rm)) eqn:Ee; simpl.
  { intros [= <- <-]. left. auto. }
  assert (Hh : Dict.get name (hardware rm) = None).
  { unfold Dict.mem in Eh. now destruct (Dict.get name (hardware rm)). }
  assert (He : Dict.get name (external_hardware rm) = None).
  { unfold Dict.mem in Ee. now destruct (Dict.get name (external_hardware rm)). }
  rewrite (set_absent_app _ _ _ He).
  destruct (str_in "GPU" name).
  { destruct (Dict.get "GPU" (hardware rm)) as [g |] eqn:Eg; [| discriminate].
    rewrite get_set_same. intros [= <- <-]. right.
    repeat split; auto. exists g, "GPU_Hybrid". now split. }
  destruct (str_in "RAM" name).
  { destruct (Dict.get "RAM" (hardware rm)) as [g |] eqn:Eg; [| discriminate].
    rewrite get_set_same. intros [= <- <-]. right.
    repeat split; auto. exists g, "RAM_Hybrid". now split. }
  intros [= <- <-]. right. repeat split; auto.
Qed.

Lemma merged_into_kinds (name kind : string) :
  merged_into name = Some kind -> kind = "GPU" \/ kind = "RAM".
Proof.
  unfold merged_into. destruct (str_in "GPU" name); [intros [= <-]; auto |].
  destruct (str_in "RAM" name); [intros [= <-]; auto | discriminate].
Qed.

Lemma cpu_static_step (rm : ResourceManager.t) (c : Call) :
  option_map static (Dict.get "CPU" (hardware (step rm c)))
  = option_map static (Dict.get "CPU" (hardware rm)).
Proof.
  destruct c as [task | task | name capacity unit]; simpl.
  - apply (reserve_release_static rm task).
  - apply (reserve_release_static rm task).
  - destruct (add_external_hardware rm name capacity unit)
      as [e | [rm1 log]] eqn:Ea; [reflexivity |].
    destruct (attach_cases _ _ _ _ _ _ Ea)
      as [(-> & _) | (_ & _ & _ & Hm)]; [reflexivity |].
    destruct (merged_into name) as [kind |] eqn:Ek; [| now rewrite Hm].
    destruct Hm as (g & new_name & Hg & ->).
    rewrite get_set_other; [reflexivity |].
    destruct (merged_into_kinds _ _ Ek) as [-> | ->]; discriminate.
Qed.

(** X3.  No call changes the CPU entry's name, total, unit or origin: the
    pool has 8 cores for ever, and no device name makes a hot-plug add to
    them. *)
Theorem cpu_capacity_is_fixed (calls : list Call) :
  option_map static
    (Dict.get "CPU" (hardware (run ResourceManager.init calls)))
  = Some ("CPU_Internal", TOTAL_CPU_CORES, "Cores", false).
Proof.
  unfold run.
  assert (H : forall rm,
             option_map static (Dict.get "CPU" (hardware (fold_left step calls rm)))
             = option_map static (Dict.get "CPU" (hardware rm))).
  { induction calls as [| c calls IH]; intros rm; simpl; [reflexivity |].
    rewrite IH. apply cpu_static_step. }
  rewrite H. reflexivity.
Qed.

(** X5.  A device name counts once.  After a hot-plug call that returned,
    a second call with the same name changes nothing and prints the warning,
    whatever capacity and unit it gives. *)
Theorem attach_same_name_again (rm rm1 : ResourceManager.t) (name : string)
    (capacity capacity' : Q) (unit unit' : string) (log : list Event) :
  add_external_hardware rm name capacity unit = inr (rm1, log) ->
  add_external_hardware rm1 name capacity' unit'
  = inr (rm1, [RM_WARNING_exists name]).
Proof.
  intros Ha.
  destruct (attach_cases _ _ _ _ _ _ Ha)
    as [(-> & _ & Hmem) | (_ & He & Hext & _)].
  - unfold add_external_hardware. now rewrite Hmem.
  - unfold add_external_hardware.
    assert (Hmem : Dict.mem name (external_hardware rm1) = true).
    { rewrite Hext, <- (set_absent_app _ _ _ He).
      unfold Dict.mem. now rewrite get_set_same. }
    rewrite Hmem, orb_true_r. reflexivity.
Qed.

Lemma attach_same_name_again_witness :
  add_external_hardware hot_plugged "eGPU_X" 500 "%"
  = inr (hot_plugged, [RM_WARNING_exists "eGPU_X"]).
Proof.
  apply (attach_same_name_again ResourceManager.init hot_plugged "eGPU_X"
           250 500 "%" "%" [RM_INFO_eGPU "eGPU_X" (100 + 250)]).
  reflexivity.
Defined.

(** ** The status report *)

Lemma set_origin_view (k : string) (v v0 : HardwareStatus.t)
    (d : Dict.t HardwareStatus.t) :
  Dict.get k d = Some v0 ->
  HardwareStatus.is_external v = HardwareStatus.is_external v0 ->
  origin_view (Dict.set k v d) = origin_view d.
Proof.
  intros Hget Hext. induction d as [| [k' v'] d IH]; simpl in *;
    [discriminate |].
  destruct (String.eqb k k') eqn:E; simpl.
  - injection Hget as ->. now rewrite Hext.
  - now rewrite IH.
Qed.

Lemma apply_request_origin (task_name : string)
    (required : list (string * Q)) (hardware : Dict.t HardwareStatus.t) :
  origin_view (fst (apply_request task_name required hardware))
  = origin_view hardware.
Proof.
  revert hardware.
  induction required as [| [k0 x0] required IH]; intros hardware; simpl;
    [reflexivity |].
  destruct (Dict.get k0 hardware) as [hw0 |] eqn:Ek; [| apply IH].
  specialize (IH (Dict.set k0
                    (HardwareStatus.update_usage hw0
                       (HardwareStatus.allocated hw0 + x0)) hardware)).
  destruct (apply_request task_name required _) as [h l].
  simpl in *. rewrite IH. now apply (set_origin_view _ _ hw0).
Qed.

Lemma release_request_origin (task_name : string)
    (request : list (string * Q)) (hardware : Dict.t HardwareStatus.t) :
  origin_view (fst (release_request task_name request hardware))
  = origin_view hardware.
Proof.
  revert hardware.
  induction request as [| [k0 x0] request IH]; intros hardware; simpl;
    [reflexivity |].
  destruct (Dict.get k0 hardware) as [hw0 |] eqn:Ek; [| apply IH].
  specialize (IH (Dict.set k0
                    (HardwareStatus.update_usage hw0
                       (HardwareStatus.allocated hw0 - x0)) hardware)).
  destruct (release_request task_name request _) as [h l].
  simpl in *. rewrite IH. now apply (set_origin_view _ _ hw0).
Qed.

Lemma tables_inv_step (rm : ResourceManager.t) (c : Call) :
  tables_inv rm -> tables_inv (step rm c).
Proof.
  intros [Hh He]. destruct c as [task | task | name capacity unit]; simpl.
  - unfold allocate_resources, alloc_rm.
    destruct (check_request _ _ _) as [[ok required] log1].
    destruct ok; [| now split].
    pose proof (apply_request_origin (AGI_Task.name task)
                  (Dict.items required) (hardware rm)) as H.
    destruct (apply_request _ _ _) as [hardware' log2]. simpl in *.
    split; simpl; [now rewrite H | exact He].
  - unfold free_resources.
    destruct (negb (AGI_Task.status task =? "Finished")%string); [now split |].
    pose proof (release_request_origin (AGI_Task.name task)
                  (Dict.items (AGI_Task.resource_request task))
                  (hardware rm)) as H.
    destruct (release_request _ _ _) as [hardware' log]. simpl in *.
    split; simpl; [now rewrite H | exact He].
  - destruct (add_external_hardware rm name capacity unit)
      as [e | [rm1 log]] eqn:Ea; [now split |].
    destruct (attach_cases _ _ _ _ _ _ Ea)
      as [(-> & _) | (_ & _ & Hext & Hm)]; [now split |].
    split.
    + destruct (merged_into name) as [kind |]; [| now rewrite Hm].
      destruct Hm as (g & new_name & Hg & ->).
      now rewrite (set_origin_view _ _ g).
    + rewrite Hext. apply Forall_app. split; [exact He |].
      constructor; [| constructor]. now repeat split.
Qed.

Lemma tables_inv_run (calls : list Call) :
  tables_inv (run ResourceManager.init calls).
Proof.
  assert (H : forall rm, tables_inv rm -> tables_inv (run rm calls)).
  { unfold run. induction calls as [| c calls IH]; intros rm Hrm; simpl;
      [exact Hrm |].
    apply IH. now apply tables_inv_step. }
  apply H. split; [reflexivity | constructor].
Qed.

(** X8.  Whatever calls the pool has seen, its status report lists the
    three internal kinds, none flagged external, and then every attached
    device under the name it was attached with, flagged external and with
    nothing allocated: reservations are only ever booked on the aggregate
    kinds, never on a device's own record. *)
Theorem report_shape (calls : list Call) :
  let rm := run ResourceManager.init calls in
  let r := get_status_report rm in
  map HardwareStatus.r_is_external (Internal_Status r) = [false; false; false]
  /\ map HardwareStatus.r_name (External_Status r)
     = Dict.keys (external_hardware rm)
  /\ Forall (fun x => HardwareStatus.r_is_external x = true
                      /\ HardwareStatus.r_allocated x == 0)
            (External_Status r).
Proof.
  intros rm r. destruct (tables_inv_run calls) as [Hh He].
  fold rm in Hh, He. subst r. unfold get_status_report. simpl.
  split; [| split].
  - rewrite map_map. simpl.
    assert (E : map (fun x : string * HardwareStatus.t =>
                       HardwareStatus.is_external (snd x)) (hardware rm)
                = map snd (origin_view (hardware rm))).
    { unfold origin_view. now rewrite map_map. }
    rewrite E, Hh. reflexivity.
  - rewrite map_map. simpl. unfold Dict.keys.
    induction He as [| kv ext (Hn & _) _ IH]; simpl; [reflexivity |].
    now rewrite Hn, IH.
  - induction He as [| kv ext (_ & Hx & Ha) _ IH]; cbn [map]; constructor;
      auto.
    split; [exact Hx |].
    change (py_round2 (HardwareStatus.allocated (snd kv)) == 0).
    rewrite Ha. reflexivity.
Qed.

(** ** The demonstration *)

Lemma construct_raises (globals : list string) (s : RealTimeScheduler.t)
    (task_name : string) (priority : TaskPriority) (complexity : Q) :
  resolves globals "uuid" = false ->
  construct globals s task_name priority complexity = inl (NameError "uuid").
Proof.
  intros H. unfold construct, AGI_Task_init. now rewrite H.
Qed.

Lemma construct_returns (globals : list string) (s : RealTimeScheduler.t)
    (task_name : string) (priority : TaskPriority) (complexity : Q) :
  resolves globals "uuid" = true ->
  exists s', construct globals s task_name priority complexity
             = inr (s', List.length (RealTimeScheduler.heap s)).
Proof.
  intros H. unfold construct, AGI_Task_init. rewrite H.
  destruct (AGI_Task_body _ _ _ _) as [task w']. eexists. reflexivity.
Qed.

Lemma demonstration_without_uuid (globals : list string) (w : World) :
  resolves globals "uuid" = false ->
  run_arona_resource_system globals w = inl (NameError "uuid").
Proof.
  intros Hu. unfold run_arona_resource_system.
  destruct (add_external_hardware ResourceManager.init "eGPU_RTX_3080" 250 "%")
    as [e | [rm log]] eqn:Ha; [discriminate Ha |].
  now rewrite construct_raises.
Qed.

Lemma demonstration_with_uuid (globals : list string) (w : World) :
  resolves globals "uuid" = true ->
  exists s report,
    run_arona_resource_system globals w
    = if resolves globals "json" then inr (s, report)
      else inl (NameError "json").
Proof.
  intros Hu. unfold run_arona_resource_system.
  destruct (add_external_hardware ResourceManager.init "eGPU_RTX_3080" 250 "%")
    as [e | [rm log]] eqn:Ha; [discriminate Ha |].
  destruct (construct_returns globals
              (RealTimeScheduler.mk rm [] [] Dict.empty [] w log)
              "Tactical_Ex_Skill_Decision" CRITICAL (9 # 10) Hu)
    as [s1 ->].
  destruct (construct_returns globals s1 "World_Model_Update" REAL_TIME
              (7 # 10) Hu) as [s2 ->].
  destruct (construct_returns globals s2 "Student_Stress_Assessment" HIGH
              (4 # 10) Hu) as [s3 ->].
  destruct (construct_returns globals s3 "System_Log_Backup" LOW
              (1 # 10) Hu) as [s4 ->].
  eexists _, _. reflexivity.
Qed.

(** X9.  The demonstration cannot run to its end as the module stands, for
    two reasons.  With [uuid] unbound it raises [NameError] at the first
    task it constructs, after the eGPU was attached and before anything is
    submitted.  With [uuid] bound but [json] unbound it goes through its
    three dispatch cycles and raises [NameError] when it prints the final
    report.  Only with both names bound does it return. *)
Theorem demonstration_needs_uuid_and_json (globals : list string)
    (w : World) :
  (resolves globals "uuid" = false ->
   run_arona_resource_system globals w = inl (NameError "uuid"))
  /\ (resolves globals "uuid" = true -> resolves globals "json" = false ->
      run_arona_resource_system globals w = inl (NameError "json"))
  /\ (resolves globals "uuid" = true -> resolves globals "json" = true ->
      exists s report, run_arona_resource_system globals w = inr (s, report))
  /\ run_arona_resource_system module_globals w = inl (NameError "uuid")
  /\ run_arona_resource_system ("uuid" :: module_globals) w
     = inl (NameError "json").
Proof.
  split; [apply demonstration_without_uuid |]. split; [| split; [| split]].
  - intros Hu Hj.
    destruct (demonstration_with_uuid globals w Hu) as (s & report & ->).
    now rewrite Hj.
  - intros Hu Hj.
    destruct (demonstration_with_uuid globals w Hu) as (s & report & ->).
    rewrite Hj. eauto.
  - now apply demonstration_without_uuid.
  - destruct (demonstration_with_uuid ("uuid" :: module_globals) w eq_refl)
      as (s & report & ->).
    reflexivity.
Qed.

(** ** The life of a task under the scheduler *)

Lemma nth_error_heap_set (r i : nat) (task : AGI_Task.t)
    (heap : list AGI_Task.t) :
  nth_error (heap_set r task heap) i
  = if Nat.eqb i r
    then match nth_error heap r with Some _ => Some task | None => None end
    else nth_error heap i.
Proof.
  revert r i. induction heap as [| x heap IH]; intros r i.
  - unfold heap_set. destruct r; simpl; destruct i; simpl;
      try reflexivity; now destruct (Nat.eqb _ _).
  - destruct r as [| r].
    + unfold heap_set. simpl. now destruct i.
    + rewrite heap_set_cons. destruct i as [| i]; simpl; [reflexivity |].
      apply IH.
Qed.

Lemma status_moves_trans (a b c : string) :
  status_moves a b -> status_moves b c -> status_moves a c.
Proof.
  intros Hab Hbc. destruct Hbc as [b | b | b Hb | b Hb].
  - exact Hab.
  - constructor.
  - inversion Hab as [a' | a' | a' Ha | a' Ha]; subst.
    + now constructor.
    + destruct Hb as [Hb | Hb]; discriminate Hb.
    + destruct Hb as [Hb | Hb]; discriminate Hb.
    + now constructor.
  - inversion Hab as [a' | a' | a' Ha | a' Ha]; subst.
    + now constructor.
    + destruct Hb as [Hb | Hb]; discriminate Hb.
    + destruct Hb as [Hb | Hb]; discriminate Hb.
    + now constructor.
Qed.

Lemma task_evolves_refl (heap : list AGI_Task.t) (r : nat) :
  task_evolves heap heap r.
Proof.
  unfold task_evolves. destruct (nth_error heap r); [| exact I].
  split; [reflexivity | constructor].
Qed.

Lemma task_evolves_trans (h1 h2 h3 : list AGI_Task.t) (r : nat) :
  task_evolves h1 h2 r -> task_evolves h2 h3 r -> task_evolves h1 h3 r.
Proof.
  unfold task_evolves.
  destruct (nth_error h1 r), (nth_error h2 r), (nth_error h3 r);
    try tauto.
  intros [E1 M1] [E2 M2]. split; [congruence |].
  eapply status_moves_trans; eauto.
Qed.

(** Writing to the store a task that evolved from the one behind [r0]. *)
Lemma task_evolves_heap_set (heap : list AGI_Task.t) (r0 r : nat)
    (task task' : AGI_Task.t) :
  nth_error heap r0 = Some task ->
  identity task' = identity task ->
  status_moves (AGI_Task.status task) (AGI_Task.status task') ->
  task_evolves heap (heap_set r0 task' heap) r.
Proof.
  intros H0 Hid Hm. unfold task_evolves. rewrite nth_error_heap_set.
  destruct (Nat.eqb_spec r r0) as [-> | Hne].
  - rewrite H0. now split.
  - destruct (nth_error heap r); [| exact I].
    split; [reflexivity | constructor].
Qed.

Lemma reap_evolves (running : list (string * nat))
    (s : RealTimeScheduler.t) (r : nat) :
  task_evolves (RealTimeScheduler.heap s)
    (RealTimeScheduler.heap (RealTimeScheduler.reap running s)) r.
Proof.
  revert s. induction running as [| [task_id r0] running IH]; intros s;
    simpl; [apply task_evolves_refl |].
  destruct (nth_error (RealTimeScheduler.heap s) r0) as [task |] eqn:E0;
    [| apply IH].
  assert (Hfin : forall w,
             task_evolves (RealTimeScheduler.heap s)
               (RealTimeScheduler.heap
                  (RealTimeScheduler.finish (RealTimeScheduler.set_world s w)
                     task_id r0 task)) r).
  { intros w. unfold RealTimeScheduler.finish.
    destruct (free_resources _ _) as [rm' log]. simpl.
    apply (task_evolves_heap_set _ _ _ task); auto. constructor. }
  destruct (Qltb (1 # 2) _); [| destruct (Qltb _ (1 # 10))];
    (eapply task_evolves_trans; [| apply IH]); auto.
  apply task_evolves_refl.
Qed.

Lemma dispatch_loop_evolves (tasks : list nat) (s : RealTimeScheduler.t)
    (n r : nat) :
  task_evolves (RealTimeScheduler.heap s)
    (RealTimeScheduler.heap
       (fst (RealTimeScheduler.dispatch_loop tasks s n))) r.
Proof.
  revert s n. induction tasks as [| r0 rest IH]; intros s n;
    cbn [RealTimeScheduler.dispatch_loop]; [apply task_evolves_refl |].
  destruct (Nat.leb 2 n); [apply task_evolves_refl |].
  destruct (nth_error (RealTimeScheduler.heap s) r0) as [task |] eqn:E0;
    [| apply IH].
  destruct (RealTimeScheduler.admissible_status task) eqn:Eadm;
    [| apply IH].
  assert (Hadm : AGI_Task.status task = "Pending"
                 \/ AGI_Task.status task = "Queued_Blocked").
  { unfold RealTimeScheduler.admissible_status in Eadm.
    apply orb_prop in Eadm. destruct Eadm as [E | E];
      apply String.eqb_eq in E; auto. }
  assert (Hres : alloc_task (allocate_resources (RealTimeScheduler.rm s) task)
                 = AGI_Task.set_status task "Running"
                 \/ alloc_task (allocate_resources (RealTimeScheduler.rm s) task)
                    = AGI_Task.set_status task "Queued_Blocked").
  { unfold allocate_resources, alloc_task.
    destruct (check_request _ _ _) as [[c required] log1].
    destruct c; [| now right].
    destruct (apply_request _ _ _). now left. }
  assert (Hok : alloc_ok (allocate_resources (RealTimeScheduler.rm s) task)
                = true ->
                alloc_task (allocate_resources (RealTimeScheduler.rm s) task)
                = AGI_Task.set_status task "Running").
  { unfold allocate_resources, alloc_task, alloc_ok.
    destruct (check_request _ _ _) as [[c required] log1].
    destruct c; [| discriminate].
    now destruct (apply_request _ _ _). }
  unfold alloc_task, alloc_ok in Hres, Hok.
  destruct (allocate_resources (RealTimeScheduler.rm s) task)
    as [[[rm' task'] ok] log].
  simpl in Hres, Hok. destruct ok.
  - unfold time_time. cbv beta iota.
    eapply task_evolves_trans; [| apply IH]. simpl.
    rewrite (Hok eq_refl).
    apply (task_evolves_heap_set _ _ _ task); auto. now constructor.
  - eapply task_evolves_trans; [| apply IH]. simpl.
    destruct Hres as [-> | ->];
      apply (task_evolves_heap_set _ _ _ task); auto; now constructor.
Qed.

(** X10.  Across a dispatch call every task keeps its place in the store
    and what it was created with (identifier, name, priority, complexity,
    request, creation time).  Its status stays, or becomes finished, or goes
    from pending or blocked to running or blocked: a running task is never
    sent back to blocked or pending, and a finished task stays finished. *)
Theorem task_life_is_one_way (s : RealTimeScheduler.t)
    (max_tasks_to_check : Z) (r : nat) (task : AGI_Task.t) :
  nth_error (RealTimeScheduler.heap s) r = Some task ->
  exists task',
    nth_error
      (RealTimeScheduler.heap
         (RealTimeScheduler.dispatch_tasks s max_tasks_to_check)) r
    = Some task'
    /\ identity task' = identity task
    /\ status_moves (AGI_Task.status task) (AGI_Task.status task')
    /\ (AGI_Task.status task = "Finished" ->
        AGI_Task.status task' = "Finished")
    /\ (AGI_Task.status task = "Running" ->
        AGI_Task.status task' = "Running"
        \/ AGI_Task.status task' = "Finished").
Proof.
  intros Hr.
  assert (H : task_evolves (RealTimeScheduler.heap s)
                (RealTimeScheduler.heap
                   (RealTimeScheduler.dispatch_tasks s max_tasks_to_check)) r).
  { unfold RealTimeScheduler.dispatch_tasks.
    pose proof (reap_evolves
                  (Dict.items (RealTimeScheduler.running_tasks s)) s r) as H1.
    set (s1 := RealTimeScheduler.reap _ s) in *.
    pose proof (dispatch_loop_evolves
                  (slice_to max_tasks_to_check
                     (RealTimeScheduler.task_queue s1)) s1 0 r) as H2.
    destruct (RealTimeScheduler.dispatch_loop _ s1 0) as [s2 n2].
    simpl in *. eapply task_evolves_trans; eauto. }
  unfold task_evolves in H. rewrite Hr in H.
  destruct (nth_error
              (RealTimeScheduler.heap
                 (RealTimeScheduler.dispatch_tasks s max_tasks_to_check)) r)
    as [task' |]; [| contradiction].
  destruct H as [Hid Hm]. exists task'.
  split; [reflexivity |]. split; [exact Hid |]. split; [exact Hm |].
  split; intros Hf; rewrite Hf in Hm;
    inversion Hm as [a' | a' | a' Ha | a' Ha]; subst; auto;
    destruct Ha as [Ha | Ha]; discriminate Ha.
Qed.

Lemma task_life_is_one_way_witness :
  exists task',
    nth_error
      (RealTimeScheduler.heap
         (RealTimeScheduler.dispatch_tasks
            (blocking_scenario still_world) 5)) 1
    = Some task'
    /\ identity task' = identity (task_requesting "T2" HIGH [("CPU", 2)])
    /\ status_moves "Pending" (AGI_Task.status task')
    /\ ("Pending" = "Finished" -> AGI_Task.status task' = "Finished")
    /\ ("Pending" = "Running" ->
        AGI_Task.status task' = "Running"
        \/ AGI_Task.status task' = "Finished").
Proof.
  apply (task_life_is_one_way (blocking_scenario still_world) 5 1
           (task_requesting "T2" HIGH [("CPU", 2)])).
  reflexivity.
Defined.

(** ** The scan window of a dispatch call *)

Lemma heap_set_other (r0 r : nat) (task : AGI_Task.t)
    (heap : list AGI_Task.t) :
  r <> r0 -> nth_error (heap_set r0 task heap) r = nth_error heap r.
Proof.
  intros Hne. rewrite nth_error_heap_set.
  destruct (Nat.eqb_spec r r0); [contradiction | reflexivity].
Qed.

Lemma finish_heap_other (s : RealTimeScheduler.t) (task_id : string)
    (r0 r : nat) (task : AGI_Task.t) :
  r <> r0 ->
  nth_error (RealTimeScheduler.heap
               (RealTimeScheduler.finish s task_id r0 task)) r
  = nth_error (RealTimeScheduler.heap s) r.
Proof.
  intros Hne. unfold RealTimeScheduler.finish.
  destruct (free_resources _ _) as [rm' log]. simpl.
  now apply heap_set_other.
Qed.

Lemma reap_untouched (running : list (string * nat))
    (s : RealTimeScheduler.t) (r : nat) :
  ~ In r (map snd running) ->
  nth_error (RealTimeScheduler.heap (RealTimeScheduler.reap running s)) r
  = nth_error (RealTimeScheduler.heap s) r.
Proof.
  revert s. induction running as [| [task_id r0] running IH]; intros s Hr;
    simpl; [reflexivity |].
  simpl in Hr.
  assert (Hne : r <> r0) by (intros ->; tauto).
  assert (Hrest : ~ In r (map snd running)) by tauto.
  destruct (nth_error (RealTimeScheduler.heap s) r0) as [task |];
    [| now apply IH].
  destruct (Qltb (1 # 2) _); [| destruct (Qltb _ (1 # 10))];
    rewrite IH by assumption;
    try (rewrite finish_heap_other by assumption); reflexivity.
Qed.

Lemma remove_first_keeps (r0 r : nat) (l : list nat) :
  r <> r0 -> In r l -> In r (remove_first r0 l).
Proof.
  intros Hne. induction l as [| y l IH]; simpl; [tauto |].
  destruct (Nat.eqb_spec r0 y) as [-> | Hy].
  - intros [-> | H]; [contradiction | exact H].
  - intros [-> | H]; [now left | right; auto].
Qed.

Lemma dispatch_loop_untouched (tasks : list nat) (s : RealTimeScheduler.t)
    (n r : nat) :
  ~ In r tasks ->
  nth_error (RealTimeScheduler.heap
               (fst (RealTimeScheduler.dispatch_loop tasks s n))) r
  = nth_error (RealTimeScheduler.heap s) r
  /\ (In r (RealTimeScheduler.task_queue s) ->
      In r (RealTimeScheduler.task_queue
              (fst (RealTimeScheduler.dispatch_loop tasks s n)))).
Proof.
  revert s n. induction tasks as [| r0 rest IH]; intros s n Hr;
    cbn [RealTimeScheduler.dispatch_loop]; [now split |].
  simpl in Hr.
  assert (Hne : r <> r0) by (intros ->; tauto).
  assert (Hrest : ~ In r rest) by tauto.
  destruct (Nat.leb 2 n); [now split |].
  destruct (nth_error (RealTimeScheduler.heap s) r0) as [task |];
    [| now apply IH].
  destruct (RealTimeScheduler.admissible_status task); [| now apply IH].
  destruct (allocate_resources (RealTimeScheduler.rm s) task)
    as [[[rm' task'] ok] log].
  destruct ok.
  - unfold time_time. cbv beta iota.
    match goal with
    | |- context [RealTimeScheduler.dispatch_loop rest ?s1 ?n1] =>
        destruct (IH s1 n1 Hrest) as [Hh Hq]
    end.
    rewrite Hh.
    cbn [RealTimeScheduler.heap RealTimeScheduler.task_queue] in Hq |- *.
    rewrite heap_set_other by assumption.
    split; [reflexivity |]. intros Hin. apply Hq.
    now apply remove_first_keeps.
  - match goal with
    | |- context [RealTimeScheduler.dispatch_loop rest ?s1 ?n1] =>
        destruct (IH s1 n1 Hrest) as [Hh Hq]
    end.
    rewrite Hh.
    cbn [RealTimeScheduler.heap RealTimeScheduler.task_queue] in Hq |- *.
    rewrite heap_set_other by assumption.
    now split.
Qed.

(** X11.  A dispatch call only tries the first [max_tasks_to_check] tasks
    of the queue.  A queued task behind that window (and not in the running
    table) comes out of the call exactly as it went in and is still queued,
    however much of the pool is free. *)
Theorem behind_the_window (s : RealTimeScheduler.t) (max_tasks_to_check : Z)
    (r : nat) :
  In r (RealTimeScheduler.task_queue s) ->
  ~ In r (slice_to max_tasks_to_check (RealTimeScheduler.task_queue s)) ->
  ~ In r (map snd (RealTimeScheduler.running_tasks s)) ->
  nth_error (RealTimeScheduler.heap
               (RealTimeScheduler.dispatch_tasks s max_tasks_to_check)) r
  = nth_error (RealTimeScheduler.heap s) r
  /\ In r (RealTimeScheduler.task_queue
             (RealTimeScheduler.dispatch_tasks s max_tasks_to_check)).
Proof.
  intros Hq Hw Hrun. unfold RealTimeScheduler.dispatch_tasks.
  pose proof (reap_untouched (Dict.items (RealTimeScheduler.running_tasks s))
                s r Hrun) as Hheap.
  destruct (reap_quiet (Dict.items (RealTimeScheduler.running_tasks s)) s)
    as [Hqueue _].
  set (s1 := RealTimeScheduler.reap _ s) in *.
  rewrite <- Hqueue in Hq, Hw.
  destruct (dispatch_loop_untouched
              (slice_to max_tasks_to_check (RealTimeScheduler.task_queue s1))
              s1 0 r Hw) as [Hh Hin].
  destruct (RealTimeScheduler.dispatch_loop _ s1 0) as [s2 n2].
  simpl in *. rewrite Hh, Hheap. split; [reflexivity | auto].
Qed.

Lemma behind_the_window_witness :
  nth_error (RealTimeScheduler.heap
               (RealTimeScheduler.dispatch_tasks
                  (five_pending (fun _ => 0) (fun _ => 1 # 2)) 1)) 1
  = nth_error (RealTimeScheduler.heap
                 (five_pending (fun _ => 0) (fun _ => 1 # 2))) 1
  /\ In 1%nat (RealTimeScheduler.task_queue
                 (RealTimeScheduler.dispatch_tasks
                    (five_pending (fun _ => 0) (fun _ => 1 # 2)) 1)).
Proof.
  apply (behind_the_window (five_pending (fun _ => 0) (fun _ => 1 # 2)) 1 1).
  - vm_compute. tauto.
  - vm_compute. intros [H | []]. discriminate H.
  - vm_compute. tauto.
Defined.

(** ** The books of the scheduler *)

Lemma del_get_other {V : Type} (k k' : string) (d : Dict.t V) :
  k' <> k -> Dict.get k' (Dict.del k d) = Dict.get k' d.
Proof.
  intros Hne. induction d as [| [k0 v0] d IH]; simpl; [reflexivity |].
  destruct (String.eqb_spec k k0) as [-> | Hk].
  - destruct (String.eqb_spec k' k0); [contradiction | reflexivity].
  - simpl. now rewrite IH.
Qed.

Lemma del_perm {V : Type} (k : string) (v : V) (d : Dict.t V) :
  Dict.get k d = Some v -> Permutation d ((k, v) :: Dict.del k d).
Proof.
  induction d as [| [k0 v0] d IH]; simpl; [discriminate |].
  destruct (String.eqb_spec k k0) as [-> | Hk].
  - intros [= ->]. reflexivity.
  - intros H. rewrite perm_swap. constructor. auto.
Qed.

Lemma del_wf {V : Type} (k : string) (d : Dict.t V) :
  Dict.wf d -> Dict.wf (Dict.del k d).
Proof.
  unfold Dict.wf, Dict.keys. intros Hwf.
  destruct (Dict.get k d) as [v |] eqn:E.
  - pose proof (Permutation_map fst (del_perm k v d E)) as Hp.
    apply (Permutation_NoDup Hp) in Hwf. now inversion Hwf.
  - assert (Hid : Dict.del k d = d); [| now rewrite Hid].
    clear Hwf. induction d as [| [k0 v0] d IH]; simpl in *; [reflexivity |].
    destruct (String.eqb k k0); [discriminate |]. now rewrite IH.
Qed.

Lemma del_keeps {V : Type} (k k' : string) (v' : V) (d : Dict.t V) :
  k' <> k -> In (k', v') d -> In (k', v') (Dict.del k d).
Proof.
  intros Hne. induction d as [| [k0 v0] d IH]; simpl; [tauto |].
  destruct (String.eqb_spec k k0) as [-> | Hk].
  - intros [[= <- <-] | H]; [contradiction | exact H].
  - intros [H | H]; [now left | right; auto].
Qed.

Lemma del_In {V : Type} (k k' : string) (v' : V) (d : Dict.t V) :
  In (k', v') (Dict.del k d) -> In (k', v') d.
Proof.
  induction d as [| [k0 v0] d IH]; simpl; [tauto |].
  destruct (String.eqb k k0); [now right |].
  intros [H | H]; [now left | right; auto].
Qed.






Lemma map_heap_set {B : Type} (f : AGI_Task.t -> B) (heap : list AGI_Task.t)
    (r0 : nat) (task task' : AGI_Task.t) :
  nth_error heap r0 = Some task -> f task' = f task ->
  map f (heap_set r0 task' heap) = map f heap.
Proof.
  revert r0. induction heap as [| x heap IH]; intros r0 H0 Hf.
  - now destruct r0.
  - destruct r0 as [| r0].
    + unfold heap_set. simpl in *. injection H0 as ->. now rewrite Hf.
    + rewrite heap_set_cons. simpl. f_equal. now apply IH.
Qed.






Lemma admissible_not_running (task : AGI_Task.t) :
  RealTimeScheduler.admissible_status task = true ->
  AGI_Task.status task <> "Running".
Proof.
  unfold RealTimeScheduler.admissible_status. intros H E. rewrite E in H.
  discriminate H.
Qed.











(** ** When running tasks are finished *)

Lemma dispatch_loop_aside (tasks : list nat) (s : RealTimeScheduler.t)
    (n : nat) :
  RealTimeScheduler.finished_tasks
    (fst (RealTimeScheduler.dispatch_loop tasks s n))
  = RealTimeScheduler.finished_tasks s
  /\ dice_reads (RealTimeScheduler.world
                   (fst (RealTimeScheduler.dispatch_loop tasks s n)))
     = dice_reads (RealTimeScheduler.world s).
Proof.
  revert s n. induction tasks as [| r rest IH]; intros s n;
    cbn [RealTimeScheduler.dispatch_loop]; [now split |].
  destruct (Nat.leb 2 n); [now split |].
  destruct (nth_error (RealTimeScheduler.heap s) r) as [task |];
    [| apply IH].
  destruct (RealTimeScheduler.admissible_status task); [| apply IH].
  destruct (allocate_resources (RealTimeScheduler.rm s) task)
    as [[[rm' task'] ok] log].
  destruct ok.
  - unfold time_time. cbv beta iota.
    match goal with
    | |- context [RealTimeScheduler.dispatch_loop rest ?s1 ?n1] =>
        destruct (IH s1 n1) as [-> ->]
    end.
    now split.
  - match goal with
    | |- context [RealTimeScheduler.dispatch_loop rest ?s1 ?n1] =>
        destruct (IH s1 n1) as [-> ->]
    end.
    now split.
Qed.

Lemma finish_fields (s : RealTimeScheduler.t) (task_id : string) (r : nat)
    (task : AGI_Task.t) :
  RealTimeScheduler.heap (RealTimeScheduler.finish s task_id r task)
    = heap_set r (AGI_Task.set_status task "Finished")
        (RealTimeScheduler.heap s)
  /\ RealTimeScheduler.finished_tasks
       (RealTimeScheduler.finish s task_id r task)
     = (RealTimeScheduler.finished_tasks s ++ [r])%list
  /\ RealTimeScheduler.world (RealTimeScheduler.finish s task_id r task)
     = RealTimeScheduler.world s.
Proof.
  unfold RealTimeScheduler.finish.
  now destruct (free_resources _ _).
Qed.

Lemma reap_overdue (running : list (string * nat))
    (s : RealTimeScheduler.t) :
  all_overdue running s ->
  RealTimeScheduler.finished_tasks (RealTimeScheduler.reap running s)
    = (RealTimeScheduler.finished_tasks s ++ map snd running)%list
  /\ dice_reads (RealTimeScheduler.world (RealTimeScheduler.reap running s))
     = dice_reads (RealTimeScheduler.world s)
  /\ forall r,
       In r (map snd running) ->
       exists task,
         nth_error (RealTimeScheduler.heap (RealTimeScheduler.reap running s))
                   r = Some task
         /\ AGI_Task.status task = "Finished".
Proof.
  revert s. induction running as [| [task_id r0] running IH]; intros s Hold.
  { simpl. rewrite app_nil_r. repeat split. intros r []. }
  destruct (Hold task_id r0 (or_introl eq_refl)) as (task & E0 & Hlate).
  cbn [RealTimeScheduler.reap]. rewrite E0.
  unfold time_time. cbv beta iota.
  assert (Hlt : Qltb (1 # 2)
                  (clock (RealTimeScheduler.world s)
                     (clock_reads (RealTimeScheduler.world s))
                   - AGI_Task.start_time task) = true).
  { apply Qltb_lt. apply Hlate. lia. }
  rewrite Hlt.
  set (s1 := RealTimeScheduler.finish (RealTimeScheduler.set_world s _)
               task_id r0 task).
  destruct (finish_fields (RealTimeScheduler.set_world s
              (mkWorld (clock (RealTimeScheduler.world s))
                 (S (clock_reads (RealTimeScheduler.world s)))
                 (dice (RealTimeScheduler.world s))
                 (dice_reads (RealTimeScheduler.world s))
                 (ids (RealTimeScheduler.world s))
                 (ids_reads (RealTimeScheduler.world s))))
              task_id r0 task) as (Hheap & Hfin & Hworld).
  fold s1 in Hheap, Hfin, Hworld. simpl in Hheap, Hfin, Hworld.
  assert (Hold1 : all_overdue running s1).
  { intros id' r' Hin'.
    destruct (Hold id' r' (or_intror Hin')) as (t' & En & Hl').
    rewrite Hheap, Hworld. simpl.
    destruct (Nat.eq_dec r' r0) as [-> | Hne].
    - exists (AGI_Task.set_status task "Finished").
      rewrite nth_error_heap_set, Nat.eqb_refl, E0.
      split; [reflexivity |]. intros n Hn. simpl.
      apply Hlate. lia.
    - exists t'. rewrite heap_set_other by assumption.
      split; [exact En |]. intros n Hn. apply Hl'. lia. }
  destruct (IH s1 Hold1) as (Hf & Hd & Hst).
  split; [| split].
  - rewrite Hf, Hfin. simpl. now rewrite <- app_assoc.
  - rewrite Hd, Hworld. reflexivity.
  - intros r [<- | Hin]; [| now apply Hst].
    simpl.
    destruct (in_dec Nat.eq_dec r0 (map snd running)) as [Hin | Hnotin];
      [now apply Hst |].
    rewrite reap_untouched by assumption.
    rewrite Hheap, nth_error_heap_set, Nat.eqb_refl, E0.
    eexists. split; reflexivity.
Qed.

(** X14.  If every reading the clock will give from now on exceeds the
    [start_time] of every task of the running table by more than half a
    second ([start_time] is written at admission; the [creation_time] plays
    no part), a dispatch call finishes them all: they go to the end of the
    finished list in the order of the running table, each with the status
    finished, and no random number is drawn. *)
Theorem overdue_tasks_are_finished (s : RealTimeScheduler.t)
    (max_tasks_to_check : Z) :
  all_overdue (RealTimeScheduler.running_tasks s) s ->
  RealTimeScheduler.finished_tasks
    (RealTimeScheduler.dispatch_tasks s max_tasks_to_check)
  = (RealTimeScheduler.finished_tasks s ++ running_refs s)%list
  /\ dice_reads (RealTimeScheduler.world
                   (RealTimeScheduler.dispatch_tasks s max_tasks_to_check))
     = dice_reads (RealTimeScheduler.world s)
  /\ forall r,
       In r (running_refs s) ->
       exists task,
         nth_error
           (RealTimeScheduler.heap
              (RealTimeScheduler.dispatch_tasks s max_tasks_to_check)) r
         = Some task
         /\ AGI_Task.status task = "Finished".
Proof.
  intros Hold. unfold RealTimeScheduler.dispatch_tasks.
  destruct (reap_overdue (Dict.items (RealTimeScheduler.running_tasks s)) s
              Hold) as (Hf & Hd & Hst).
  set (s1 := RealTimeScheduler.reap _ s) in *.
  destruct (dispatch_loop_aside
              (slice_to max_tasks_to_check (RealTimeScheduler.task_queue s1))
              s1 0) as [Hf2 Hd2].
  pose proof (dispatch_loop_evolves
                (slice_to max_tasks_to_check (RealTimeScheduler.task_queue s1))
                s1 0) as Hev.
  destruct (RealTimeScheduler.dispatch_loop _ s1 0) as [s2 n2].
  simpl in *. split; [| split].
  - now rewrite Hf2, Hf.
  - now rewrite Hd2, Hd.
  - intros r Hin. destruct (Hst r Hin) as (task & En & Hs).
    specialize (Hev r). unfold task_evolves in Hev. rewrite En in Hev.
    destruct (nth_error (RealTimeScheduler.heap s2) r) as [task' |];
      [| contradiction].
    exists task'. split; [reflexivity |].
    destruct Hev as [_ Hm]. rewrite Hs in Hm.
    inversion Hm as [a' | a' | a' Ha | a' Ha]; subst; auto;
      destruct Ha as [Ha | Ha]; discriminate Ha.
Qed.

Lemma overdue_tasks_are_finished_witness :
  RealTimeScheduler.finished_tasks
    (RealTimeScheduler.dispatch_tasks
       (abc_running late_clock (fun _ => 1 # 2)) 5)
  = (RealTimeScheduler.finished_tasks
       (abc_running late_clock (fun _ => 1 # 2))
     ++ running_refs (abc_running late_clock (fun _ => 1 # 2)))%list
  /\ dice_reads (RealTimeScheduler.world
                   (RealTimeScheduler.dispatch_tasks
                      (abc_running late_clock (fun _ => 1 # 2)) 5))
     = dice_reads (RealTimeScheduler.world
                     (abc_running late_clock (fun _ => 1 # 2)))
  /\ forall r,
       In r (running_refs (abc_running late_clock (fun _ => 1 # 2))) ->
       exists task,
         nth_error
           (RealTimeScheduler.heap
              (RealTimeScheduler.dispatch_tasks
                 (abc_running late_clock (fun _ => 1 # 2)) 5)) r
         = Some task
         /\ AGI_Task.status task = "Finished".
Proof.
  apply (overdue_tasks_are_finished
           (abc_running late_clock (fun _ => 1 # 2)) 5).
  intros task_id r Hin. vm_compute in Hin.
  assert (Hlate : forall n, (5 <= n)%nat -> 1 # 2 < late_clock n - 0).
  { intros n Hn. unfold late_clock.
    destruct (Nat.ltb_spec n 5); [lia | reflexivity]. }
  destruct Hin as [Hin | [Hin | []]]; injection Hin as <- <-;
    eexists; (split; [vm_compute; reflexivity |]); intros n Hn;
    apply Hlate; exact Hn.
Defined.

Lemma reap_none_due (running : list (string * nat))
    (s : RealTimeScheduler.t) :
  none_due running s ->
  exists w,
    RealTimeScheduler.reap running s = RealTimeScheduler.set_world s w
    /\ clock w = clock (RealTimeScheduler.world s)
    /\ dice w = dice (RealTimeScheduler.world s).
Proof.
  revert s. induction running as [| [task_id r0] running IH]; intros s Hnd.
  { exists (RealTimeScheduler.world s). simpl. now destruct s. }
  destruct Hnd as [Hyoung Hdice].
  assert (Hrest : forall w,
             clock w = clock (RealTimeScheduler.world s) ->
             dice w = dice (RealTimeScheduler.world s) ->
             none_due running (RealTimeScheduler.set_world s w)).
  { intros w Hc Hd. split; simpl.
    - intros id' r' t' n Hin' En. rewrite Hc.
      apply (Hyoung id' r' t' n); [now right | exact En].
    - intros n. rewrite Hd. apply Hdice. }
  cbn [RealTimeScheduler.reap].
  destruct (nth_error (RealTimeScheduler.heap s) r0) as [task |] eqn:E0.
  - unfold time_time, random_random. cbv beta iota.
    assert (H1 : Qltb (1 # 2)
                   (clock (RealTimeScheduler.world s)
                      (clock_reads (RealTimeScheduler.world s))
                    - AGI_Task.start_time task) = false).
    { apply Qltb_ge. apply (Hyoung task_id r0); [now left | exact E0]. }
    assert (H2 : Qltb (dice (RealTimeScheduler.world s)
                         (dice_reads (RealTimeScheduler.world s)))
                   (1 # 10) = false).
    { apply Qltb_ge. apply Hdice. }
    cbn [clock clock_reads dice dice_reads]. rewrite H1, H2.
    match goal with
    | |- context [RealTimeScheduler.reap running
                    (RealTimeScheduler.set_world s ?w)] =>
        destruct (IH (RealTimeScheduler.set_world s w)
                     (Hrest w eq_refl eq_refl)) as (w' & -> & Hc & Hd)
    end.
    exists w'. simpl in *. auto.
  - destruct (IH s) as (w' & -> & Hc & Hd).
    { split; [| exact Hdice].
      intros id' r' t' n Hin'. apply (Hyoung id' r' t' n). now right. }
    exists w'. auto.
Qed.

Lemma dispatch_loop_keys (tasks : list nat) (s : RealTimeScheduler.t)
    (n : nat) (task_id : string) :
  Dict.mem task_id (RealTimeScheduler.running_tasks s) = true ->
  Dict.mem task_id
    (RealTimeScheduler.running_tasks
       (fst (RealTimeScheduler.dispatch_loop tasks s n))) = true.
Proof.
  revert s n. induction tasks as [| r rest IH]; intros s n Hm;
    cbn [RealTimeScheduler.dispatch_loop]; [exact Hm |].
  destruct (Nat.leb 2 n); [exact Hm |].
  destruct (nth_error (RealTimeScheduler.heap s) r) as [task |];
    [| now apply IH].
  destruct (RealTimeScheduler.admissible_status task); [| now apply IH].
  destruct (allocate_resources (RealTimeScheduler.rm s) task)
    as [[[rm' task'] ok] log].
  destruct ok; [unfold time_time; cbv beta iota |]; apply IH; simpl;
    [| exact Hm].
  unfold Dict.mem in *. rewrite get_set.
  now destruct (String.eqb task_id _).
Qed.

(** X15.  If no reading of the clock, at any index, exceeds the
    [start_time] of a task of the running table by more than half a second,
    and no random draw is below 0.1, a dispatch call finishes nothing: the
    finished list is as before and every identifier of the running table is
    still in it. *)
Theorem young_tasks_keep_running (s : RealTimeScheduler.t)
    (max_tasks_to_check : Z) :
  none_due (RealTimeScheduler.running_tasks s) s ->
  RealTimeScheduler.finished_tasks
    (RealTimeScheduler.dispatch_tasks s max_tasks_to_check)
  = RealTimeScheduler.finished_tasks s
  /\ forall task_id,
       Dict.mem task_id (RealTimeScheduler.running_tasks s) = true ->
       Dict.mem task_id
         (RealTimeScheduler.running_tasks
            (RealTimeScheduler.dispatch_tasks s max_tasks_to_check)) = true.
Proof.
  intros Hnd. unfold RealTimeScheduler.dispatch_tasks.
  destruct (reap_none_due (Dict.items (RealTimeScheduler.running_tasks s)) s
              Hnd) as (w & -> & _ & _).
  set (s1 := RealTimeScheduler.set_world s w).
  destruct (dispatch_loop_aside
              (slice_to max_tasks_to_check (RealTimeScheduler.task_queue s1))
              s1 0) as [Hf _].
  pose proof (dispatch_loop_keys
                (slice_to max_tasks_to_check (RealTimeScheduler.task_queue s1))
                s1 0) as Hk.
  destruct (RealTimeScheduler.dispatch_loop _ s1 0) as [s2 n2].
  simpl in *. split; [exact Hf | exact Hk].
Qed.

Lemma young_tasks_keep_running_witness :
  RealTimeScheduler.finished_tasks
    (RealTimeScheduler.dispatch_tasks
       (abc_running (fun _ => 0) (fun _ => 1 # 2)) 5)
  = RealTimeScheduler.finished_tasks
      (abc_running (fun _ => 0) (fun _ => 1 # 2))
  /\ forall task_id,
       Dict.mem task_id
         (RealTimeScheduler.running_tasks
            (abc_running (fun _ => 0) (fun _ => 1 # 2))) = true ->
       Dict.mem task_id
         (RealTimeScheduler.running_tasks
            (RealTimeScheduler.dispatch_tasks
               (abc_running (fun _ => 0) (fun _ => 1 # 2)) 5)) = true.
Proof.
  apply (young_tasks_keep_running
           (abc_running (fun _ => 0) (fun _ => 1 # 2)) 5).
  split.
  - intros task_id r task n Hin. vm_compute in Hin.
    destruct Hin as [Hin | [Hin | []]]; injection Hin as <- <-;
      vm_compute; intros [= <-]; discriminate.
  - intros n. vm_compute. discriminate.
Defined.

(** ** Queue entries that are never tried *)

Lemma dispatch_loop_skips (tasks : list nat) (s : RealTimeScheduler.t)
    (n r : nat) (task : AGI_Task.t) :
  nth_error (RealTimeScheduler.heap s) r = Some task ->
  RealTimeScheduler.admissible_status task = false ->
  nth_error (RealTimeScheduler.heap
               (fst (RealTimeScheduler.dispatch_loop tasks s n))) r
  = Some task
  /\ (In r (RealTimeScheduler.task_queue s) ->
      In r (RealTimeScheduler.task_queue
              (fst (RealTimeScheduler.dispatch_loop tasks s n)))).
Proof.
  revert s n. induction tasks as [| r0 rest IH]; intros s n Hr Hadm;
    cbn [RealTimeScheduler.dispatch_loop]; [now split |].
  destruct (Nat.leb 2 n); [now split |].
  destruct (nth_error (RealTimeScheduler.heap s) r0) as [task0 |] eqn:E0;
    [| now apply IH].
  destruct (RealTimeScheduler.admissible_status task0) eqn:Eadm0;
    [| now apply IH].
  assert (Hne : r <> r0) by (intros ->; congruence).
  destruct (allocate_resources (RealTimeScheduler.rm s) task0)
    as [[[rm' task'] ok] log].
  destruct ok.
  - unfold time_time. cbv beta iota.
    match goal with
    | |- context [RealTimeScheduler.dispatch_loop rest ?s1 ?n1] =>
        destruct (IH s1 n1) as [Hh Hq]
    end.
    + simpl. now rewrite heap_set_other.
    + exact Hadm.
    + split; [exact Hh |]. intros Hin. apply Hq. simpl.
      now apply remove_first_keeps.
  - match goal with
    | |- context [RealTimeScheduler.dispatch_loop rest ?s1 ?n1] =>
        destruct (IH s1 n1) as [Hh Hq]
    end.
    + simpl. now rewrite heap_set_other.
    + exact Hadm.
    + split; [exact Hh | exact Hq].
Qed.

Lemma status_moves_not_tried (a b : string) :
  status_moves a b ->
  a <> "Pending" -> a <> "Queued_Blocked" ->
  b <> "Pending" /\ b <> "Queued_Blocked".
Proof.
  intros Hm Hp Hb. destruct Hm as [a | a | a Ha | a Ha].
  - now split.
  - split; discriminate.
  - destruct Ha; contradiction.
  - destruct Ha; contradiction.
Qed.

(** X16.  A queue entry whose task is neither pending nor blocked (a task
    that runs or is finished and was submitted again, say) is never taken
    off the queue: after a dispatch call it is still queued and still not a
    task the call would try, so it holds its place in the queue for good. *)
Theorem stale_queue_entry_stays (s : RealTimeScheduler.t)
    (max_tasks_to_check : Z) (r : nat) (task : AGI_Task.t) :
  In r (RealTimeScheduler.task_queue s) ->
  nth_error (RealTimeScheduler.heap s) r = Some task ->
  RealTimeScheduler.admissible_status task = false ->
  In r (RealTimeScheduler.task_queue
          (RealTimeScheduler.dispatch_tasks s max_tasks_to_check))
  /\ exists task',
       nth_error
         (RealTimeScheduler.heap
            (RealTimeScheduler.dispatch_tasks s max_tasks_to_check)) r
       = Some task'
       /\ RealTimeScheduler.admissible_status task' = false.
Proof.
  intros Hin Hr Hadm. unfold RealTimeScheduler.dispatch_tasks.
  pose proof (reap_evolves (Dict.items (RealTimeScheduler.running_tasks s))
                s r) as Hev.
  destruct (reap_quiet (Dict.items (RealTimeScheduler.running_tasks s)) s)
    as [Hq _].
  set (s1 := RealTimeScheduler.reap _ s) in *.
  unfold task_evolves in Hev. rewrite Hr in Hev.
  destruct (nth_error (RealTimeScheduler.heap s1) r) as [task1 |] eqn:E1;
    [| contradiction].
  destruct Hev as [_ Hm].
  assert (Hadm1 : RealTimeScheduler.admissible_status task1 = false).
  { unfold RealTimeScheduler.admissible_status in *.
    apply orb_false_iff in Hadm. destruct Hadm as [Hp Hb].
    apply String.eqb_neq in Hp. apply String.eqb_neq in Hb.
    destruct (status_moves_not_tried _ _ Hm Hp Hb) as [Hp1 Hb1].
    apply orb_false_iff. split; now apply String.eqb_neq. }
  destruct (dispatch_loop_skips
              (slice_to max_tasks_to_check (RealTimeScheduler.task_queue s1))
              s1 0 r task1 E1 Hadm1) as [Hh Hk].
  destruct (RealTimeScheduler.dispatch_loop _ s1 0) as [s2 n2].
  simpl in *. split.
  - apply Hk. now rewrite Hq.
  - exists task1. split; [exact Hh | exact Hadm1].
Qed.

Lemma stale_queue_entry_stays_witness :
  In 1%nat
     (RealTimeScheduler.task_queue
        (RealTimeScheduler.dispatch_tasks
           (b_resubmitted (fun _ => 0) (fun _ => 1 # 2)) 5))
  /\ exists task',
       nth_error
         (RealTimeScheduler.heap
            (RealTimeScheduler.dispatch_tasks
               (b_resubmitted (fun _ => 0) (fun _ => 1 # 2)) 5)) 1
       = Some task'
       /\ RealTimeScheduler.admissible_status task' = false.
Proof.
  destruct (nth_error
              (RealTimeScheduler.heap
                 (b_resubmitted (fun _ => 0) (fun _ => 1 # 2))) 1)
    as [task |] eqn:E; [| vm_compute in E; discriminate E].
  apply (stale_queue_entry_stays
           (b_resubmitted (fun _ => 0) (fun _ => 1 # 2)) 5 1 task).
  - vm_compute. tauto.
  - exact E.
  - vm_compute in E. injection E as <-. reflexivity.
Defined.

(** ** When attached capacity becomes usable *)

(** X17.  The capacity of a newly attached device is added to the total of
    its kind at once, but the available amount of that kind is only brought
    up to date by the next reservation that touches the kind: after it the
    entry has the raised total and [available = total - allocated]. *)
Theorem attached_capacity_usable_after_update (rm rm1 : ResourceManager.t)
    (name : string) (capacity : Q) (unit : string) (log : list Event)
    (kind : string) (g : HardwareStatus.t) (task : AGI_Task.t) (x : Q) :
  add_external_hardware rm name capacity unit = inr (rm1, log) ->
  Dict.mem name (hardware rm) || Dict.mem name (external_hardware rm)
    = false ->
  merged_into name = Some kind ->
  Dict.get kind (hardware rm) = Some g ->
  Dict.wf (AGI_Task.resource_request task) ->
  Dict.get kind (AGI_Task.resource_request task) = Some x ->
  alloc_ok (allocate_resources rm1 task) = true ->
  (exists g1,
     Dict.get kind (hardware rm1) = Some g1
     /\ HardwareStatus.total g1 = HardwareStatus.total g + capacity
     /\ HardwareStatus.available g1 = HardwareStatus.available g)
  /\ exists hw,
       Dict.get kind (hardware (alloc_rm (allocate_resources rm1 task)))
       = Some hw
       /\ HardwareStatus.total hw = HardwareStatus.total g + capacity
       /\ HardwareStatus.allocated hw
          = py_max 0 (HardwareStatus.allocated g + x)
       /\ HardwareStatus.available hw
          = HardwareStatus.total hw - HardwareStatus.allocated hw.
Proof.
  intros Ha Hfresh Hm Hg Hwf Hx Hok.
  destruct (attach_cases _ _ _ _ _ _ Ha)
    as [(_ & _ & Hmem) | (_ & _ & _ & Hh)]; [congruence |].
  rewrite Hm in Hh. destruct Hh as (g' & new_name & Hg' & Hh).
  rewrite Hg in Hg'. injection Hg' as <-.
  assert (Hg1 : Dict.get kind (hardware rm1)
                = Some (HardwareStatus.add_total_rename g capacity new_name)).
  { rewrite Hh. apply get_set_same. }
  split.
  - eexists. split; [exact Hg1 |]. split; reflexivity.
  - destruct (allocate_granted rm1 task Hwf Hok) as (_ & _ & Hget).
    rewrite Hget, Hg1. simpl. eexists. split; [reflexivity |].
    unfold reserved. rewrite Hx. repeat split.
Qed.

Lemma attached_capacity_usable_after_update_witness :
  (exists g1,
     Dict.get "GPU" (hardware hot_plugged) = Some g1
     /\ HardwareStatus.total g1 = TOTAL_GPU_POWER + 250
     /\ HardwareStatus.available g1 = TOTAL_GPU_POWER - 0)
  /\ exists hw,
       Dict.get "GPU"
         (hardware
            (alloc_rm (allocate_resources hot_plugged
                         (task_requesting "T" HIGH [("GPU", 50)]))))
       = Some hw
       /\ HardwareStatus.total hw = TOTAL_GPU_POWER + 250
       /\ HardwareStatus.allocated hw = py_max 0 (0 + 50)
       /\ HardwareStatus.available hw
          = HardwareStatus.total hw - HardwareStatus.allocated hw.
Proof.
  apply (attached_capacity_usable_after_update ResourceManager.init
           hot_plugged "eGPU_X" 250 "%" [RM_INFO_eGPU "eGPU_X" (100 + 250)]
           "GPU" (HardwareStatus.init "GPU_Internal" TOTAL_GPU_POWER "%")
           (task_requesting "T" HIGH [("GPU", 50)]) 50).
  - reflexivity.
  - reflexivity.
  - reflexivity.
  - reflexivity.
  - apply nodupb_NoDup. reflexivity.
  - reflexivity.
  - reflexivity.
Defined.

(** ** The running table as an index of the running tasks *)

Lemma indexed_world (s : RealTimeScheduler.t) (w : World) :
  indexed s -> indexed (RealTimeScheduler.set_world s w).
Proof. intros [H1 H2 H3 H4 H5]. now constructor. Qed.

(** Two places of the store that hold the same identifier are one place. *)
Lemma same_id_same_place (s : RealTimeScheduler.t) (r r' : nat)
    (task task' : AGI_Task.t) :
  indexed s ->
  nth_error (RealTimeScheduler.heap s) r = Some task ->
  nth_error (RealTimeScheduler.heap s) r' = Some task' ->
  AGI_Task.task_id task = AGI_Task.task_id task' ->
  r = r'.
Proof.
  intros Hi Hr Hr' Hid. pose proof (i_ids s Hi) as Hnd.
  rewrite NoDup_nth_error in Hnd. apply Hnd.
  - rewrite length_map. apply nth_error_Some. congruence.
  - rewrite !nth_error_map, Hr, Hr'. simpl. now rewrite Hid.
Qed.

(** The task that [allocate_resources] hands back is the one it was given,
    with its status written. *)
Lemma allocate_task_status (rm : ResourceManager.t) (task : AGI_Task.t) :
  alloc_task (allocate_resources rm task)
  = AGI_Task.set_status task
      (if alloc_ok (allocate_resources rm task)
       then "Running" else "Queued_Blocked").
Proof.
  unfold allocate_resources, alloc_task, alloc_ok.
  destruct (check_request _ _ _) as [[c required] log1].
  destruct c; simpl; [| reflexivity].
  now destruct (apply_request _ _ _).
Qed.

Lemma finish_indexed (s : RealTimeScheduler.t) (task_id : string)
    (r : nat) (task : AGI_Task.t) :
  indexed s ->
  In (task_id, r) (RealTimeScheduler.running_tasks s) ->
  nth_error (RealTimeScheduler.heap s) r = Some task ->
  indexed (RealTimeScheduler.finish s task_id r task).
Proof.
  intros Hi Hin Hr.
  pose proof Hi as [Hwf Hrefs Hrun Hids Hall].
  assert (Hget : Dict.get task_id (RealTimeScheduler.running_tasks s) = Some r)
    by now apply In_get.
  pose proof (Permutation_map snd (del_perm task_id r _ Hget)) as Hperm.
  change (map snd (RealTimeScheduler.running_tasks s))
    with (running_refs s) in Hperm.
  simpl in Hperm.
  pose proof (Permutation_NoDup Hperm Hrefs) as Hnd.
  inversion Hnd as [| ? ? Hnotin Hnd']; subst.
  assert (Hid : AGI_Task.task_id task = task_id).
  { destruct (Hrun task_id r Hin) as (t & Ht & Hid & _). congruence. }
  unfold RealTimeScheduler.finish.
  destruct (free_resources _ _) as [rm' log].
  constructor; unfold running_refs; simpl.
  - now apply del_wf.
  - exact Hnd'.
  - intros id' r' Hin'.
    destruct (Hrun id' r' (del_In _ _ _ _ Hin')) as (t' & Hn & Hid' & Hst).
    exists t'. rewrite heap_set_other; [auto |].
    intros ->. apply Hnotin.
    change r with (snd (id', r)). now apply in_map.
  - now rewrite (map_heap_set _ _ _ task).
  - intros r' t' Hn' Hst'. rewrite nth_error_heap_set in Hn'.
    destruct (Nat.eqb_spec r' r) as [-> | Hne].
    + rewrite Hr in Hn'. injection Hn' as <-. discriminate Hst'.
    + apply del_keeps; [| now apply Hall].
      intros E. apply Hne.
      apply (same_id_same_place s r' r t' task Hi Hn' Hr). congruence.
Qed.

Lemma reap_indexed (running : list (string * nat))
    (s : RealTimeScheduler.t) :
  indexed s ->
  NoDup (map fst running) ->
  (forall task_id r, In (task_id, r) running ->
                     In (task_id, r) (RealTimeScheduler.running_tasks s)) ->
  indexed (RealTimeScheduler.reap running s).
Proof.
  revert s. induction running as [| [task_id r] running IH];
    intros s Hi Hnd Hsub; simpl; [exact Hi |].
  inversion Hnd as [| ? ? Hnotin Hnd']; subst.
  assert (Hin : In (task_id, r) (RealTimeScheduler.running_tasks s))
    by (apply Hsub; now left).
  assert (Hrest : forall id' r', In (id', r') running ->
                                 In (id', r') (RealTimeScheduler.running_tasks s))
    by (intros; apply Hsub; now right).
  destruct (nth_error (RealTimeScheduler.heap s) r) as [task |] eqn:Er;
    [| now apply IH].
  assert (Hfin : forall w,
             indexed (RealTimeScheduler.finish
                        (RealTimeScheduler.set_world s w) task_id r task)
             /\ forall id' r',
                  In (id', r') running ->
                  In (id', r')
                     (RealTimeScheduler.running_tasks
                        (RealTimeScheduler.finish
                           (RealTimeScheduler.set_world s w) task_id r task))).
  { intros w. split.
    - apply finish_indexed; auto. now apply indexed_world.
    - intros id' r' Hin'. unfold RealTimeScheduler.finish.
      destruct (free_resources _ _) as [rm' log]. simpl.
      apply del_keeps; [| now apply Hrest].
      intros ->. apply Hnotin.
      change task_id with (fst (task_id, r')). now apply in_map. }
  destruct (Qltb (1 # 2) _); [| destruct (Qltb _ (1 # 10))].
  - apply IH; auto; apply Hfin.
  - apply IH; auto; apply Hfin.
  - apply IH; auto. now apply indexed_world.
Qed.

(** A task that may be tried is not in the running table, neither by its
    reference nor by its identifier. *)
Lemma untried_not_in_table (s : RealTimeScheduler.t) (r : nat)
    (task : AGI_Task.t) :
  indexed s ->
  nth_error (RealTimeScheduler.heap s) r = Some task ->
  RealTimeScheduler.admissible_status task = true ->
  ~ In r (running_refs s)
  /\ Dict.get (AGI_Task.task_id task) (RealTimeScheduler.running_tasks s)
     = None.
Proof.
  intros Hi Hr Hadm. pose proof (admissible_not_running task Hadm) as Hst.
  split.
  - intros Hin. unfold running_refs in Hin. apply in_map_iff in Hin.
    destruct Hin as ([id' r'] & Heq & Hin). simpl in Heq. subst r'.
    destruct (i_running s Hi id' r Hin) as (t' & Hn & _ & Hs). congruence.
  - destruct (Dict.get _ _) as [r' |] eqn:E; [| reflexivity]. exfalso.
    destruct (i_running s Hi _ r' (get_In _ _ _ E)) as (t' & Hn & Hid & Hs).
    assert (Heq : r = r')
      by (apply (same_id_same_place s r r' task t' Hi Hr Hn); congruence).
    subst r'. congruence.
Qed.

Lemma dispatch_loop_indexed (tasks : list nat) (s : RealTimeScheduler.t)
    (n : nat) :
  indexed s -> indexed (fst (RealTimeScheduler.dispatch_loop tasks s n)).
Proof.
  revert s n. induction tasks as [| r rest IH]; intros s n Hi;
    cbn [RealTimeScheduler.dispatch_loop]; [exact Hi |].
  destruct (Nat.leb 2 n); [exact Hi |].
  destruct (nth_error (RealTimeScheduler.heap s) r) as [task |] eqn:Er;
    [| now apply IH].
  destruct (RealTimeScheduler.admissible_status task) eqn:Eadm;
    [| now apply IH].
  destruct (untried_not_in_table s r task Hi Er Eadm) as [Hnotin Hnoid].
  pose proof (allocate_task_status (RealTimeScheduler.rm s) task) as Htask.
  unfold alloc_ok, alloc_task in Htask.
  destruct (allocate_resources (RealTimeScheduler.rm s) task)
    as [[[rm' task'] ok] log].
  simpl in Htask. subst task'.
  pose proof Hi as [Hwf Hrefs Hrun Hids Hall].
  destruct ok.
  - unfold time_time. cbv beta iota. apply IH.
    constructor; unfold running_refs; simpl.
    + now apply wf_set.
    + rewrite (set_absent_app _ _ _ Hnoid), map_app. simpl.
      apply (Permutation_NoDup (Permutation_cons_append _ r)).
      now constructor.
    + intros id' r' Hin'.
      rewrite (set_absent_app _ _ _ Hnoid) in Hin'.
      apply in_app_or in Hin'. destruct Hin' as [Hin' | [[= <- <-] | []]].
      * destruct (Hrun id' r' Hin') as (t' & Hn & Hid & Hs).
        exists t'. rewrite heap_set_other; [auto |].
        intros ->. apply Hnotin. unfold running_refs.
        change r with (snd (id', r)). now apply in_map.
      * eexists. rewrite nth_error_heap_set, Nat.eqb_refl, Er.
        split; [reflexivity | split; reflexivity].
    + now rewrite (map_heap_set _ _ _ task).
    + intros r' t' Hn' Hst'. rewrite (set_absent_app _ _ _ Hnoid).
      apply in_or_app. rewrite nth_error_heap_set in Hn'.
      destruct (Nat.eqb_spec r' r) as [-> | Hne].
      * rewrite Er in Hn'. injection Hn' as <-. right. now left.
      * left. now apply Hall.
  - apply IH. constructor; unfold running_refs; simpl; auto.
    + intros id' r' Hin'.
      destruct (Hrun id' r' Hin') as (t' & Hn & Hid & Hs).
      exists t'. rewrite heap_set_other; [auto |].
      intros ->. apply Hnotin. unfold running_refs.
      change r with (snd (id', r)). now apply in_map.
    + now rewrite (map_heap_set _ _ _ task).
    + intros r' t' Hn' Hst'. rewrite nth_error_heap_set in Hn'.
      destruct (Nat.eqb_spec r' r) as [-> | Hne].
      * rewrite Er in Hn'. injection Hn' as <-. discriminate Hst'.
      * now apply Hall.
Qed.

Lemma submit_indexed (s : RealTimeScheduler.t) (r : nat) :
  indexed s -> indexed (RealTimeScheduler.submit_task s r).
Proof.
  intros Hi. unfold RealTimeScheduler.submit_task.
  destruct (nth_error (RealTimeScheduler.heap s) r); [| exact Hi].
  destruct Hi as [H1 H2 H3 H4 H5]. now constructor.
Qed.

Lemma dispatch_indexed (s : RealTimeScheduler.t) (m : Z) :
  indexed s -> indexed (RealTimeScheduler.dispatch_tasks s m).
Proof.
  intros Hi. unfold RealTimeScheduler.dispatch_tasks.
  assert (Hnd : NoDup (map fst (Dict.items (RealTimeScheduler.running_tasks s))))
    by apply (i_wf s Hi).
  pose proof (reap_indexed _ s Hi Hnd (fun _ _ H => H)) as Hi1.
  set (s1 := RealTimeScheduler.reap _ s) in *.
  pose proof (dispatch_loop_indexed
                (slice_to m (RealTimeScheduler.task_queue s1)) s1 0 Hi1)
    as Hi2.
  destruct (RealTimeScheduler.dispatch_loop _ s1 0) as [s2 n2].
  simpl in Hi2. destruct Hi2 as [H1 H2 H3 H4 H5]. now constructor.
Qed.

(** X12.  The running table is an index of the running tasks, whatever the
    amounts and whatever the pool grants: in a new scheduler over tasks with
    distinct identifiers, none of them running, and after any [submit_task]
    and [dispatch_tasks] call from there, the keys of the table are the
    identifiers of the tasks whose status is running, each listed once under
    its own identifier, and no other task is listed. *)
Theorem running_table_is_an_index :
  (forall rm heap w,
     NoDup (map AGI_Task.task_id heap) ->
     Forall (fun task => AGI_Task.status task <> "Running") heap ->
     indexed (RealTimeScheduler.init rm heap w))
  /\ (forall s r, indexed s -> indexed (RealTimeScheduler.submit_task s r))
  /\ (forall s max_tasks_to_check,
        indexed s ->
        indexed (RealTimeScheduler.dispatch_tasks s max_tasks_to_check))
  /\ (forall s r task,
        indexed s ->
        nth_error (RealTimeScheduler.heap s) r = Some task ->
        (AGI_Task.status task = "Running"
         <-> Dict.get (AGI_Task.task_id task) (RealTimeScheduler.running_tasks s)
             = Some r))
  /\ (forall clock dice,
        indexed (RealTimeScheduler.dispatch
                   (RealTimeScheduler.dispatch (five_pending clock dice)))).
Proof.
  assert (Hinit : forall rm heap w,
             NoDup (map AGI_Task.task_id heap) ->
             Forall (fun task => AGI_Task.status task <> "Running") heap ->
             indexed (RealTimeScheduler.init rm heap w)).
  { intros rm heap w Hids Hnone. constructor; unfold running_refs; simpl.
    - constructor.
    - constructor.
    - intros task_id r [].
    - exact Hids.
    - intros r task Hr Hst. rewrite Forall_forall in Hnone.
      apply (Hnone task); [eapply nth_error_In, Hr | exact Hst]. }
  split; [exact Hinit |].
  split; [exact submit_indexed |].
  split; [exact dispatch_indexed |].
  split.
  - intros s r task Hi Hr. split.
    + intros Hst. apply In_get; [apply (i_wf s Hi) |].
      now apply (i_all s Hi).
    + intros Hget.
      destruct (i_running s Hi _ r (get_In _ _ _ Hget)) as (t & Ht & _ & Hst).
      congruence.
  - intros c d. unfold RealTimeScheduler.dispatch.
    do 2 apply dispatch_indexed.
    unfold five_pending, submitted.
    match goal with
    | |- context [create_tasks ?w ?specs] =>
        remember (create_tasks w specs) as created eqn:E
    end.
    vm_compute in E. subst created. cbv beta iota. cbn [fold_left].
    do 5 apply submit_indexed.
    apply Hinit.
    + apply nodupb_NoDup. reflexivity.
    + repeat (apply Forall_cons; [discriminate |]). apply Forall_nil.
Qed.

(** * Properties of the amounts in binary64 *)

(** From here to the end of the part, [HardwareStatus], [AGI_Task],
    [ResourceManager] and the vocabulary are those of [Binary64]: every
    amount is a binary64 number and every operation on amounts rounds as the
    source's does. *)

Section Binary64Facts.

Import Floats.
Import Binary64.
Import Binary64.ResourceManager.
Local Open Scope float_scope.

(** ** Comparisons, and the two sums that do not round *)

Lemma SFcompare_swap (x y : spec_float) :
  SFcompare y x = option_map CompOpp (SFcompare x y).
Proof.
  destruct x as [sx | sx | | sx mx ex], y as [sy | sy | | sy my ey]; simpl;
    try reflexivity;
    try (destruct sx; reflexivity); try (destruct sy; reflexivity);
    try (destruct sx, sy; reflexivity).
  destruct sx, sy; simpl; try reflexivity;
    rewrite (Z.compare_antisym ex ey);
    destruct (ex ?= ey)%Z; simpl; try reflexivity;
    change Eq with (CompOpp Eq) at 1;
    rewrite <- (Pos.compare_cont_antisym mx my Eq); simpl;
    now destruct (Pos.compare_cont Eq mx my).
Qed.


Lemma leb_not_ltb (x y : float) : (x <=? y) = true -> (y <? x) = false.
Proof.
  rewrite ltb_spec, leb_spec. unfold SFltb, SFleb.
  rewrite (SFcompare_swap (Prim2SF x) (Prim2SF y)).
  destruct (SFcompare (Prim2SF x) (Prim2SF y)) as [[] |]; simpl; congruence.
Qed.


Lemma amount_cases (x : float) :
  is_amount x ->
  (exists s, Prim2SF x = S754_zero s)
  \/ (exists m e, Prim2SF x = S754_finite false m e).
Proof.
  unfold is_amount. rewrite leb_spec, ltb_spec. unfold SFleb, SFltb.
  change (Prim2SF 0) with (S754_zero false).
  change (Prim2SF infinity) with (S754_infinity false).
  destruct (Prim2SF x) as [s | s | | s m e]; simpl.
  - intros _. left. now exists s.
  - destruct s; intros [H1 H2]; discriminate.
  - intros [H1 H2]; discriminate.
  - destruct s; intros [H1 H2]; [discriminate |]. right. now exists m, e.
Qed.

(** From nothing allocated, reserving an amount and releasing it goes
    through [0 + x] and [x - x], and neither rounds. *)
Lemma from_zero_and_back (x : float) :
  is_amount x -> py_max 0 (py_max 0 (0 + x) - x) = 0.
Proof.
  intros Hx. destruct (amount_cases x Hx) as [[s Hs] | (m & e & Hf)].
  - assert (H0 : 0 + x = 0).
    { apply Prim2SF_inj. rewrite add_spec, Hs. now destruct s. }
    rewrite H0. change (py_max 0 0) with 0.
    assert (H1 : 0 - x = 0).
    { apply Prim2SF_inj. rewrite sub_spec, Hs. now destruct s. }
    rewrite H1. reflexivity.
  - assert (H0 : 0 + x = x).
    { apply Prim2SF_inj. rewrite add_spec, Hf. reflexivity. }
    rewrite H0.
    assert (Hpos : (0 <? x) = true).
    { rewrite ltb_spec, Hf. reflexivity. }
    unfold py_max at 2. rewrite Hpos.
    assert (H1 : x - x = 0).
    { apply Prim2SF_inj. rewrite sub_spec, Hf.
      change (Prim2SF 0) with (S754_zero false).
      unfold SF64sub, SFsub. rewrite Z.sub_diag. reflexivity. }
    rewrite H1. reflexivity.
Qed.

(** ** The loops of the resource manager *)

Section ManagerFactsB64.

Implicit Types (hardware : Dict.t HardwareStatus.t)
               (request required : list (string * float)).

Lemma fits_cons_b64 hardware k x request :
  fits hardware ((k, x) :: request) <->
  (forall hw, Dict.get k hardware = Some hw ->
              (HardwareStatus.available hw <? x) = false)
  /\ fits hardware request.
Proof.
  unfold fits. split.
  - intros H. split.
    + intros hw. apply H. now left.
    + intros k' x' hw Hin. apply H. now right.
  - intros [H1 H2] k' x' hw [Heq | Hin].
    + injection Heq as <- <-. apply H1.
    + now apply H2.
Qed.

Lemma check_request_ok_b64 hardware request required :
  fst (fst (check_request hardware request required)) = true
  <-> fits hardware request.
Proof.
  revert required.
  induction request as [| [k x] request IH]; intros required; simpl.
  - split; [intros _ k x hw [] | reflexivity].
  - rewrite fits_cons_b64. destruct (Dict.get k hardware) as [hw |] eqn:Ek.
    + destruct ((HardwareStatus.available hw <? x)) eqn:El; simpl.
      * split; [discriminate |]. intros [H _].
        specialize (H hw eq_refl). congruence.
      * rewrite IH. split.
        -- intros H. split; [| exact H]. now intros hw' [= <-].
        -- tauto.
    + specialize (IH required).
      destruct (check_request hardware request required) as [[c r] l].
      simpl in *. rewrite IH. split; [| tauto].
      intros H. split; [discriminate | exact H].
Qed.

Lemma check_request_required_b64 hardware request required k :
  NoDup (Dict.keys request) ->
  fits hardware request ->
  Dict.get k (snd (fst (check_request hardware request required)))
  = match Dict.get k request, Dict.get k hardware with
    | Some x, Some _ => Some x
    | _, _ => Dict.get k required
    end.
Proof.
  revert required.
  induction request as [| [k0 x0] request IH]; intros required Hnd Hfit;
    simpl.
  - reflexivity.
  - inversion Hnd as [| ? ? Hnotin Hnd']; subst.
    apply fits_cons_b64 in Hfit. destruct Hfit as [Hfit0 Hfit].
    assert (Hk0 : Dict.get k0 request = None).
    { destruct (Dict.get k0 request) eqn:E; [| reflexivity].
      exfalso. apply Hnotin. apply get_In in E.
      change k0 with (fst (k0, f)). now apply in_map. }
    destruct (Dict.get k0 hardware) as [hw |] eqn:Ek.
    + specialize (Hfit0 hw eq_refl).
      rewrite Hfit0.
      rewrite IH by assumption.
      destruct (String.eqb_spec k k0) as [-> | Hne].
      * now rewrite Hk0, Ek, get_set_same.
      * rewrite get_set_other by congruence. reflexivity.
    + specialize (IH required Hnd' Hfit).
      destruct (check_request hardware request required) as [[c r] l].
      simpl in *. rewrite IH.
      destruct (String.eqb_spec k k0) as [-> | Hne]; [| reflexivity].
      now rewrite Hk0, Ek.
Qed.

Lemma check_request_wf_b64 hardware request required :
  Dict.wf required ->
  Dict.wf (snd (fst (check_request hardware request required))).
Proof.
  revert required.
  induction request as [| [k0 x0] request IH]; intros required Hwf; simpl.
  - exact Hwf.
  - destruct (Dict.get k0 hardware) as [hw |].
    + destruct ((HardwareStatus.available hw <? x0)); simpl; auto.
      apply IH. now apply wf_set.
    + specialize (IH required Hwf).
      destruct (check_request hardware request required) as [[c r] l].
      exact IH.
Qed.

Lemma check_request_log_b64 hardware request required :
  fits hardware request ->
  snd (check_request hardware request required)
  = map RM_WARNING_unknown (unknown_kinds hardware request).
Proof.
  revert required. unfold unknown_kinds, Dict.mem.
  induction request as [| [k0 x0] request IH]; intros required Hfit; simpl.
  - reflexivity.
  - apply fits_cons_b64 in Hfit. destruct Hfit as [Hfit0 Hfit].
    destruct (Dict.get k0 hardware) as [hw |] eqn:Ek; simpl.
    + specialize (Hfit0 hw eq_refl).
      rewrite Hfit0. now apply IH.
    + specialize (IH required Hfit).
      destruct (check_request hardware request required) as [[c r] l].
      simpl in *. now rewrite IH.
Qed.

(** What a tracked kind holds after the second loop of
    [allocate_resources]. *)
Lemma apply_request_get_b64 task_name required hardware k :
  NoDup (Dict.keys required) ->
  Dict.get k (fst (apply_request task_name required hardware))
  = match Dict.get k hardware with
    | None => None
    | Some hw =>
        match Dict.get k required with
        | Some x =>
            Some (HardwareStatus.update_usage hw
                    (HardwareStatus.allocated hw + x))
        | None => Some hw
        end
    end.
Proof.
  revert hardware.
  induction required as [| [k0 x0] required IH]; intros hardware Hnd; simpl.
  - now destruct (Dict.get k hardware).
  - inversion Hnd as [| ? ? Hnotin Hnd']; subst.
    assert (Hk0 : Dict.get k0 required = None).
    { destruct (Dict.get k0 required) eqn:E; [| reflexivity].
      exfalso. apply Hnotin. apply get_In in E.
      change k0 with (fst (k0, f)). now apply in_map. }
    destruct (Dict.get k0 hardware) as [hw0 |] eqn:Ek.
    + specialize (IH (Dict.set k0
                        (HardwareStatus.update_usage hw0
                           (HardwareStatus.allocated hw0 + x0)) hardware)
                     Hnd').
      destruct (apply_request task_name required _) as [h l].
      simpl in *. rewrite IH.
      destruct (String.eqb_spec k k0) as [-> | Hne].
      * now rewrite get_set_same, Hk0, Ek.
      * rewrite get_set_other by congruence. reflexivity.
    + rewrite IH by assumption.
      destruct (String.eqb_spec k k0) as [-> | Hne]; [| reflexivity].
      now rewrite Ek.
Qed.

(** What a tracked kind holds after the loop of [free_resources]. *)
Lemma release_request_get_b64 task_name request hardware k :
  NoDup (Dict.keys request) ->
  Dict.get k (fst (release_request task_name request hardware))
  = match Dict.get k hardware with
    | None => None
    | Some hw =>
        match Dict.get k request with
        | Some x =>
            Some (HardwareStatus.update_usage hw
                    (HardwareStatus.allocated hw - x))
        | None => Some hw
        end
    end.
Proof.
  revert hardware.
  induction request as [| [k0 x0] request IH]; intros hardware Hnd; simpl.
  - now destruct (Dict.get k hardware).
  - inversion Hnd as [| ? ? Hnotin Hnd']; subst.
    assert (Hk0 : Dict.get k0 request = None).
    { destruct (Dict.get k0 request) eqn:E; [| reflexivity].
      exfalso. apply Hnotin. apply get_In in E.
      change k0 with (fst (k0, f)). now apply in_map. }
    destruct (Dict.get k0 hardware) as [hw0 |] eqn:Ek.
    + specialize (IH (Dict.set k0
                        (HardwareStatus.update_usage hw0
                           (HardwareStatus.allocated hw0 - x0)) hardware)
                     Hnd').
      destruct (release_request task_name request _) as [h l].
      simpl in *. rewrite IH.
      destruct (String.eqb_spec k k0) as [-> | Hne].
      * now rewrite get_set_same, Hk0, Ek.
      * rewrite get_set_other by congruence. reflexivity.
    + rewrite IH by assumption.
      destruct (String.eqb_spec k k0) as [-> | Hne]; [| reflexivity].
      now rewrite Ek.
Qed.

End ManagerFactsB64.

(** ** [allocate_resources] and [free_resources] *)

Section AllocateFactsB64.

Variables (rm : ResourceManager.t) (task : AGI_Task.t).

Let request := AGI_Task.resource_request task.

Lemma allocate_ok_iff_b64 :
  alloc_ok (allocate_resources rm task) = true
  <-> fits (hardware rm) request.
Proof.
  rewrite <- (check_request_ok_b64 (hardware rm) request Dict.empty).
  unfold allocate_resources, alloc_ok, Dict.items. fold request.
  destruct (check_request (hardware rm) request Dict.empty)
    as [[c required] log1].
  destruct c; simpl.
  - destruct (apply_request _ _ _). simpl. tauto.
  - tauto.
Qed.

Lemma allocate_refused_b64 :
  alloc_ok (allocate_resources rm task) = false ->
  alloc_rm (allocate_resources rm task) = rm
  /\ alloc_task (allocate_resources rm task)
     = AGI_Task.set_status task "Queued_Blocked".
Proof.
  unfold allocate_resources, alloc_ok, alloc_rm, alloc_task, Dict.items.
  destruct (check_request _ _ _) as [[c required] log1].
  destruct c; simpl.
  - destruct (apply_request _ _ _). simpl. discriminate.
  - auto.
Qed.

Lemma allocate_granted_b64 :
  Dict.wf request ->
  alloc_ok (allocate_resources rm task) = true ->
  alloc_task (allocate_resources rm task)
    = AGI_Task.set_status task "Running"
  /\ external_hardware (alloc_rm (allocate_resources rm task))
     = external_hardware rm
  /\ forall k,
       Dict.get k (hardware (alloc_rm (allocate_resources rm task)))
       = option_map (reserved request k) (Dict.get k (hardware rm)).
Proof.
  intros Hwf Hok.
  assert (Hfit : fits (hardware rm) request) by now apply allocate_ok_iff_b64.
  pose proof (check_request_required_b64 (hardware rm) request Dict.empty)
    as Hreq.
  pose proof (check_request_wf_b64 (hardware rm) request Dict.empty) as Hrwf.
  revert Hok.
  unfold allocate_resources, alloc_ok, alloc_rm, alloc_task, Dict.items.
  fold request.
  destruct (check_request (hardware rm) request Dict.empty)
    as [[c required] log1].
  simpl in Hreq, Hrwf.
  destruct c; simpl.
  - pose proof (apply_request_get_b64 (AGI_Task.name task) required
                  (hardware rm)) as Hget.
    destruct (apply_request _ _ _) as [hardware' log2]. simpl in *.
    intros _. repeat split.
    intros k. rewrite Hget; [| apply Hrwf; constructor].
    rewrite (Hreq k Hwf Hfit). unfold reserved.
    destruct (Dict.get k (hardware rm)) as [hw |]; simpl; [| reflexivity].
    now destruct (Dict.get k request).
  - discriminate.
Qed.

Lemma free_finished_b64 :
  Dict.wf request ->
  AGI_Task.status task = "Finished" ->
  external_hardware (fst (free_resources rm task)) = external_hardware rm
  /\ forall k,
       Dict.get k (hardware (fst (free_resources rm task)))
       = option_map (released request k) (Dict.get k (hardware rm)).
Proof.
  intros Hwf Hst. unfold free_resources, Dict.items. rewrite Hst. simpl.
  fold request.
  pose proof (release_request_get_b64 (AGI_Task.name task) request
                (hardware rm)) as Hget.
  destruct (release_request _ _ _) as [hardware' log]. simpl in *.
  split; [reflexivity |].
  intros k. rewrite Hget by exact Hwf. unfold released.
  destruct (Dict.get k (hardware rm)); simpl; [| reflexivity].
  now destruct (Dict.get k request).
Qed.

End AllocateFactsB64.

(** ** What the loops keep *)

Section Keeps.

Variable P : string -> HardwareStatus.t -> Prop.

Hypothesis P_update_usage :
  forall k hw usage, P k hw -> P k (HardwareStatus.update_usage hw usage).

Lemma apply_request_keeps (task_name : string)
    (required : list (string * float)) (hardware : Dict.t HardwareStatus.t) :
  (forall k hw, Dict.get k hardware = Some hw -> P k hw) ->
  forall k hw,
    Dict.get k (fst (apply_request task_name required hardware)) = Some hw ->
    P k hw.
Proof.
  revert hardware.
  induction required as [| [k0 x0] required IH]; intros hardware HP; simpl.
  - exact HP.
  - destruct (Dict.get k0 hardware) as [hw0 |] eqn:Ek; [| now apply IH].
    specialize (IH (Dict.set k0
                      (HardwareStatus.update_usage hw0
                         (HardwareStatus.allocated hw0 + x0)) hardware)).
    destruct (apply_request task_name required _) as [h l]. simpl in *.
    apply IH. intros k hw. rewrite get_set.
    destruct (String.eqb_spec k k0) as [-> | Hne]; [| apply HP].
    intros [= <-]. apply P_update_usage. now apply HP.
Qed.

Lemma release_request_keeps (task_name : string)
    (request : list (string * float)) (hardware : Dict.t HardwareStatus.t) :
  (forall k hw, Dict.get k hardware = Some hw -> P k hw) ->
  forall k hw,
    Dict.get k (fst (release_request task_name request hardware)) = Some hw ->
    P k hw.
Proof.
  revert hardware.
  induction request as [| [k0 x0] request IH]; intros hardware HP; simpl.
  - exact HP.
  - destruct (Dict.get k0 hardware) as [hw0 |] eqn:Ek; [| now apply IH].
    specialize (IH (Dict.set k0
                      (HardwareStatus.update_usage hw0
                         (HardwareStatus.allocated hw0 - x0)) hardware)).
    destruct (release_request task_name request _) as [h l]. simpl in *.
    apply IH. intros k hw. rewrite get_set.
    destruct (String.eqb_spec k k0) as [-> | Hne]; [| apply HP].
    intros [= <-]. apply P_update_usage. now apply HP.
Qed.

Lemma allocate_keeps (rm : ResourceManager.t) (task : AGI_Task.t) :
  (forall k hw, Dict.get k (hardware rm) = Some hw -> P k hw) ->
  forall k hw,
    Dict.get k (hardware (alloc_rm (allocate_resources rm task))) = Some hw ->
    P k hw.
Proof.
  intros HP. unfold allocate_resources, alloc_rm.
  destruct (check_request _ _ _) as [[c required] log1].
  destruct c; simpl; [| exact HP].
  pose proof (apply_request_keeps (AGI_Task.name task)
                (Dict.items required) (hardware rm) HP) as H.
  destruct (apply_request _ _ _) as [h l]. exact H.
Qed.

Lemma free_keeps (rm : ResourceManager.t) (task : AGI_Task.t) :
  (forall k hw, Dict.get k (hardware rm) = Some hw -> P k hw) ->
  forall k hw,
    Dict.get k (hardware (fst (free_resources rm task))) = Some hw ->
    P k hw.
Proof.
  intros HP. unfold free_resources.
  destruct (negb _); simpl; [exact HP |].
  pose proof (release_request_keeps (AGI_Task.name task)
                (Dict.items (AGI_Task.resource_request task))
                (hardware rm) HP) as H.
  destruct (release_request _ _ _) as [h l]. exact H.
Qed.

End Keeps.

(** The two outcomes of a hot-plug call that returns: the device was known
    and nothing changed, or it is new, registered last, and merged into its
    aggregate kind if its name selects one. *)
Lemma attach_cases_b64 (rm rm' : ResourceManager.t) (name : string)
    (capacity : float) (unit : string) (log : list Event) :
  add_external_hardware rm name capacity unit = inr (rm', log) ->
  (rm' = rm
   /\ Dict.mem name (hardware rm) || Dict.mem name (external_hardware rm)
      = true)
  \/ (Dict.mem name (hardware rm) || Dict.mem name (external_hardware rm)
      = false
      /\ external_hardware rm'
         = (external_hardware rm
              ++ [(name, HardwareStatus.set_is_external
                           (HardwareStatus.init name capacity unit) true)])%list
      /\ match merged_into name with
         | Some kind =>
             exists g new_name,
               Dict.get kind (hardware rm) = Some g
               /\ hardware rm'
                  = Dict.set kind
                      (HardwareStatus.add_total_rename g capacity new_name)
                      (hardware rm)
         | None => hardware rm' = hardware rm
         end).
Proof.
  unfold add_external_hardware, merged_into.
  destruct (Dict.mem name (hardware rm) || Dict.mem name (external_hardware rm))
    eqn:Em.
  { intros [= <- <-]. now left. }
  assert (Hext : Dict.set name
                   (HardwareStatus.set_is_external
                      (HardwareStatus.init name capacity unit) true)
                   (external_hardware rm)
                 = (external_hardware rm
                      ++ [(name, HardwareStatus.set_is_external
                                   (HardwareStatus.init name capacity unit)
                                   true)])%list).
  { apply set_absent_app. apply orb_false_iff in Em. destruct Em as [_ Em].
    unfold Dict.mem in Em. now destruct (Dict.get name (external_hardware rm)). }
  rewrite Hext. unfold merge_into.
  destruct (str_in "GPU" name).
  { destruct (Dict.get "GPU" (hardware rm)) as [g |] eqn:Eg; [| discriminate].
    rewrite get_set_same. intros [= <- <-]. right. simpl.
    repeat split. now exists g, "GPU_Hybrid". }
  destruct (str_in "RAM" name).
  { destruct (Dict.get "RAM" (hardware rm)) as [g |] eqn:Eg; [| discriminate].
    rewrite get_set_same. intros [= <- <-]. right. simpl.
    repeat split. now exists g, "RAM_Hybrid". }
  intros [= <- <-]. right. simpl. repeat split.
Qed.

(** ** C1: the accounting invariant *)




(** What a granted reservation does to a kind of the request: the amount
    did not exceed what was marked available, and the entry's allocated
    amount is the rounded sum, its available amount the rounded
    difference. *)
Lemma granted_entry (rm : ResourceManager.t) (task : AGI_Task.t)
    (k : string) (x : float) (g : HardwareStatus.t) :
  Dict.wf (AGI_Task.resource_request task) ->
  alloc_ok (allocate_resources rm task) = true ->
  Dict.get k (AGI_Task.resource_request task) = Some x ->
  Dict.get k (hardware rm) = Some g ->
  (HardwareStatus.available g <? x) = false
  /\ exists hw,
       Dict.get k (hardware (alloc_rm (allocate_resources rm task))) = Some hw
       /\ HardwareStatus.allocated hw
          = py_max 0 (HardwareStatus.allocated g + x)
       /\ HardwareStatus.total hw = HardwareStatus.total g
       /\ HardwareStatus.available hw
          = HardwareStatus.total g - HardwareStatus.allocated hw.
Proof.
  intros Hwf Hok Hx Hg. split.
  - apply allocate_ok_iff_b64 in Hok. eapply Hok; eauto. now apply get_In.
  - destruct (allocate_granted_b64 rm task Hwf Hok) as (_ & _ & Hget).
    rewrite Hget, Hg. simpl. unfold reserved. rewrite Hx.
    eexists. split; [reflexivity |]. simpl. repeat split.
Qed.




(** ** C8: reserve, then release *)

Lemma within_available_fits (hardware : Dict.t HardwareStatus.t)
    (request : list (string * float)) :
  within_available hardware request -> fits hardware request.
Proof.
  intros H k x hw Hin Hget. apply leb_not_ltb. eapply H; eauto.
Qed.

(** What a kind of the request holds after the task was reserved, marked
    finished and released. *)
Lemma reserved_then_released_entry (rm : ResourceManager.t)
    (task : AGI_Task.t) (k : string) (x : float) (g : HardwareStatus.t) :
  Dict.wf (AGI_Task.resource_request task) ->
  alloc_ok (allocate_resources rm task) = true ->
  Dict.get k (AGI_Task.resource_request task) = Some x ->
  Dict.get k (hardware rm) = Some g ->
  Dict.get k (hardware (reserved_then_released rm task))
  = Some (HardwareStatus.update_usage
            (HardwareStatus.update_usage g (HardwareStatus.allocated g + x))
            (py_max 0 (HardwareStatus.allocated g + x) - x)).
Proof.
  intros Hwf Hok Hx Hg. unfold reserved_then_released.
  destruct (allocate_granted_b64 rm task Hwf Hok) as (Htask & _ & Hget1).
  rewrite Htask.
  destruct (free_finished_b64 (alloc_rm (allocate_resources rm task))
              (AGI_Task.set_status (AGI_Task.set_status task "Running")
                 "Finished") Hwf eq_refl) as [_ Hget2].
  rewrite Hget2, Hget1, Hg. simpl. unfold released, reserved. simpl.
  now rewrite Hx.
Qed.

(** C8, as the specification states it, fails on the code.  On a fresh
    pool the task of complexity 0.4 holds 3.2 of the RAM; the task of
    complexity 0.7 asks for 5.6, which fits in the 12.8 available.  Reserving
    and releasing it leaves 3.200000000000001 allocated: [3.2 + 5.6] rounds
    to 8.8, and [8.8 - 5.6] is not 3.2. *)
Lemma round_trip_rounds :
  within_available (hardware assessment_running)
    (AGI_Task.resource_request world_model_update)
  /\ exists before after,
       Dict.get "RAM" (hardware assessment_running) = Some before
       /\ Dict.get "RAM"
            (hardware
               (reserved_then_released assessment_running world_model_update))
          = Some after
       /\ Dict.get "RAM" (AGI_Task.resource_request world_model_update)
          = Some 5.6
       /\ HardwareStatus.allocated before = 3.2
       /\ HardwareStatus.allocated after = 3.200000000000001
       /\ (HardwareStatus.allocated after =? HardwareStatus.allocated before)
          = false.
Proof.
  split.
  - intros k x hw [H | [H | [H | []]]]; injection H as <- <-;
      intros [= <-]; reflexivity.
  - eexists. eexists. repeat split; reflexivity.
Qed.

(** C8, amended.  Let every requested amount be at most what is marked
    available for its kind.  Then the reservation is granted, and once the
    task is marked finished and released, a kind of which it asked [x] and
    which had [a] allocated holds [max(0, max(0, a + x) - x)], sum and
    difference rounded to binary64; its total is unchanged and its available
    amount is total minus allocated.  When nothing was allocated before and
    [x] is a finite amount this is 0 again, exactly. *)
Theorem release_after_reserve (rm : ResourceManager.t) (task : AGI_Task.t)
    (k : string) (x : float) (g : HardwareStatus.t) :
  Dict.wf (AGI_Task.resource_request task) ->
  within_available (hardware rm) (AGI_Task.resource_request task) ->
  Dict.get k (AGI_Task.resource_request task) = Some x ->
  Dict.get k (hardware rm) = Some g ->
  alloc_ok (allocate_resources rm task) = true
  /\ exists hw,
       Dict.get k (hardware (reserved_then_released rm task)) = Some hw
       /\ HardwareStatus.allocated hw
          = py_max 0 (py_max 0 (HardwareStatus.allocated g + x) - x)
       /\ HardwareStatus.total hw = HardwareStatus.total g
       /\ HardwareStatus.available hw
          = HardwareStatus.total g - HardwareStatus.allocated hw
       /\ (HardwareStatus.allocated g = 0 -> is_amount x ->
           HardwareStatus.allocated hw = 0).
Proof.
  intros Hwf Hav Hx Hg.
  assert (Hok : alloc_ok (allocate_resources rm task) = true).
  { apply allocate_ok_iff_b64. now apply within_available_fits. }
  split; [exact Hok |].
  rewrite (reserved_then_released_entry rm task k x g Hwf Hok Hx Hg).
  eexists. split; [reflexivity |]. simpl.
  split; [reflexivity |]. split; [reflexivity |]. split; [reflexivity |].
  intros Ha Hamount. rewrite Ha. now apply from_zero_and_back.
Qed.

Lemma release_after_reserve_witness :
  alloc_ok (allocate_resources assessment_running world_model_update) = true
  /\ exists hw,
       Dict.get "RAM"
         (hardware
            (reserved_then_released assessment_running world_model_update))
       = Some hw
       /\ HardwareStatus.allocated hw = py_max 0 (py_max 0 (3.2 + 5.6) - 5.6)
       /\ HardwareStatus.total hw = 16
       /\ HardwareStatus.available hw = 16 - HardwareStatus.allocated hw
       /\ (3.2 = 0 -> is_amount 5.6 -> HardwareStatus.allocated hw = 0).
Proof.
  apply (release_after_reserve assessment_running world_model_update "RAM"
           5.6 (HardwareStatus.mk "RAM_Internal" 16 "GB" 3.2 12.8 false)).
  - apply nodupb_NoDup. reflexivity.
  - intros k x hw [H | [H | [H | []]]]; injection H as <- <-;
      intros [= <-]; reflexivity.
  - reflexivity.
  - reflexivity.
Defined.


(** ** C9: kinds the pool does not track *)

Lemma fits_known_part_b64 (hardware : Dict.t HardwareStatus.t)
    (request : list (string * float)) :
  fits hardware (known_part hardware request) <-> fits hardware request.
Proof.
  unfold fits, known_part. split.
  - intros H k x hw Hin Hget. apply (H k x hw); [| exact Hget].
    apply filter_In. split; [exact Hin |]. simpl.
    unfold Dict.mem. now rewrite Hget.
  - intros H k x hw Hin. apply filter_In in Hin. apply H. tauto.
Qed.

(** The first loop gathers the entries of tracked kinds, in the order of
    the request. *)
Lemma check_request_list (hardware : Dict.t HardwareStatus.t)
    (request : list (string * float)) (required : Dict.t float) :
  NoDup (Dict.keys request) ->
  (forall k, In k (Dict.keys request) -> Dict.get k required = None) ->
  fits hardware request ->
  snd (fst (check_request hardware request required))
  = (required ++ known_part hardware request)%list.
Proof.
  revert required. unfold known_part, Dict.mem.
  induction request as [| [k0 x0] request IH]; intros required Hnd Hnew Hfit;
    simpl.
  - now rewrite app_nil_r.
  - inversion Hnd as [| ? ? Hnotin Hnd']; subst.
    apply fits_cons_b64 in Hfit. destruct Hfit as [Hfit0 Hfit].
    destruct (Dict.get k0 hardware) as [hw |] eqn:Ek; simpl.
    + rewrite (Hfit0 hw eq_refl).
      rewrite IH; [| exact Hnd' | | exact Hfit].
      * rewrite set_absent_app by (apply Hnew; now left).
        now rewrite <- app_assoc.
      * intros k Hk. rewrite get_set_other; [apply Hnew; now right |].
        intros ->. contradiction.
    + specialize (IH required Hnd' (fun k Hk => Hnew k (or_intror Hk)) Hfit).
      destruct (check_request hardware request required) as [[c r] l].
      exact IH.
Qed.

Lemma allocation_events_set (task_name : string)
    (hardware : Dict.t HardwareStatus.t) (request : list (string * float))
    (k : string) (hw : HardwareStatus.t) :
  ~ In k (Dict.keys request) ->
  allocation_events task_name (Dict.set k hw hardware) request
  = allocation_events task_name hardware request.
Proof.
  unfold allocation_events.
  induction request as [| [k0 x0] request IH]; intros Hk; simpl;
    [reflexivity |].
  simpl in Hk. rewrite get_set_other by (intros ->; apply Hk; now left).
  f_equal. apply IH. tauto.
Qed.

(** The second loop prints one line for each entry, in order. *)
Lemma apply_request_events (task_name : string)
    (required : list (string * float)) (hardware : Dict.t HardwareStatus.t) :
  NoDup (Dict.keys required) ->
  snd (apply_request task_name required hardware)
  = allocation_events task_name hardware required.
Proof.
  revert hardware.
  induction required as [| [k0 x0] required IH]; intros hardware Hnd; simpl;
    [reflexivity |].
  inversion Hnd as [| ? ? Hnotin Hnd']; subst.
  destruct (Dict.get k0 hardware) as [hw0 |] eqn:Ek; simpl.
  - specialize (IH (Dict.set k0
                      (HardwareStatus.update_usage hw0
                         (HardwareStatus.allocated hw0 + x0)) hardware)
                   Hnd').
    destruct (apply_request task_name required _) as [h l]. simpl in *.
    rewrite IH. f_equal. now apply allocation_events_set.
  - now apply IH.
Qed.

Lemma allocation_events_known (task_name : string)
    (hardware : Dict.t HardwareStatus.t) (request : list (string * float)) :
  allocation_events task_name hardware (known_part hardware request)
  = allocation_events task_name hardware request.
Proof.
  unfold allocation_events, known_part, Dict.mem.
  induction request as [| [k0 x0] request IH]; simpl; [reflexivity |].
  destruct (Dict.get k0 hardware) as [hw |] eqn:Ek; simpl.
  - rewrite Ek. simpl. now rewrite IH.
  - exact IH.
Qed.

(** The second loop creates no entry and moves none. *)
Lemma apply_request_keys (task_name : string)
    (required : list (string * float)) (hardware : Dict.t HardwareStatus.t) :
  Dict.keys (fst (apply_request task_name required hardware))
  = Dict.keys hardware.
Proof.
  revert hardware.
  induction required as [| [k0 x0] required IH]; intros hardware; simpl;
    [reflexivity |].
  destruct (Dict.get k0 hardware) as [hw0 |] eqn:Ek; [| apply IH].
  specialize (IH (Dict.set k0
                    (HardwareStatus.update_usage hw0
                       (HardwareStatus.allocated hw0 + x0)) hardware)).
  destruct (apply_request task_name required _) as [h l]. simpl in *.
  rewrite IH. apply keys_set_present. congruence.
Qed.

Lemma allocate_keys (rm : ResourceManager.t) (task : AGI_Task.t) :
  Dict.keys (hardware (alloc_rm (allocate_resources rm task)))
  = Dict.keys (hardware rm).
Proof.
  unfold allocate_resources, alloc_rm.
  destruct (check_request _ _ _) as [[c required] log1].
  destruct c; simpl; [| reflexivity].
  pose proof (apply_request_keys (AGI_Task.name task) (Dict.items required)
                (hardware rm)) as H.
  destruct (apply_request _ _ _) as [h l]. exact H.
Qed.

(** Everything a granted call prints. *)
Lemma allocate_log_exact (rm : ResourceManager.t) (task : AGI_Task.t) :
  Dict.wf (AGI_Task.resource_request task) ->
  alloc_ok (allocate_resources rm task) = true ->
  alloc_log (allocate_resources rm task)
  = (map RM_WARNING_unknown
         (unknown_kinds (hardware rm) (AGI_Task.resource_request task))
     ++ allocation_events (AGI_Task.name task) (hardware rm)
          (AGI_Task.resource_request task))%list.
Proof.
  intros Hwf Hok.
  assert (Hfit : fits (hardware rm) (AGI_Task.resource_request task))
    by now apply allocate_ok_iff_b64.
  pose proof (check_request_log_b64 (hardware rm)
                (AGI_Task.resource_request task) Dict.empty Hfit) as Hlog.
  pose proof (check_request_list (hardware rm)
                (AGI_Task.resource_request task) Dict.empty Hwf
                (fun _ _ => eq_refl) Hfit) as Hreq.
  pose proof (check_request_wf_b64 (hardware rm)
                (AGI_Task.resource_request task) Dict.empty) as Hrwf.
  revert Hok. unfold allocate_resources, alloc_ok, alloc_log, Dict.items.
  destruct (check_request (hardware rm) (AGI_Task.resource_request task)
              Dict.empty) as [[c required] log1].
  simpl in Hlog, Hreq, Hrwf. subst log1 required.
  destruct c; simpl; [| discriminate]. intros _.
  pose proof (apply_request_events (AGI_Task.name task)
                (known_part (hardware rm) (AGI_Task.resource_request task))
                (hardware rm)) as Hev.
  destruct (apply_request _ _ _) as [h l]. simpl in *.
  rewrite Hev by (apply Hrwf; constructor).
  now rewrite allocation_events_known.
Qed.

(** C9.  A kind of the request that the pool does not track is skipped.
    The task is admitted exactly when no entry of a tracked kind exceeds
    what is marked available for it.  On admission the task is running; the
    call prints a warning for each untracked kind, in order, and then one
    line for each tracked kind; the pool tracks the same kinds as before, in
    the same order; a tracked kind of which the task asked [x] has
    [max(0, allocated + x)] allocated and total minus that available; every
    other tracked kind, and the attached devices, are as before.  On refusal
    the pool is unchanged and the task is blocked. *)
Theorem unknown_kind_partial_ignore (rm : ResourceManager.t)
    (task : AGI_Task.t) :
  Dict.wf (AGI_Task.resource_request task) ->
  (alloc_ok (allocate_resources rm task) = true
   <-> fits (hardware rm)
         (known_part (hardware rm) (AGI_Task.resource_request task)))
  /\ (alloc_ok (allocate_resources rm task) = true ->
      AGI_Task.status (alloc_task (allocate_resources rm task)) = "Running"
      /\ alloc_log (allocate_resources rm task)
         = (map RM_WARNING_unknown
                (unknown_kinds (hardware rm) (AGI_Task.resource_request task))
            ++ allocation_events (AGI_Task.name task) (hardware rm)
                 (AGI_Task.resource_request task))%list
      /\ Dict.keys (hardware (alloc_rm (allocate_resources rm task)))
         = Dict.keys (hardware rm)
      /\ external_hardware (alloc_rm (allocate_resources rm task))
         = external_hardware rm
      /\ forall k g,
           Dict.get k (hardware rm) = Some g ->
           exists hw,
             Dict.get k (hardware (alloc_rm (allocate_resources rm task)))
             = Some hw
             /\ HardwareStatus.name hw = HardwareStatus.name g
             /\ HardwareStatus.total hw = HardwareStatus.total g
             /\ HardwareStatus.unit hw = HardwareStatus.unit g
             /\ HardwareStatus.is_external hw = HardwareStatus.is_external g
             /\ match Dict.get k (AGI_Task.resource_request task) with
                | Some x =>
                    HardwareStatus.allocated hw
                    = py_max 0 (HardwareStatus.allocated g + x)
                    /\ HardwareStatus.available hw
                       = HardwareStatus.total g
                         - py_max 0 (HardwareStatus.allocated g + x)
                | None =>
                    HardwareStatus.allocated hw = HardwareStatus.allocated g
                    /\ HardwareStatus.available hw
                       = HardwareStatus.available g
                end)
  /\ (alloc_ok (allocate_resources rm task) = false ->
      alloc_rm (allocate_resources rm task) = rm
      /\ AGI_Task.status (alloc_task (allocate_resources rm task))
         = "Queued_Blocked").
Proof.
  intros Hwf. split; [| split].
  - rewrite fits_known_part_b64. apply allocate_ok_iff_b64.
  - intros Hok.
    destruct (allocate_granted_b64 rm task Hwf Hok) as (Htask & Hext & Hget).
    split; [now rewrite Htask |].
    split; [now apply allocate_log_exact |].
    split; [apply allocate_keys |].
    split; [exact Hext |].
    intros k g Hg. rewrite Hget, Hg. simpl. eexists. split; [reflexivity |].
    unfold reserved.
    destruct (Dict.get k (AGI_Task.resource_request task)) as [x |];
      simpl; repeat split.
  - intros Hno. destruct (allocate_refused_b64 rm task Hno) as [-> ->].
    split; reflexivity.
Qed.

Lemma unknown_kind_partial_ignore_witness :
  alloc_ok (allocate_resources ResourceManager.init tensor_task) = true
  /\ alloc_log (allocate_resources ResourceManager.init tensor_task)
     = [RM_WARNING_unknown "TPU"; RM_ALLOCATED "T" 2 "Cores" "CPU"]
  /\ Dict.keys
       (hardware (alloc_rm (allocate_resources ResourceManager.init
                              tensor_task)))
     = ["CPU"; "GPU"; "RAM"]
  /\ exists hw,
       Dict.get "CPU"
         (hardware (alloc_rm (allocate_resources ResourceManager.init
                                tensor_task)))
       = Some hw
       /\ HardwareStatus.allocated hw = 2
       /\ HardwareStatus.available hw = 6.
Proof.
  destruct (unknown_kind_partial_ignore ResourceManager.init tensor_task)
    as (Hiff & Hgranted & _).
  { apply nodupb_NoDup. reflexivity. }
  assert (Hok : alloc_ok (allocate_resources ResourceManager.init tensor_task)
                = true).
  { apply Hiff. intros k x hw [H | []]. injection H as <- <-.
    intros [= <-]. reflexivity. }
  destruct (Hgranted Hok) as (_ & Hlog & Hkeys & _ & Hentry).
  split; [exact Hok |]. split; [exact Hlog |]. split; [exact Hkeys |].
  destruct (Hentry "CPU"
              (HardwareStatus.init "CPU_Internal" TOTAL_CPU_CORES "Cores")
              eq_refl) as (hw & Hget & _ & _ & _ & _ & Ha & Hv).
  exists hw. split; [exact Hget |]. split; [exact Ha | exact Hv].
Defined.


(** ** Totals after hot-plugs *)

Lemma allocate_external (rm : ResourceManager.t) (task : AGI_Task.t) :
  external_hardware (alloc_rm (allocate_resources rm task))
  = external_hardware rm.
Proof.
  unfold allocate_resources, alloc_rm.
  destruct (check_request _ _ _) as [[c required] log1].
  destruct c; simpl; [| reflexivity].
  now destruct (apply_request _ _ _).
Qed.

Lemma free_external (rm : ResourceManager.t) (task : AGI_Task.t) :
  external_hardware (fst (free_resources rm task)) = external_hardware rm.
Proof.
  unfold free_resources. destruct (negb _); simpl; [reflexivity |].
  now destruct (release_request _ _ _).
Qed.

Lemma attached_to_snoc (k name : string) (e : HardwareStatus.t)
    (external : Dict.t HardwareStatus.t) :
  attached_to k (external ++ [(name, e)])%list
  = (attached_to k external
       ++ match merged_into name with
          | Some k' =>
              if String.eqb k' k then [HardwareStatus.total e] else []
          | None => []
          end)%list.
Proof.
  unfold attached_to. rewrite filter_app, map_app. f_equal. simpl.
  destruct (merged_into name) as [k' |]; [| reflexivity].
  now destruct (String.eqb k' k).
Qed.

Lemma totals_accumulated_step (rm : ResourceManager.t) (c : Call) :
  totals_accumulated rm -> totals_accumulated (step rm c).
Proof.
  unfold totals_accumulated.
  intros HP. destruct c as [task | task | name capacity unit]; simpl.
  - rewrite allocate_external.
    apply (allocate_keeps
             (fun k hw =>
                HardwareStatus.total hw
                = accumulate (base_capacity k)
                    (attached_to k (external_hardware rm))));
      [| exact HP].
    intros k hw usage H. exact H.
  - rewrite free_external.
    apply (free_keeps
             (fun k hw =>
                HardwareStatus.total hw
                = accumulate (base_capacity k)
                    (attached_to k (external_hardware rm))));
      [| exact HP].
    intros k hw usage H. exact H.
  - destruct (add_external_hardware rm name capacity unit)
      as [e | [rm' log]] eqn:Ea; [exact HP |].
    destruct (attach_cases_b64 _ _ _ _ _ _ Ea)
      as [[-> _] | (_ & Hext & Hh)]; [exact HP |].
    intros k hw. rewrite Hext, attached_to_snoc.
    destruct (merged_into name) as [kind |].
    + destruct Hh as (g & new_name & Hg & ->). rewrite get_set.
      destruct (String.eqb_spec k kind) as [-> | Hne].
      * intros [= <-]. rewrite String.eqb_refl. unfold accumulate.
        rewrite fold_left_app. simpl. f_equal. now apply HP.
      * destruct (String.eqb_spec kind k) as [-> | _]; [contradiction |].
        rewrite app_nil_r. apply HP.
    + rewrite Hh, app_nil_r. apply HP.
Qed.

(** X4.  After any sequence of calls on a fresh pool the total of every
    tracked kind is the capacity the kind was built with, to which the
    capacities of the devices attached to that kind were added one after the
    other, in the order of their registration, each sum rounded to
    binary64 (a name with ["GPU"] goes to the GPU, else one with ["RAM"] to
    the RAM, any other nowhere). *)
Theorem totals_accumulate_in_order (calls : list Call) (k : string)
    (hw : HardwareStatus.t) :
  Dict.get k (hardware (run ResourceManager.init calls)) = Some hw ->
  HardwareStatus.total hw
  = accumulate (base_capacity k)
      (attached_to k (external_hardware (run ResourceManager.init calls))).
Proof.
  revert k hw. change (totals_accumulated (run ResourceManager.init calls)).
  assert (H : forall rm, totals_accumulated rm ->
                         totals_accumulated (run rm calls)).
  { unfold run. induction calls as [| c calls IH]; intros rm Hrm; simpl.
    - exact Hrm.
    - apply IH. now apply totals_accumulated_step. }
  apply H. intros k hw. unfold ResourceManager.init, hardware. simpl.
  destruct (String.eqb_spec k "CPU") as [-> | _]; [now intros [= <-] |].
  destruct (String.eqb_spec k "GPU") as [-> | _]; [now intros [= <-] |].
  destruct (String.eqb_spec k "RAM") as [-> | _];
    [now intros [= <-] | discriminate].
Qed.

Lemma totals_accumulate_in_order_witness :
  exists hw,
    Dict.get "GPU" (hardware two_devices) = Some hw
    /\ HardwareStatus.total hw = accumulate 100 [0.3; 0.6]
    /\ HardwareStatus.total hw = 100.89999999999999.
Proof.
  eexists. split; [reflexivity |]. split; [| reflexivity].
  apply (totals_accumulate_in_order
           [Attach "eGPU_A" 0.3 "%"; Attach "eGPU_B" 0.6 "%"] "GPU").
  reflexivity.
Defined.

(** ** Releasing twice *)

(** X7.  Nothing records that a task was released.  Releasing a finished
    task a second time subtracts its request a second time: a kind of which
    it asked [x] and which had [a] allocated ends at
    [max(0, max(0, a - x) - x)], each difference rounded to binary64. *)
Theorem second_release_subtracts_again (rm : ResourceManager.t)
    (task : AGI_Task.t) (k : string) (x : float) (g : HardwareStatus.t) :
  Dict.wf (AGI_Task.resource_request task) ->
  AGI_Task.status task = "Finished" ->
  Dict.get k (AGI_Task.resource_request task) = Some x ->
  Dict.get k (hardware rm) = Some g ->
  exists hw,
    Dict.get k
      (hardware (fst (free_resources (fst (free_resources rm task)) task)))
    = Some hw
    /\ HardwareStatus.allocated hw
       = py_max 0 (py_max 0 (HardwareStatus.allocated g - x) - x)
    /\ HardwareStatus.total hw = HardwareStatus.total g
    /\ HardwareStatus.available hw
       = HardwareStatus.total g - HardwareStatus.allocated hw.
Proof.
  intros Hwf Hst Hx Hg.
  destruct (free_finished_b64 rm task Hwf Hst) as [_ Hget1].
  destruct (free_finished_b64 (fst (free_resources rm task)) task Hwf Hst)
    as [_ Hget2].
  rewrite Hget2, Hget1, Hg. simpl. unfold released. rewrite Hx. simpl.
  eexists. split; [reflexivity |]. simpl. repeat split.
Qed.

Lemma second_release_subtracts_again_witness :
  exists hw,
    Dict.get "GPU"
      (hardware
         (fst (free_resources (fst (free_resources one_allocated finished_task))
                 finished_task)))
    = Some hw
    /\ HardwareStatus.allocated hw = py_max 0 (py_max 0 (1 - 0.3) - 0.3)
    /\ HardwareStatus.total hw = 100
    /\ HardwareStatus.available hw = 100 - HardwareStatus.allocated hw.
Proof.
  apply (second_release_subtracts_again one_allocated finished_task "GPU" 0.3
           (HardwareStatus.mk "GPU_Internal" 100 "%" 1 99 false)).
  - apply nodupb_NoDup. reflexivity.
  - reflexivity.
  - reflexivity.
  - reflexivity.
Defined.

(** ** The request of a task in binary64 *)

(** X18.  Whatever the complexity, not-a-number included, no entry of the
    request is above [MAX_ALLOCATION_PER_TASK] times the capacity its kind
    was built with (4 cores, 50 of the GPU, 8 of the RAM): [min] returns
    one of its two arguments. *)
Theorem request_never_above_ceiling (complexity : float) :
  Forall (fun kx =>
            (MAX_ALLOCATION_PER_TASK * base_capacity (fst kx) <? snd kx)
            = false)
         (AGI_Task._calculate_request complexity)
  /\ map (fun k => MAX_ALLOCATION_PER_TASK * base_capacity k)
         ["CPU"; "GPU"; "RAM"]
     = [4; 50; 8].
Proof.
  split; [| reflexivity].
  unfold AGI_Task._calculate_request.
  repeat (apply Forall_cons; [| try apply Forall_nil]);
    cbn [fst snd]; unfold py_min;
    match goal with
    | |- (_ <? (if ?c <? ?v then _ else _)) = false =>
        destruct (c <? v) eqn:E; [reflexivity | exact E]
    end.
Qed.

(** ** A request that is not a number *)

Lemma ltb_nan_r (x : float) : (x <? nan) = false.
Proof.
  rewrite ltb_spec. change (Prim2SF nan) with S754_nan.
  unfold SFltb. now destruct (Prim2SF x).
Qed.

Lemma add_nan_r (x : float) : x + nan = nan.
Proof.
  apply Prim2SF_inj. rewrite add_spec. change (Prim2SF nan) with S754_nan.
  now destruct (Prim2SF x).
Qed.

(** X19.  The complexity is not checked, and every comparison with
    not-a-number is false.  A task whose complexity is not a number asks for
    not-a-number of every kind; on any pool it is admitted, and the
    reservation sets the allocated amount of CPU, GPU and RAM to 0 and the
    available amount to the total, whatever the running tasks hold. *)
Theorem nan_complexity_clears_the_pool (rm : ResourceManager.t)
    (task_id : string) (priority : TaskPriority) (k : string)
    (g : HardwareStatus.t) :
  In k ["CPU"; "GPU"; "RAM"] ->
  Dict.get k (hardware rm) = Some g ->
  AGI_Task.resource_request (task_of_complexity task_id priority nan)
  = [("CPU", nan); ("GPU", nan); ("RAM", nan)]
  /\ alloc_ok (allocate_resources rm (task_of_complexity task_id priority nan))
     = true
  /\ exists hw,
       Dict.get k
         (hardware
            (alloc_rm (allocate_resources rm
                         (task_of_complexity task_id priority nan))))
       = Some hw
       /\ HardwareStatus.allocated hw = 0
       /\ HardwareStatus.available hw = HardwareStatus.total g - 0.
Proof.
  intros Hk Hg.
  assert (Hreq : AGI_Task.resource_request
                   (task_of_complexity task_id priority nan)
                 = [("CPU", nan); ("GPU", nan); ("RAM", nan)])
    by reflexivity.
  assert (Hwf : Dict.wf (AGI_Task.resource_request
                           (task_of_complexity task_id priority nan))).
  { apply nodupb_NoDup. reflexivity. }
  assert (Hok : alloc_ok (allocate_resources rm
                            (task_of_complexity task_id priority nan))
                = true).
  { apply allocate_ok_iff_b64. rewrite Hreq.
    intros k' x hw [H | [H | [H | []]]]; injection H as <- <-;
      intros _; apply ltb_nan_r. }
  split; [exact Hreq |]. split; [exact Hok |].
  assert (Hx : Dict.get k (AGI_Task.resource_request
                             (task_of_complexity task_id priority nan))
               = Some nan).
  { rewrite Hreq. destruct Hk as [<- | [<- | [<- | []]]]; reflexivity. }
  destruct (granted_entry rm _ k nan g Hwf Hok Hx Hg)
    as (_ & hw & Hget & Ha & _ & Hv).
  exists hw. split; [exact Hget |].
  rewrite add_nan_r in Ha. change (py_max 0 nan) with 0 in Ha.
  split; [exact Ha |]. now rewrite Hv, Ha.
Qed.

Lemma nan_complexity_clears_the_pool_witness :
  AGI_Task.resource_request (task_of_complexity "N" LOW nan)
  = [("CPU", nan); ("GPU", nan); ("RAM", nan)]
  /\ alloc_ok (allocate_resources both_running
                 (task_of_complexity "N" LOW nan)) = true
  /\ exists hw,
       Dict.get "RAM"
         (hardware
            (alloc_rm (allocate_resources both_running
                         (task_of_complexity "N" LOW nan))))
       = Some hw
       /\ HardwareStatus.allocated hw = 0
       /\ HardwareStatus.available hw = 16 - 0.
Proof.
  apply (nan_complexity_clears_the_pool both_running "N" LOW "RAM"
           (HardwareStatus.mk "RAM_Internal" 16 "GB" 8.8 7.199999999999999
              false)).
  - simpl. tauto.
  - reflexivity.
Defined.

End Binary64Facts.
